(** * Harvard Shop inventory server: sale recording, stock audit trail, alerts

    A shallow embedding of the request handlers of [server.js] that touch
    the inventory:

    - [POST /api/sales]            ([post_sales])
    - [PUT /api/products/:id]      ([put_product])
    - [PUT /api/alerts/:id/resolve] ([resolve_alert])
    - the helper [createLowStockAlert]

    The SQLite database is a record of row lists (one list per table, in
    rowid order), the shared connection [db] is that record together with
    the snapshot taken by [BEGIN TRANSACTION].  Every SQL statement of a
    handler is one function on the connection; a statement can fail, either
    because a column constraint of the schema rejects it or because the
    engine reports an error ([faults]), and the handler's [if (err)]
    branches are followed as written.

    Modelling conventions:
    - requests are run one at a time, each one to completion (all its
      callbacks, and the alert helper it starts);
    - JSON numbers that the schema stores in INTEGER columns are [Z];
      a price of a request is the exact value [Q] of the binary64 number
      the handler receives, and what the handler computes from it is
      computed in binary64 ([number]); an absent JSON field is [None];
    - [CURRENT_TIMESTAMP] is an argument [now] of each handler;
    - columns that no modelled statement reads or writes are left out. *)

From Stdlib Require Import ZArith QArith Qabs Qround Lqa Lia.
From Stdlib Require Import List String Ascii Bool DecimalString Sorted.
From Stdlib Require SpecFloat.
Import ListNotations.

Local Open Scope string_scope.
Local Open Scope Z_scope.

(** ** JavaScript numbers

    A JavaScript number is an IEEE 754 binary64.  [binary64 q] is the
    number nearest to the rational [q] (ties to even, an infinity on
    overflow): what a numeric literal is parsed to.  It is computed by the
    correctly rounded division of the Standard Library's specification of
    IEEE arithmetic. *)
Definition number : Set := SpecFloat.spec_float.

Definition binary64 (q : Q) : number :=
  match Qnum q with
  | Z0 => SpecFloat.S754_zero false
  | Zpos a =>
      SpecFloat.SFdiv 53 1024 (SpecFloat.S754_finite false a 0)
                      (SpecFloat.S754_finite false (Qden q) 0)
  | Zneg a =>
      SpecFloat.SFdiv 53 1024 (SpecFloat.S754_finite true a 0)
                      (SpecFloat.S754_finite false (Qden q) 0)
  end.

(** The value of [m * 2 ^ e]. *)
Definition dyadic (m : positive) (e : Z) : Q :=
  match e with
  | Z0 => Zpos m # 1
  | Zpos p => Zpos (m * 2 ^ p) # 1
  | Zneg p => Zpos m # (2 ^ p)
  end.

(** The value of a finite number. *)
Definition number_value (x : number) : option Q :=
  match x with
  | SpecFloat.S754_zero _ => Some 0%Q
  | SpecFloat.S754_finite s m e =>
      Some (if s then (- dyadic m e)%Q else dyadic m e)
  | _ => None
  end.

(** The value of the number that the literal [q] is parsed to. *)
Definition nearest_double (q : Q) : Q :=
  match number_value (binary64 q) with Some v => v | None => 0%Q end.

(** [quantity_sold * unit_price]: the IEEE product of the two numbers. *)
Definition js_multiply (quantity_sold : Z) (unit_price : Q) : number :=
  SpecFloat.SFmul 53 1024 (binary64 (inject_Z quantity_sold))
                  (binary64 unit_price).

(** [parseFloat] of the decimal text of [n] hundredths with its sign:
    "-0.00" is read as minus zero. *)
Definition parseFloat_hundredths (negative : bool) (n : Z) : number :=
  if (n =? 0)%Z then SpecFloat.S754_zero negative
  else binary64 ((if negative then (- n)%Z else n) # 100).

(** [parseFloat(x.toFixed(2))].  Below 1e21, [toFixed] prints the sign
    and the integer [n] for which [n / 100] is nearest to the value of
    [|x|] (the larger one on a tie); from 1e21 on, and for an infinity,
    it prints the number itself, which [parseFloat] reads back. *)
Definition toFixed2 (x : number) : number :=
  match x with
  | SpecFloat.S754_zero _ => SpecFloat.S754_zero false
  | SpecFloat.S754_finite s m e =>
      if Qle_bool (inject_Z (10 ^ 21)) (dyadic m e) then x
      else parseFloat_hundredths
             s (Qfloor (dyadic m e * inject_Z 100 + (1 # 2)))
  | SpecFloat.S754_infinity s => SpecFloat.S754_infinity s
  | SpecFloat.S754_nan => SpecFloat.S754_nan
  end.

(** ** Schema *)

Inductive alert_type := low_stock | out_of_stock | overstock | price_change.
Inductive alert_status := active | resolved | dismissed.
Inductive alert_priority := low | medium | high | critical.
Inductive movement_type := sale | restock | adjustment | return_ | damage.

Module Products.
Record row := {
    id : Z;
    name : string;
    category : string;
    supplier : option string;
    cost_price : option Q;
    sell_price : Q;
    description : option string;
    sku : option string;
    updated_at : Z }.
End Products.

Module Inventory.
Record row := {
    id : Z;
    product_id : Z;
    quantity : Z;
    reorder_level : Z;
    max_stock_level : option Z;
    location : option string;
    updated_at : Z }.
End Inventory.

Module Sales.
Record row := {
    id : Z;
    product_id : Z;
    quantity_sold : Z;
    unit_price : Q;
    total_amount : number;
    sale_date : Z;
    cashier_name : option string;
    payment_method : string }.
End Sales.

Module Alerts.
Record row := {
    id : Z;
    product_id : Z;
    alert_type : alert_type;
    message : string;
    status : alert_status;
    priority : alert_priority;
    created_at : Z;
    resolved_at : option Z;
    resolved_by : option string }.
End Alerts.

Module StockMovements.
Record row := {
    id : Z;
    product_id : Z;
    movement_type : movement_type;
    quantity_change : Z;
    previous_quantity : Z;
    new_quantity : Z;
    reason : string;
    user_id : Z;
    created_at : Z }.
End StockMovements.

(** The AUTOINCREMENT counters of the three tables the handlers insert
    into. *)
Record sqlite_sequence := {
  seq_sales : Z;
  seq_alerts : Z;
  seq_stock_movements : Z }.

Record tables := {
  products : list Products.row;
  inventory : list Inventory.row;
  sales : list Sales.row;
  alerts : list Alerts.row;
  stock_movements : list StockMovements.row;
  sequences : sqlite_sequence }.

(** The shared connection: the current contents and, while a transaction
    is open, the contents at its BEGIN. *)
Record database := {
  store : tables;
  txn : option tables }.

Definition with_store (t : tables) (db : database) : database :=
  {| store := t; txn := txn db |}.

(** ** Transaction statements *)

(** [db.run('BEGIN TRANSACTION')]: inside a transaction the statement is
    an error, which no callback receives. *)
Definition run_begin (db : database) : database :=
  match txn db with
  | None => {| store := store db; txn := Some (store db) |}
  | Some _ => db
  end.

Definition run_rollback (db : database) : database :=
  match txn db with
  | Some s => {| store := s; txn := None |}
  | None => db
  end.

Definition run_commit (db : database) : database :=
  {| store := store db; txn := None |}.

(** ** Engine errors

    One flag per statement of the handlers: when set, that statement
    calls back with [err]. *)
Record faults := {
  select_inventory_err : bool;
  insert_sale_err : bool;
  update_inventory_err : bool;
  insert_movement_err : bool;
  select_alert_err : bool;
  select_product_err : bool;
  insert_alert_err : bool;
  update_product_err : bool;
  update_alert_err : bool }.

Definition no_faults : faults :=
  {| select_inventory_err := false; insert_sale_err := false;
     update_inventory_err := false; insert_movement_err := false;
     select_alert_err := false; select_product_err := false;
     insert_alert_err := false; update_product_err := false;
     update_alert_err := false |}.

(** ** Requests and responses *)

Record user := { userId : Z; username : string }.

Record sale_body := {
  body_product_id : option Z;
  body_quantity_sold : option Z;
  body_unit_price : option Q;
  body_cashier_name : option string;
  body_payment_method : option string }.

Record product_body := {
  body_name : option string;
  body_category : option string;
  body_supplier : option string;
  body_cost_price : option Q;
  body_sell_price : option Q;
  body_description : option string;
  body_sku : option string;
  body_quantity : option Z;
  body_reorder_level : option Z;
  body_max_stock_level : option Z;
  body_location : option string }.

Inductive response :=
| BadRequest (error : string)                               (* 400 *)
| InsufficientInventory (available requested : Z)           (* 400 *)
| NotFound (error : string)                                 (* 404 *)
| ServerError (error : string)                              (* 500 *)
| SaleCreated (id newQuantity : Z) (lowStockAlert : bool)   (* 201 *)
| Ok (message : string).                                    (* 200 *)

(** ** JavaScript helpers *)

(** [!x] for a numeric JSON field. *)
Definition falsy_Z (x : option Z) : bool :=
  match x with None => true | Some n => n =? 0 end.

Definition falsy_Q (x : option Q) : bool :=
  match x with None => true | Some q => Qeq_bool q 0 end.

(** Template-literal rendering of an integer. *)
Definition string_of_Z (n : Z) : string :=
  NilZero.string_of_int (Z.to_int n).

(** ** Statements of [POST /api/sales] *)

(** [SELECT quantity, reorder_level FROM inventory WHERE product_id = ?]
    through [db.get]: the first matching row. *)
Definition select_inventory (pid : Z) (t : tables) : option Inventory.row :=
  find (fun r => Inventory.product_id r =? pid) (inventory t).

Definition insert_sale (now : Z) (pid qty : Z) (price : Q) (total : number)
    (cashier : option string) (method : string) (t : tables) : tables * Z :=
  let lastID := seq_sales (sequences t) + 1 in
  ({| products := products t;
      inventory := inventory t;
      sales := (sales t ++
        [ {| Sales.id := lastID; Sales.product_id := pid;
             Sales.quantity_sold := qty; Sales.unit_price := price;
             Sales.total_amount := total; Sales.sale_date := now;
             Sales.cashier_name := cashier;
             Sales.payment_method := method |} ])%list;
      alerts := alerts t;
      stock_movements := stock_movements t;
      sequences :=
        {| seq_sales := lastID;
           seq_alerts := seq_alerts (sequences t);
           seq_stock_movements := seq_stock_movements (sequences t) |} |},
   lastID).

Definition set_quantity (now newQuantity : Z) (r : Inventory.row)
  : Inventory.row :=
  {| Inventory.id := Inventory.id r;
     Inventory.product_id := Inventory.product_id r;
     Inventory.quantity := newQuantity;
     Inventory.reorder_level := Inventory.reorder_level r;
     Inventory.max_stock_level := Inventory.max_stock_level r;
     Inventory.location := Inventory.location r;
     Inventory.updated_at := now |}.

Definition with_inventory (inv : list Inventory.row) (t : tables) : tables :=
  {| products := products t; inventory := inv; sales := sales t;
     alerts := alerts t; stock_movements := stock_movements t;
     sequences := sequences t |}.

(** [UPDATE inventory SET quantity = ?, updated_at = CURRENT_TIMESTAMP
    WHERE product_id = ?]: every matching row. *)
Definition update_inventory_quantity (now newQuantity pid : Z) (t : tables)
  : tables :=
  with_inventory
    (map (fun r => if Inventory.product_id r =? pid
                   then set_quantity now newQuantity r else r)
         (inventory t)) t.

Definition insert_stock_movement (now : Z) (pid : Z) (kind : movement_type)
    (change prev new : Z) (why : string) (uid : Z) (t : tables) : tables :=
  let lastID := seq_stock_movements (sequences t) + 1 in
  {| products := products t;
     inventory := inventory t;
     sales := sales t;
     alerts := alerts t;
     stock_movements := (stock_movements t ++
       [ {| StockMovements.id := lastID;
            StockMovements.product_id := pid;
            StockMovements.movement_type := kind;
            StockMovements.quantity_change := change;
            StockMovements.previous_quantity := prev;
            StockMovements.new_quantity := new;
            StockMovements.reason := why;
            StockMovements.user_id := uid;
            StockMovements.created_at := now |} ])%list;
     sequences :=
       {| seq_sales := seq_sales (sequences t);
          seq_alerts := seq_alerts (sequences t);
          seq_stock_movements := lastID |} |}.

(** ** [createLowStockAlert] *)

Definition is_active_low_stock (pid : Z) (a : Alerts.row) : bool :=
  (Alerts.product_id a =? pid)
  && match Alerts.alert_type a with low_stock => true | _ => false end
  && match Alerts.status a with active => true | _ => false end.

Definition select_product (pid : Z) (t : tables) : option Products.row :=
  find (fun p => Products.id p =? pid) (products t).

Definition insert_alert (now pid : Z) (kind : alert_type) (msg : string)
    (prio : alert_priority) (t : tables) : tables :=
  let lastID := seq_alerts (sequences t) + 1 in
  {| products := products t;
     inventory := inventory t;
     sales := sales t;
     alerts := (alerts t ++
       [ {| Alerts.id := lastID; Alerts.product_id := pid;
            Alerts.alert_type := kind; Alerts.message := msg;
            Alerts.status := active; Alerts.priority := prio;
            Alerts.created_at := now; Alerts.resolved_at := None;
            Alerts.resolved_by := None |} ])%list;
     stock_movements := stock_movements t;
     sequences :=
       {| seq_sales := seq_sales (sequences t);
          seq_alerts := lastID;
          seq_stock_movements := seq_stock_movements (sequences t) |} |}.

Definition alert_message (productName : string)
    (currentQuantity reorderLevel : Z) : string :=
  if currentQuantity =? 0
  then productName ++ " is out of stock"
  else productName ++ " is running low (" ++ string_of_Z currentQuantity
       ++ " remaining, reorder at " ++ string_of_Z reorderLevel ++ ")".

Definition createLowStockAlert (f : faults) (now : Z)
    (productId currentQuantity reorderLevel : Z) (db : database) : database :=
  if select_alert_err f then db
  else
    match find (is_active_low_stock productId) (alerts (store db)) with
    | Some _ => db
    | None =>
        if select_product_err f then db
        else
          match select_product productId (store db) with
          | None => db
          | Some product =>
              let priority :=
                if currentQuantity =? 0 then critical else high in
              let alertType :=
                if currentQuantity =? 0 then out_of_stock else low_stock in
              let message :=
                alert_message (Products.name product)
                              currentQuantity reorderLevel in
              if insert_alert_err f then db
              else with_store
                     (insert_alert now productId alertType message priority
                                   (store db)) db
          end
    end.

(** ** [POST /api/sales] *)

Definition validation_error : response :=
  BadRequest "Valid product ID, quantity, and unit price are required".

Definition post_sales (f : faults) (now : Z) (u : user) (body : sale_body)
    (db : database) : database * response :=
  if falsy_Z (body_product_id body) || falsy_Z (body_quantity_sold body)
     || falsy_Q (body_unit_price body)
     || match body_quantity_sold body with
        | Some q => q <=? 0
        | None => false
        end
  then (db, validation_error)
  else
  match body_product_id body, body_quantity_sold body, body_unit_price body with
  | Some product_id, Some quantity_sold, Some unit_price =>
      let payment_method :=
        match body_payment_method body with
        | Some m => m
        | None => "cash"
        end in
      let total_amount := toFixed2 (js_multiply quantity_sold unit_price) in
      let db := run_begin db in
      match (if select_inventory_err f then None
             else select_inventory product_id (store db)) with
      | None =>
          (run_rollback db, BadRequest "Product not found in inventory")
      | Some row =>
          if Inventory.quantity row <? quantity_sold
          then (run_rollback db,
                InsufficientInventory (Inventory.quantity row) quantity_sold)
          else
            let previousQuantity := Inventory.quantity row in
            let newQuantity := previousQuantity - quantity_sold in
            if insert_sale_err f
            then (run_rollback db, ServerError "Failed to record sale")
            else
              let '(t, saleId) :=
                insert_sale now product_id quantity_sold unit_price
                            total_amount (body_cashier_name body)
                            payment_method (store db) in
              let db := with_store t db in
              if update_inventory_err f
              then (run_rollback db,
                    ServerError "Failed to update inventory")
              else
                let db :=
                  with_store
                    (update_inventory_quantity now newQuantity product_id
                                               (store db)) db in
                let db :=
                  if insert_movement_err f
                  then db (* the error is printed, nothing else *)
                  else with_store
                         (insert_stock_movement now product_id sale
                            (- quantity_sold) previousQuantity newQuantity
                            ("Sale #" ++ string_of_Z saleId) (userId u)
                            (store db)) db in
                let db := run_commit db in
                let db :=
                  if newQuantity <=? Inventory.reorder_level row
                  then createLowStockAlert f now product_id newQuantity
                                           (Inventory.reorder_level row) db
                  else db in
                (db, SaleCreated saleId newQuantity
                       (newQuantity <=? Inventory.reorder_level row))
      end
  | _, _, _ => (db, validation_error) (* absent fields are falsy *)
  end.

(** ** [PUT /api/products/:id] *)

Definition option_string_eqb (a b : option string) : bool :=
  match a, b with
  | Some x, Some y => String.eqb x y
  | _, _ => false
  end.

(** [UPDATE products SET ... WHERE id = ?]: [None] is an error (a NOT NULL
    or UNIQUE constraint of the row being written, or the engine),
    otherwise the new table and [this.changes]. *)
Definition update_product (f : faults) (now id : Z) (b : product_body)
    (t : tables) : option (tables * Z) :=
  if update_product_err f then None
  else
    match select_product id t with
    | None => Some (t, 0)
    | Some _ =>
        match body_name b, body_category b, body_sell_price b with
        | Some name, Some category, Some sell_price =>
            if existsb (fun p => negb (Products.id p =? id)
                                 && option_string_eqb (Products.sku p)
                                                      (body_sku b))
                       (products t)
            then None
            else
              Some
                ({| products :=
                      map (fun p =>
                             if Products.id p =? id
                             then {| Products.id := Products.id p;
                                     Products.name := name;
                                     Products.category := category;
                                     Products.supplier := body_supplier b;
                                     Products.cost_price := body_cost_price b;
                                     Products.sell_price := sell_price;
                                     Products.description :=
                                       body_description b;
                                     Products.sku := body_sku b;
                                     Products.updated_at := now |}
                             else p)
                          (products t);
                    inventory := inventory t; sales := sales t;
                    alerts := alerts t;
                    stock_movements := stock_movements t;
                    sequences := sequences t |},
                 Z.of_nat
                   (List.length (filter (fun p => Products.id p =? id)
                                   (products t))))
        | _, _, _ => None
        end
    end.

(** [UPDATE inventory SET quantity = ?, reorder_level = ?,
    max_stock_level = ?, location = ?, updated_at = CURRENT_TIMESTAMP
    WHERE product_id = ?]: [None] is an error (NOT NULL on [quantity] or
    [reorder_level] of a row being written, or the engine). *)
Definition update_inventory (f : faults) (now id : Z) (b : product_body)
    (t : tables) : option tables :=
  if update_inventory_err f then None
  else
    match select_inventory id t with
    | None => Some t
    | Some _ =>
        match body_quantity b, body_reorder_level b with
        | Some quantity, Some reorder_level =>
            Some
              (with_inventory
                 (map (fun r =>
                         if Inventory.product_id r =? id
                         then {| Inventory.id := Inventory.id r;
                                 Inventory.product_id :=
                                   Inventory.product_id r;
                                 Inventory.quantity := quantity;
                                 Inventory.reorder_level := reorder_level;
                                 Inventory.max_stock_level :=
                                   body_max_stock_level b;
                                 Inventory.location := body_location b;
                                 Inventory.updated_at := now |}
                         else r)
                      (inventory t)) t)
        | _, _ => None
        end
    end.

(** [quantity !== previousQuantity] *)
Definition strict_neq (quantity : option Z) (previousQuantity : Z) : bool :=
  match quantity with
  | Some q => negb (q =? previousQuantity)
  | None => true
  end.

Definition put_product (f : faults) (now : Z) (u : user) (id : Z)
    (b : product_body) (db : database) : database * response :=
  let db := run_begin db in
  match update_product f now id b (store db) with
  | None => (run_rollback db, BadRequest "Failed to update product")
  | Some (t, changes) =>
      let db := with_store t db in
      if changes =? 0
      then (run_rollback db, NotFound "Product not found")
      else
        if select_inventory_err f
        then (run_rollback db,
              ServerError "Failed to fetch current inventory")
        else
          let previousQuantity :=
            match select_inventory id (store db) with
            | Some row => Inventory.quantity row
            | None => 0
            end in
          match update_inventory f now id b (store db) with
          | None => (run_rollback db, ServerError "Failed to update inventory")
          | Some t =>
              let db := with_store t db in
              let db :=
                if strict_neq (body_quantity b) previousQuantity
                then
                  match body_quantity b with
                  | Some quantity =>
                      let quantityChange := quantity - previousQuantity in
                      let movementType :=
                        if 0 <? quantityChange
                        then adjustment else adjustment in
                      if insert_movement_err f
                      then db (* no callback receives the error *)
                      else with_store
                             (insert_stock_movement now id movementType
                                quantityChange previousQuantity quantity
                                "Manual adjustment" (userId u) (store db)) db
                  | None => db (* NULL in NOT NULL columns: the insert fails *)
                  end
                else db in
              let db := run_commit db in
              (db, Ok "Product updated successfully")
          end
  end.

(** ** [PUT /api/alerts/:id/resolve] *)

Definition resolve_row (now : Z) (by_ : string) (a : Alerts.row)
  : Alerts.row :=
  {| Alerts.id := Alerts.id a; Alerts.product_id := Alerts.product_id a;
     Alerts.alert_type := Alerts.alert_type a;
     Alerts.message := Alerts.message a;
     Alerts.status := resolved; Alerts.priority := Alerts.priority a;
     Alerts.created_at := Alerts.created_at a;
     Alerts.resolved_at := Some now; Alerts.resolved_by := Some by_ |}.

Definition with_alerts (al : list Alerts.row) (t : tables) : tables :=
  {| products := products t; inventory := inventory t; sales := sales t;
     alerts := al; stock_movements := stock_movements t;
     sequences := sequences t |}.

Definition resolve_alert (f : faults) (now : Z) (u : user) (id : Z)
    (db : database) : database * response :=
  if update_alert_err f
  then (db, ServerError "Failed to resolve alert")
  else
    let changes :=
      List.length (filter (fun a => Alerts.id a =? id) (alerts (store db))) in
    let db :=
      with_store
        (with_alerts
           (map (fun a => if Alerts.id a =? id
                          then resolve_row now (username u) a else a)
                (alerts (store db)))
           (store db)) db in
    if (changes =? 0)%nat
    then (db, NotFound "Alert not found")
    else (db, Ok "Alert resolved successfully").

(** ** Running several requests *)

Inductive request :=
| PostSale (body : sale_body)
| PutProduct (id : Z) (body : product_body)
| ResolveAlert (id : Z).

Record call := {
  call_faults : faults;
  call_time : Z;
  call_user : user;
  call_request : request }.

Definition handle (c : call) (db : database) : database * response :=
  match call_request c with
  | PostSale body =>
      post_sales (call_faults c) (call_time c) (call_user c) body db
  | PutProduct id body =>
      put_product (call_faults c) (call_time c) (call_user c) id body db
  | ResolveAlert id =>
      resolve_alert (call_faults c) (call_time c) (call_user c) id db
  end.

Fixpoint run (calls : list call) (db : database) : database :=
  match calls with
  | [] => db
  | c :: rest => run rest (fst (handle c db))
  end.

(** ** Predicates used in the statements *)

Definition is_created (r : response) : bool :=
  match r with SaleCreated _ _ _ => true | _ => false end.

(** No transaction is open: the state of the connection between two
    requests. *)
Definition idle (db : database) : Prop := txn db = None.

Definition nonneg_tables (t : tables) : Prop :=
  Forall (fun r => 0 <= Inventory.quantity r) (inventory t).

Definition nonneg_db (db : database) : Prop :=
  nonneg_tables (store db)
  /\ match txn db with Some s => nonneg_tables s | None => True end.

(** [s] occurs inside [m]. *)
Definition embeds (s m : string) : Prop :=
  exists before after, m = before ++ s ++ after.

Fixpoint embedsb (s m : string) : bool :=
  String.prefix s m
  || match m with
     | EmptyString => false
     | String _ rest => embedsb s rest
     end.

(** ** Derived notions used in the statements *)

Definition default_payment_method (body : sale_body) : string :=
  match body_payment_method body with Some m => m | None => "cash" end.

(** The tables a sale leaves behind when it is committed. *)
Definition committed_sale (f : faults) (now : Z) (u : user)
    (body : sale_body) (pid qs : Z) (price : Q) (row : Inventory.row)
    (t : tables) : tables :=
  let t1 := fst (insert_sale now pid qs price
                   (toFixed2 (js_multiply qs price))
                   (body_cashier_name body)
                   (default_payment_method body) t) in
  let t2 := update_inventory_quantity now (Inventory.quantity row - qs)
                                      pid t1 in
  if insert_movement_err f then t2
  else insert_stock_movement now pid sale (- qs) (Inventory.quantity row)
         (Inventory.quantity row - qs)
         ("Sale #" ++ string_of_Z (seq_sales (sequences t) + 1))
         (userId u) t2.

Definition is_ok (r : response) : bool :=
  match r with Ok _ => true | _ => false end.

Definition previous_quantity_of (id : Z) (t : tables) : Z :=
  match select_inventory id t with
  | Some row => Inventory.quantity row
  | None => 0
  end.

(** The movement row the product update logs, if it logs one. *)
Definition log_adjustment (f : faults) (now : Z) (u : user) (id : Z)
    (b : product_body) (previousQuantity : Z) (t : tables) : tables :=
  if strict_neq (body_quantity b) previousQuantity
  then
    match body_quantity b with
    | Some quantity =>
        if insert_movement_err f then t
        else insert_stock_movement now id adjustment
               (quantity - previousQuantity) previousQuantity quantity
               "Manual adjustment" (userId u) t
    | None => t
    end
  else t.

Definition reprice_row (g : Products.row -> Q) (p : Products.row)
  : Products.row :=
  {| Products.id := Products.id p; Products.name := Products.name p;
     Products.category := Products.category p;
     Products.supplier := Products.supplier p;
     Products.cost_price := Products.cost_price p;
     Products.sell_price := g p;
     Products.description := Products.description p;
     Products.sku := Products.sku p;
     Products.updated_at := Products.updated_at p |}.

(** The same database with other sell prices in the catalogue. *)
Definition reprice_tables (g : Products.row -> Q) (t : tables) : tables :=
  {| products := map (reprice_row g) (products t);
     inventory := inventory t; sales := sales t; alerts := alerts t;
     stock_movements := stock_movements t; sequences := sequences t |}.

Definition reprice (g : Products.row -> Q) (db : database) : database :=
  {| store := reprice_tables g (store db);
     txn := option_map (reprice_tables g) (txn db) |}.

(** A product update that carries a quantity carries a non-negative one. *)
Definition nonneg_request (r : request) : bool :=
  match r with
  | PutProduct _ b =>
      match body_quantity b with
      | Some quantity => 0 <=? quantity
      | None => true
      end
  | _ => true
  end.


(** One inventory row per product. *)
Definition one_row_per_product (t : tables) : Prop :=
  NoDup (map Inventory.product_id (inventory t)).

Definition alert_key (a : Alerts.row) : Z * alert_type * alert_status :=
  (Alerts.product_id a, Alerts.alert_type a, Alerts.status a).

(** ** Scenario data: the mug of the sample catalogue *)

Module Scenario.

Definition mug : Products.row :=
  {| Products.id := 2; Products.name := "Harvard Mug";
     Products.category := "Accessories";
     Products.supplier := Some "Campus Store Inc";
     Products.cost_price := Some (650 # 100);
     Products.sell_price := 1295 # 100;
     Products.description := None;
     Products.sku := Some "HRV-MUG-001"; Products.updated_at := 0 |}.

Definition mug_stock (quantity reorder_level : Z) : Inventory.row :=
  {| Inventory.id := 2; Inventory.product_id := 2;
     Inventory.quantity := quantity;
     Inventory.reorder_level := reorder_level;
     Inventory.max_stock_level := Some 100;
     Inventory.location := Some "Main Store"; Inventory.updated_at := 0 |}.

Definition shop (quantity reorder_level : Z) : database :=
  {| store :=
       {| products := [mug]; inventory := [mug_stock quantity reorder_level];
          sales := []; alerts := []; stock_movements := [];
          sequences := {| seq_sales := 0; seq_alerts := 0;
                          seq_stock_movements := 0 |} |};
     txn := None |}.

Definition sarah : user := {| userId := 3; username := "sarah" |}.
Definition mike : user := {| userId := 4; username := "mike" |}.

Definition sell (quantity_sold : Z) (unit_price : Q) : sale_body :=
  {| body_product_id := Some 2; body_quantity_sold := Some quantity_sold;
     body_unit_price := Some unit_price;
     body_cashier_name := Some "Sarah M."; body_payment_method := None |}.

Definition edit_mug (quantity : Z) : product_body :=
  {| body_name := Some "Harvard Mug"; body_category := Some "Accessories";
     body_supplier := Some "Campus Store Inc";
     body_cost_price := Some (650 # 100);
     body_sell_price := Some (1295 # 100); body_description := None;
     body_sku := Some "HRV-MUG-001"; body_quantity := Some quantity;
     body_reorder_level := Some 15; body_max_stock_level := Some 100;
     body_location := Some "Main Store" |}.

Definition movement_log_fails : faults :=
  {| select_inventory_err := false; insert_sale_err := false;
     update_inventory_err := false; insert_movement_err := true;
     select_alert_err := false; select_product_err := false;
     insert_alert_err := false; update_product_err := false;
     update_alert_err := false |}.

End Scenario.

Module AlertScenario.

Definition stale (status : alert_status) (resolved_at : option Z)
    (resolved_by : option string) : Alerts.row :=
  {| Alerts.id := 1; Alerts.product_id := 2; Alerts.alert_type := low_stock;
     Alerts.message :=
       "Harvard Mug is running low (5 remaining, reorder at 15)";
     Alerts.status := status; Alerts.priority := high;
     Alerts.created_at := 10; Alerts.resolved_at := resolved_at;
     Alerts.resolved_by := resolved_by |}.

Definition shop_with (a : Alerts.row) : database :=
  {| store :=
       {| products := [Scenario.mug];
          inventory := [Scenario.mug_stock 5 15];
          sales := []; alerts := [a]; stock_movements := [];
          sequences := {| seq_sales := 0; seq_alerts := 1;
                          seq_stock_movements := 0 |} |};
     txn := None |}.

End AlertScenario.

(** ** [POST /api/products] *)

(** What the engine contributes to one request of [POST /api/products]:
    the rowids AUTOINCREMENT hands out for the two new rows
    ([this.lastID]) and whether a statement calls back with [err]. *)
Record create_env := {
  insert_product_err : bool;
  insert_inventory_err : bool;
  insert_restock_err : bool;
  product_rowid : Z;
  inventory_rowid : Z }.

Inductive create_response :=
| Refused (r : response)
| ProductCreated (id : Z).                                  (* 201 *)

(** [!x] for a string JSON field. *)
Definition falsy_string (x : option string) : bool :=
  match x with None => true | Some s => String.eqb s "" end.

(** Destructuring default: [x = d]. *)
Definition or_default {A} (d : A) (x : option A) : A :=
  match x with Some v => v | None => d end.

Inductive insert_failure := unique_constraint | engine_failure.

(** [INSERT INTO products (...)]: the UNIQUE index on [sku] rejects a
    non-NULL sku that another product has. *)
Definition insert_product (e : create_env) (now : Z) (name category : string)
    (sell_price : Q) (b : product_body) (t : tables)
  : insert_failure + tables * Z :=
  if insert_product_err e then inl engine_failure
  else if existsb (fun p => option_string_eqb (Products.sku p) (body_sku b))
                  (products t)
  then inl unique_constraint
  else
    inr ({| products := (products t ++
              [ {| Products.id := product_rowid e; Products.name := name;
                   Products.category := category;
                   Products.supplier := body_supplier b;
                   Products.cost_price := body_cost_price b;
                   Products.sell_price := sell_price;
                   Products.description := body_description b;
                   Products.sku := body_sku b;
                   Products.updated_at := now |} ])%list;
            inventory := inventory t; sales := sales t; alerts := alerts t;
            stock_movements := stock_movements t;
            sequences := sequences t |},
         product_rowid e).

(** [INSERT INTO inventory (product_id, quantity, reorder_level,
    max_stock_level, location)]. *)
Definition insert_inventory (e : create_env) (now productId quantity
    reorder_level max_stock_level : Z) (location : string) (t : tables)
  : tables :=
  with_inventory
    (inventory t ++
     [ {| Inventory.id := inventory_rowid e;
          Inventory.product_id := productId;
          Inventory.quantity := quantity;
          Inventory.reorder_level := reorder_level;
          Inventory.max_stock_level := Some max_stock_level;
          Inventory.location := Some location;
          Inventory.updated_at := now |} ])%list t.

Definition post_products (e : create_env) (now : Z) (u : user)
    (b : product_body) (db : database) : database * create_response :=
  let quantity := or_default 0 (body_quantity b) in
  let reorder_level := or_default 10 (body_reorder_level b) in
  let max_stock_level := or_default 100 (body_max_stock_level b) in
  let location := or_default "Main Store" (body_location b) in
  if falsy_string (body_name b) || falsy_string (body_category b)
     || falsy_Q (body_sell_price b)
  then (db, Refused (BadRequest
                       "Name, category, and sell price are required"))
  else
  match body_name b, body_category b, body_sell_price b with
  | Some name, Some category, Some sell_price =>
      let db := run_begin db in
      match insert_product e now name category sell_price b (store db) with
      | inl unique_constraint =>
          (run_rollback db, Refused (BadRequest "SKU already exists"))
      | inl engine_failure =>
          (run_rollback db, Refused (ServerError "Failed to create product"))
      | inr (t, productId) =>
          let db := with_store t db in
          if insert_inventory_err e
          then (run_rollback db,
                Refused (ServerError "Failed to create inventory record"))
          else
            let db :=
              with_store
                (insert_inventory e now productId quantity reorder_level
                                  max_stock_level location (store db)) db in
            let db :=
              if 0 <? quantity
              then
                if insert_restock_err e
                then db (* no callback receives the error *)
                else with_store
                       (insert_stock_movement now productId restock
                          quantity 0 quantity "Initial stock" (userId u)
                          (store db)) db
              else db in
            let db := run_commit db in
            (db, ProductCreated productId)
      end
  | _, _, _ =>
      (db, Refused (BadRequest
                      "Name, category, and sell price are required"))
  end.

(** ** Stock bookkeeping *)

(** The quantity the handlers read for a product: that of its first
    inventory row, 0 without one. *)
Definition quantity_on_hand (pid : Z) (t : tables) : Z :=
  previous_quantity_of pid t.

(** Units of a product recorded as sold in the sales table. *)
Definition units_sold (pid : Z) (t : tables) : Z :=
  fold_right (fun s acc =>
                if Sales.product_id s =? pid
                then Sales.quantity_sold s + acc else acc)
             0 (sales t).

Definition is_put_product (r : request) : bool :=
  match r with PutProduct _ _ => true | _ => false end.

Module CreateScenario.

Definition engine : create_env :=
  {| insert_product_err := false; insert_inventory_err := false;
     insert_restock_err := false; product_rowid := 11;
     inventory_rowid := 11 |}.

Definition inventory_insert_fails : create_env :=
  {| insert_product_err := false; insert_inventory_err := true;
     insert_restock_err := false; product_rowid := 11;
     inventory_rowid := 11 |}.

Definition scarf (sku : option string) (quantity : option Z) : product_body :=
  {| body_name := Some "Harvard Scarf"; body_category := Some "Apparel";
     body_supplier := None; body_cost_price := Some (900 # 100);
     body_sell_price := Some (2250 # 100); body_description := None;
     body_sku := sku; body_quantity := quantity;
     body_reorder_level := None; body_max_stock_level := None;
     body_location := None |}.

(** A request that renames the mug and carries no inventory field. *)
Definition rename_only : product_body :=
  {| body_name := Some "Harvard Mug - Classic White";
     body_category := Some "Accessories"; body_supplier := None;
     body_cost_price := None; body_sell_price := Some (1295 # 100);
     body_description := None; body_sku := Some "HRV-MUG-001";
     body_quantity := None; body_reorder_level := None;
     body_max_stock_level := None; body_location := None |}.

(** The catalogue holds the mug, but no inventory row for it. *)
Definition shop_without_stock : database :=
  {| store :=
       {| products := [Scenario.mug]; inventory := [];
          sales := []; alerts := []; stock_movements := [];
          sequences := {| seq_sales := 0; seq_alerts := 0;
                          seq_stock_movements := 0 |} |};
     txn := None |}.

End CreateScenario.

(** ** The daily stock check *)

(** A row of the join of the 9 AM job:
    [SELECT p.id, p.name, i.quantity, i.reorder_level FROM products p
     JOIN inventory i ON p.id = i.product_id
     WHERE i.quantity <= i.reorder_level]. *)
Record stock_check_row := {
  checked_id : Z;
  checked_name : string;
  checked_quantity : Z;
  checked_reorder_level : Z }.

Definition stock_check_rows (t : tables) : list stock_check_row :=
  flat_map
    (fun p =>
       map (fun i => {| checked_id := Products.id p;
                        checked_name := Products.name p;
                        checked_quantity := Inventory.quantity i;
                        checked_reorder_level := Inventory.reorder_level i |})
           (filter (fun i => (Inventory.product_id i =? Products.id p)
                             && (Inventory.quantity i
                                 <=? Inventory.reorder_level i))
                   (inventory t)))
    (products t).

(** The calls the job makes, for any rows. *)
Definition check_all (f : faults) (now : Z) (rows : list stock_check_row)
    (db : database) : database :=
  fold_left
    (fun db product =>
       createLowStockAlert f now (checked_id product)
                           (checked_quantity product)
                           (checked_reorder_level product) db)
    rows db.

(** The job: on an error of the query, or without rows, it only prints;
    otherwise it calls the alert helper for every row. *)
Definition daily_stock_check (select_err : bool) (f : faults) (now : Z)
    (db : database) : database :=
  if select_err then db
  else
    fold_left
      (fun db product =>
         createLowStockAlert f now (checked_id product)
                             (checked_quantity product)
                             (checked_reorder_level product) db)
      (stock_check_rows (store db)) db.

Definition is_stock_alert (a : Alerts.row) : bool :=
  match Alerts.alert_type a with
  | low_stock | out_of_stock => true
  | _ => false
  end.

Definition alert_faulty (f : faults) : bool :=
  select_alert_err f || select_product_err f || insert_alert_err f.

(** ** Column texts *)

(** The TEXT the schema stores for each value of the three enumerations
    of the alerts table. *)
Definition alert_type_text (k : alert_type) : string :=
  match k with
  | low_stock => "low_stock"
  | out_of_stock => "out_of_stock"
  | overstock => "overstock"
  | price_change => "price_change"
  end.

Definition alert_status_text (s : alert_status) : string :=
  match s with
  | active => "active"
  | resolved => "resolved"
  | dismissed => "dismissed"
  end.

Definition alert_priority_text (p : alert_priority) : string :=
  match p with
  | low => "low"
  | medium => "medium"
  | high => "high"
  | critical => "critical"
  end.

(** ** [GET /api/products]: the [stock_status] column *)

Inductive stock_status :=
| status_out_of_stock | status_low_stock | status_overstock | status_in_stock.

(** [CASE WHEN i.quantity <= 0 THEN 'out_of_stock'
          WHEN i.quantity <= i.reorder_level THEN 'low_stock'
          WHEN i.quantity >= i.max_stock_level THEN 'overstock'
          ELSE 'in_stock' END] over the LEFT JOIN: without inventory row,
    or with a NULL maximum, the comparisons are NULL and fall through. *)
Definition stock_status_of (i : option Inventory.row) : stock_status :=
  match i with
  | None => status_in_stock
  | Some i =>
      if Inventory.quantity i <=? 0 then status_out_of_stock
      else if Inventory.quantity i <=? Inventory.reorder_level i
      then status_low_stock
      else match Inventory.max_stock_level i with
           | Some m => if m <=? Inventory.quantity i
                       then status_overstock else status_in_stock
           | None => status_in_stock
           end
  end.

(** ** [GET /api/analytics/dashboard]: the inventory counters *)

(** [SELECT COUNT( * ) FROM inventory WHERE quantity <= reorder_level] *)
Definition lowStockCount (t : tables) : nat :=
  List.length (filter (fun i => Inventory.quantity i
                                <=? Inventory.reorder_level i)
                      (inventory t)).

(** [SELECT COUNT( * ) FROM inventory WHERE quantity = 0] *)
Definition outOfStockCount (t : tables) : nat :=
  List.length (filter (fun i => Inventory.quantity i =? 0) (inventory t)).

(** ** [GET /api/alerts] *)

(** A row of the listing: the alert and the joined columns. *)
Record alert_listing := {
  listed : Alerts.row;
  product_name : string;
  listed_category : string;
  listed_sku : option string;
  current_quantity : option Z;
  listed_reorder_level : option Z }.

(** [FROM alerts a JOIN products p ON a.product_id = p.id
     LEFT JOIN inventory i ON a.product_id = i.product_id]. *)
Definition alert_join (t : tables) : list alert_listing :=
  flat_map
    (fun a =>
       flat_map
         (fun p =>
            let stock :=
              filter (fun i => Inventory.product_id i =? Alerts.product_id a)
                     (inventory t) in
            match stock with
            | [] => [ {| listed := a; product_name := Products.name p;
                         listed_category := Products.category p;
                         listed_sku := Products.sku p;
                         current_quantity := None;
                         listed_reorder_level := None |} ]
            | _ =>
                map (fun i =>
                       {| listed := a; product_name := Products.name p;
                          listed_category := Products.category p;
                          listed_sku := Products.sku p;
                          current_quantity := Some (Inventory.quantity i);
                          listed_reorder_level :=
                            Some (Inventory.reorder_level i) |})
                    stock
            end)
         (filter (fun p => Products.id p =? Alerts.product_id a)
                 (products t)))
    (alerts t).

(** [ORDER BY a.priority DESC, a.created_at DESC]: [priority] is a TEXT
    column, compared as text. *)
Definition listed_before (x y : alert_listing) : bool :=
  match String.compare (alert_priority_text (Alerts.priority (listed x)))
                       (alert_priority_text (Alerts.priority (listed y)))
  with
  | Gt => true
  | Lt => false
  | Eq => Alerts.created_at (listed y) <=? Alerts.created_at (listed x)
  end.

Fixpoint insert_listing (x : alert_listing) (l : list alert_listing)
  : list alert_listing :=
  match l with
  | [] => [x]
  | y :: rest =>
      if listed_before x y then x :: l else y :: insert_listing x rest
  end.

Definition order_listing (l : list alert_listing) : list alert_listing :=
  fold_right insert_listing [] l.

(** The handler: [status] defaults to 'active', [type] filters when it is
    given and not empty; [None] is the 500 answer. *)
Definition get_alerts (select_err : bool) (status type : option string)
    (db : database) : option (list alert_listing) :=
  let status := or_default "active" status in
  if select_err then None
  else
    Some
      (order_listing
         (filter
            (fun x =>
               String.eqb (alert_status_text (Alerts.status (listed x)))
                          status
               && (if falsy_string type then true
                   else String.eqb
                          (alert_type_text (Alerts.alert_type (listed x)))
                          (or_default "" type)))
            (alert_join (store db)))).

(** Place of a priority in the listing: the alphabetical order of the
    texts, backwards. *)
Definition listing_rank (p : alert_priority) : Z :=
  match p with
  | medium => 0
  | low => 1
  | high => 2
  | critical => 3
  end.

Definition listing_precedes (x y : alert_listing) : Prop :=
  listing_rank (Alerts.priority (listed x))
  < listing_rank (Alerts.priority (listed y))
  \/ (listing_rank (Alerts.priority (listed x))
      = listing_rank (Alerts.priority (listed y))
      /\ Alerts.created_at (listed y) <= Alerts.created_at (listed x)).

Definition is_out (s : stock_status) : bool :=
  match s with status_out_of_stock => true | _ => false end.

Definition is_low_or_out (s : stock_status) : bool :=
  match s with
  | status_out_of_stock | status_low_stock => true
  | _ => false
  end.

Module ListingScenario.

Definition alert (id : Z) (priority : alert_priority) (created_at : Z)
  : Alerts.row :=
  {| Alerts.id := id; Alerts.product_id := 2; Alerts.alert_type := low_stock;
     Alerts.message := "Harvard Mug is running low";
     Alerts.status := active; Alerts.priority := priority;
     Alerts.created_at := created_at; Alerts.resolved_at := None;
     Alerts.resolved_by := None |}.

Definition shop : database :=
  {| store :=
       {| products := [Scenario.mug];
          inventory := [Scenario.mug_stock 0 15];
          sales := [];
          alerts := [alert 1 critical 10; alert 2 low 20; alert 3 high 30;
                     alert 4 medium 40];
          stock_movements := [];
          sequences := {| seq_sales := 0; seq_alerts := 4;
                          seq_stock_movements := 0 |} |};
     txn := None |}.

End ListingScenario.

(** ** The seeding script

    The seeder opens a connection of its own and starts no transaction:
    every statement is committed as it runs, so its functions are
    modelled on the tables.  Each pass of a loop comes with the engine
    errors of its statements. *)

Record alert_seed := {
  seed_productId : Z;
  seed_alertType : alert_type;
  seed_message : string;
  seed_priority : alert_priority }.

Record alert_seed_errors := {
  check_alert_err : bool;
  seed_insert_alert_err : bool }.

(** [checkAlertExists]: an active alert of that product and that type. *)
Definition alert_type_eqb (a b : alert_type) : bool :=
  match a, b with
  | low_stock, low_stock | out_of_stock, out_of_stock
  | overstock, overstock | price_change, price_change => true
  | _, _ => false
  end.

Definition checkAlertExists (productId : Z) (alertType : alert_type)
    (t : tables) : bool :=
  existsb (fun a => (Alerts.product_id a =? productId)
                    && alert_type_eqb (Alerts.alert_type a) alertType
                    && match Alerts.status a with
                       | active => true
                       | _ => false
                       end)
          (alerts t).

(** [createSampleAlerts], for any list of alerts to seed: the tables it
    leaves and [createdCount]. *)
Fixpoint createSampleAlerts (now : Z)
    (sampleAlerts : list (alert_seed * alert_seed_errors)) (t : tables)
  : tables * nat :=
  match sampleAlerts with
  | [] => (t, 0%nat)
  | (alertData, e) :: rest =>
      if check_alert_err e
      then createSampleAlerts now rest t       (* caught and printed *)
      else if checkAlertExists (seed_productId alertData)
                               (seed_alertType alertData) t
      then createSampleAlerts now rest t       (* continue *)
      else if seed_insert_alert_err e
      then createSampleAlerts now rest t       (* caught and printed *)
      else
        let '(t', createdCount) :=
          createSampleAlerts now rest
            (insert_alert now (seed_productId alertData)
                          (seed_alertType alertData)
                          (seed_message alertData)
                          (seed_priority alertData) t) in
        (t', S createdCount)
  end.

Record movement_seed := {
  seed_product : Z;
  seed_type : movement_type;
  seed_change : Z;
  seed_reason : string }.

Record movement_seed_errors := {
  get_inventory_err : bool;
  seed_insert_movement_err : bool;
  update_quantity_err : bool }.

Fixpoint seed_movements (now adminId : Z)
    (sampleMovements : list (movement_seed * movement_seed_errors))
    (t : tables) : tables * nat :=
  match sampleMovements with
  | [] => (t, 0%nat)
  | (movement, e) :: rest =>
      if get_inventory_err e
      then seed_movements now adminId rest t   (* caught and printed *)
      else
        match select_inventory (seed_product movement) t with
        | None => seed_movements now adminId rest t   (* continue *)
        | Some currentInventory =>
            let previousQuantity := Inventory.quantity currentInventory in
            let newQuantity :=
              Z.max 0 (previousQuantity + seed_change movement) in
            if seed_insert_movement_err e
            then seed_movements now adminId rest t
            else
              let t :=
                insert_stock_movement now (seed_product movement)
                  (seed_type movement) (seed_change movement)
                  previousQuantity newQuantity (seed_reason movement)
                  adminId t in
              if update_quantity_err e
              then seed_movements now adminId rest t
              else
                let '(t', createdCount) :=
                  seed_movements now adminId rest
                    (update_inventory_quantity now newQuantity
                       (seed_product movement) t) in
                (t', S createdCount)
        end
  end.

(** [createSampleStockMovements]: without an admin user nothing is
    seeded. *)
Definition createSampleStockMovements (now : Z) (adminUser : option Z)
    (sampleMovements : list (movement_seed * movement_seed_errors))
    (t : tables) : tables * nat :=
  match adminUser with
  | None => (t, 0%nat)
  | Some adminId => seed_movements now adminId sampleMovements t
  end.

Definition no_alert_seed_errors : alert_seed_errors :=
  {| check_alert_err := false; seed_insert_alert_err := false |}.

Definition no_movement_seed_errors : movement_seed_errors :=
  {| get_inventory_err := false; seed_insert_movement_err := false;
     update_quantity_err := false |}.

(** The key on which [checkAlertExists] looks alerts up. *)
Definition seed_key (a : Alerts.row) : Z * alert_type :=
  (Alerts.product_id a, Alerts.alert_type a).

Definition is_active (a : Alerts.row) : bool :=
  match Alerts.status a with active => true | _ => false end.

Definition active_keys (t : tables) : list (Z * alert_type) :=
  map seed_key (filter is_active (alerts t)).

(** A movement row written the seeder's way. *)
Definition clamped (m : StockMovements.row) : Prop :=
  StockMovements.new_quantity m
  = Z.max 0 (StockMovements.previous_quantity m
             + StockMovements.quantity_change m).

Module SeedScenario.

(** The two alerts and the six movements of the script. *)
Definition sampleAlerts : list alert_seed :=
  [ {| seed_productId := 2; seed_alertType := low_stock;
       seed_message :=
         "Harvard Mug - Classic White is running low (5 remaining, reorder at 15)";
       seed_priority := high |};
    {| seed_productId := 4; seed_alertType := low_stock;
       seed_message :=
         "Harvard Notebook Set is running low (8 remaining, reorder at 12)";
       seed_priority := medium |} ].

Definition sampleMovements : list movement_seed :=
  [ {| seed_product := 1; seed_type := restock; seed_change := 50;
       seed_reason := "Initial inventory setup" |};
    {| seed_product := 2; seed_type := restock; seed_change := 30;
       seed_reason := "Weekly restock" |};
    {| seed_product := 3; seed_type := restock; seed_change := 75;
       seed_reason := "Back to school preparation" |};
    {| seed_product := 1; seed_type := sale; seed_change := -25;
       seed_reason := "Sales transactions" |};
    {| seed_product := 2; seed_type := sale; seed_change := -25;
       seed_reason := "Sales transactions" |};
    {| seed_product := 3; seed_type := sale; seed_change := -30;
       seed_reason := "Sales transactions" |} ].

Definition update_fails : movement_seed_errors :=
  {| get_inventory_err := false; seed_insert_movement_err := false;
     update_quantity_err := true |}.

End SeedScenario.

(** ** Everything that writes, in sequence *)

Inductive operation :=
| Request (c : call)
| CreateProduct (e : create_env) (now : Z) (u : user) (b : product_body)
| StockCheck (select_err : bool) (f : faults) (now : Z).

Definition perform (o : operation) (db : database) : database :=
  match o with
  | Request c => fst (handle c db)
  | CreateProduct e now u b => fst (post_products e now u b db)
  | StockCheck select_err f now => daily_stock_check select_err f now db
  end.

Fixpoint perform_all (ops : list operation) (db : database) : database :=
  match ops with
  | [] => db
  | o :: rest => perform_all rest (perform o db)
  end.

(** [db'] has the sales and movements of [db] and then more rows, and the
    alerts of [db], by id, and then more. *)
Definition extends_ledgers (db db' : database) : Prop :=
  (exists more, sales (store db') = (sales (store db) ++ more)%list)
  /\ (exists more,
        stock_movements (store db')
        = (stock_movements (store db) ++ more)%list)
  /\ (exists more,
        map Alerts.id (alerts (store db'))
        = (map Alerts.id (alerts (store db)) ++ more)%list).

(** ** Basic facts *)

Lemma rollback_begin_idle (db : database) :
  idle db -> run_rollback (run_begin db) = db.
Proof.
  destruct db as [t o]. unfold idle. simpl. intros ->. reflexivity.
Qed.

Lemma store_begin (db : database) : store (run_begin db) = store db.
Proof. unfold run_begin. destruct (txn db); reflexivity. Qed.



(** ** What the alert helper leaves alone *)

Lemma createLowStockAlert_frame f now pid q r db :
  let db' := createLowStockAlert f now pid q r db in
  txn db' = txn db
  /\ products (store db') = products (store db)
  /\ inventory (store db') = inventory (store db)
  /\ sales (store db') = sales (store db)
  /\ stock_movements (store db') = stock_movements (store db).
Proof.
  unfold createLowStockAlert.
  destruct (select_alert_err f); [tauto|].
  destruct (find _ _); [tauto|].
  destruct (select_product_err f); [tauto|].
  destruct (select_product _ _); [|tauto].
  destruct (insert_alert_err f); simpl; tauto.
Qed.

(** ** Outcomes of [POST /api/sales] *)

Lemma post_sales_created f now u body db db' sid nq flag :
  post_sales f now u body db = (db', SaleCreated sid nq flag) ->
  exists pid qs price row,
    body_product_id body = Some pid
    /\ body_quantity_sold body = Some qs
    /\ body_unit_price body = Some price
    /\ 0 < qs
    /\ select_inventory pid (store db) = Some row
    /\ qs <= Inventory.quantity row
    /\ insert_sale_err f = false
    /\ update_inventory_err f = false
    /\ sid = seq_sales (sequences (store db)) + 1
    /\ nq = Inventory.quantity row - qs
    /\ flag = (nq <=? Inventory.reorder_level row)
    /\ db' =
       let db3 := {| store := committed_sale f now u body pid qs price row
                                (store db);
                     txn := None |} in
       if flag
       then createLowStockAlert f now pid nq (Inventory.reorder_level row) db3
       else db3.
Proof.
  unfold post_sales, validation_error.
  destruct (body_product_id body) as [pid|] eqn:Hp;
    [|simpl; intros H; discriminate H].
  destruct (body_quantity_sold body) as [qs|] eqn:Hq;
    [|simpl; rewrite orb_true_r; intros H; discriminate H].
  destruct (body_unit_price body) as [price|] eqn:Hu;
    [|simpl; rewrite !orb_true_r; intros H; discriminate H].
  simpl falsy_Z. simpl falsy_Q.
  destruct (_ || _) eqn:Hv; [intros H; discriminate H|].
  apply orb_false_elim in Hv as [Hv Hle].
  rewrite store_begin.
  destruct (select_inventory_err f) eqn:Hs; [intros H; discriminate H|].
  destruct (select_inventory pid (store db)) as [row|] eqn:Hrow;
    [|intros H; discriminate H].
  destruct (Inventory.quantity row <? qs) eqn:Hlt; [intros H; discriminate H|].
  destruct (insert_sale_err f) eqn:Hi; [intros H; discriminate H|].
  unfold insert_sale. cbv beta iota zeta.
  destruct (update_inventory_err f) eqn:Hup; [intros H; discriminate H|].
  intros H. injection H as Hdb Hsid Hnq Hflag.
  exists pid, qs, price, row.
  apply Z.leb_gt in Hle. apply Z.ltb_ge in Hlt.
  subst db' sid nq flag.
  repeat split; auto.
  unfold committed_sale, default_payment_method, insert_sale.
  cbv beta iota zeta. simpl fst.
  destruct (insert_movement_err f);
    destruct (_ <=? Inventory.reorder_level row); reflexivity.
Qed.

Lemma rollback_with_store t (db : database) :
  run_rollback (with_store t (run_begin db)) = run_rollback (run_begin db).
Proof. destruct db as [t0 [s|]]; reflexivity. Qed.

(** Every answer other than 201 comes either before BEGIN or after a
    ROLLBACK. *)
(** A branch that answers and returns: the connection it returns is the
    one in hand; [tac] closes what is asked of it. *)
Ltac returns tac :=
  let H := fresh "H" in
  intros H; injection H as <- _; try (intros _); tac.

Lemma post_sales_not_created_gen f now u body db db' r :
  post_sales f now u body db = (db', r) ->
  is_created r = false ->
  db' = db \/ db' = run_rollback (run_begin db).
Proof.
  unfold post_sales, insert_sale.
  destruct (_ || _); [returns ltac:(now left)|].
  destruct (body_product_id body); [|returns ltac:(now left)].
  destruct (body_quantity_sold body); [|returns ltac:(now left)].
  destruct (body_unit_price body); [|returns ltac:(now left)].
  destruct (if select_inventory_err f then None else _);
    [|returns ltac:(now right)].
  destruct (_ <? _); [returns ltac:(now right)|].
  destruct (insert_sale_err f); [returns ltac:(now right)|].
  cbv beta iota zeta.
  destruct (update_inventory_err f).
  - returns ltac:(right; apply rollback_with_store).
  - intros H; injection H as _ <-. simpl. intros H; discriminate H.
Qed.

Lemma post_sales_not_created f now u body db db' r :
  idle db ->
  post_sales f now u body db = (db', r) ->
  is_created r = false ->
  db' = db.
Proof.
  intros Hidle H Hr.
  destruct (post_sales_not_created_gen _ _ _ _ _ _ _ H Hr) as [->| ->];
    [reflexivity|now apply rollback_begin_idle].
Qed.

Lemma committed_sale_sales f now u body pid qs price row t :
  sales (committed_sale f now u body pid qs price row t) =
  (sales t ++
   [ {| Sales.id := seq_sales (sequences t) + 1; Sales.product_id := pid;
        Sales.quantity_sold := qs; Sales.unit_price := price;
        Sales.total_amount := toFixed2 (js_multiply qs price);
        Sales.sale_date := now;
        Sales.cashier_name := body_cashier_name body;
        Sales.payment_method := default_payment_method body |} ])%list.
Proof.
  unfold committed_sale. destruct (insert_movement_err f); reflexivity.
Qed.

Lemma committed_sale_inventory f now u body pid qs price row t :
  inventory (committed_sale f now u body pid qs price row t) =
  map (fun r => if Inventory.product_id r =? pid
                then set_quantity now (Inventory.quantity row - qs) r
                else r)
      (inventory t).
Proof.
  unfold committed_sale. destruct (insert_movement_err f); reflexivity.
Qed.

Lemma committed_sale_movements f now u body pid qs price row t :
  stock_movements (committed_sale f now u body pid qs price row t) =
  if insert_movement_err f then stock_movements t
  else
    (stock_movements t ++
     [ {| StockMovements.id := seq_stock_movements (sequences t) + 1;
          StockMovements.product_id := pid;
          StockMovements.movement_type := sale;
          StockMovements.quantity_change := - qs;
          StockMovements.previous_quantity := Inventory.quantity row;
          StockMovements.new_quantity := Inventory.quantity row - qs;
          StockMovements.reason :=
            "Sale #" ++ string_of_Z (seq_sales (sequences t) + 1);
          StockMovements.user_id := userId u;
          StockMovements.created_at := now |} ])%list.
Proof.
  unfold committed_sale. destruct (insert_movement_err f); reflexivity.
Qed.

(** The state after a created sale, up to the alert helper. *)
Lemma post_sales_created_frame f now u body db db' sid nq flag :
  post_sales f now u body db = (db', SaleCreated sid nq flag) ->
  exists pid qs price row,
    body_product_id body = Some pid
    /\ body_quantity_sold body = Some qs
    /\ body_unit_price body = Some price
    /\ select_inventory pid (store db) = Some row
    /\ txn db' = None
    /\ products (store db') = products (store db)
    /\ inventory (store db') =
       inventory (committed_sale f now u body pid qs price row (store db))
    /\ sales (store db') =
       sales (committed_sale f now u body pid qs price row (store db))
    /\ stock_movements (store db') =
       stock_movements
         (committed_sale f now u body pid qs price row (store db)).
Proof.
  intros H. apply post_sales_created in H.
  destruct H as (pid & qs & price & row & Hp & Hq & Hu & _ & Hrow & _ & _ & _
                 & _ & _ & _ & Hdb).
  exists pid, qs, price, row. repeat (split; [assumption|]).
  cbv zeta in Hdb. destruct flag.
  - pose proof (createLowStockAlert_frame f now pid nq
                  (Inventory.reorder_level row)
                  {| store := committed_sale f now u body pid qs price row
                                (store db); txn := None |}) as Hf.
    cbv zeta in Hf. rewrite <- Hdb in Hf. simpl in Hf.
    destruct Hf as (-> & Hpr & -> & -> & ->). rewrite Hpr.
    repeat split. unfold committed_sale.
    destruct (insert_movement_err f); reflexivity.
  - subst db'. simpl. repeat split. unfold committed_sale.
    destruct (insert_movement_err f); reflexivity.
Qed.

(** ** C3 *)

(** C3. A sale request that passes validation, for a product whose
    inventory row holds less than the requested quantity, is answered
    with the insufficient-inventory error carrying the available and the
    requested quantity, and the connection is left exactly as it was: no
    Sale row, no StockMovement row, the quantity untouched. *)
Theorem insufficient_stock_rejected f now u body db pid qs price row :
  idle db ->
  body_product_id body = Some pid -> pid <> 0 ->
  body_quantity_sold body = Some qs -> 0 < qs ->
  body_unit_price body = Some price -> ~ (price == 0)%Q ->
  select_inventory_err f = false ->
  select_inventory pid (store db) = Some row ->
  Inventory.quantity row < qs ->
  post_sales f now u body db =
  (db, InsufficientInventory (Inventory.quantity row) qs).
Proof.
  intros Hidle Hp Hp0 Hq Hq0 Hu Hu0 Hs Hrow Hlt.
  unfold post_sales. rewrite Hp, Hq, Hu. simpl.
  apply Z.eqb_neq in Hp0. rewrite Hp0.
  assert (Hq1 : (qs =? 0) = false) by (apply Z.eqb_neq; lia).
  rewrite Hq1.
  assert (Hu1 : Qeq_bool price 0 = false).
  { destruct (Qeq_bool price 0) eqn:E; [|reflexivity].
    apply Qeq_bool_iff in E. contradiction. }
  rewrite Hu1.
  assert (Hq2 : (qs <=? 0) = false) by (apply Z.leb_gt; lia).
  rewrite Hq2. simpl.
  rewrite Hs, store_begin, Hrow.
  apply Z.ltb_lt in Hlt. rewrite Hlt.
  rewrite rollback_begin_idle by assumption. reflexivity.
Qed.

Lemma insufficient_stock_rejected_witness :
  post_sales no_faults 50 Scenario.sarah (Scenario.sell 10 (1295 # 100))
             (Scenario.shop 5 15)
  = (Scenario.shop 5 15, InsufficientInventory 5 10).
Proof.
  apply (insufficient_stock_rejected no_faults 50 Scenario.sarah
           (Scenario.sell 10 (1295 # 100)) (Scenario.shop 5 15)
           2 10 (1295 # 100) (Scenario.mug_stock 5 15)).
  - reflexivity.
  - reflexivity.
  - lia.
  - reflexivity.
  - lia.
  - reflexivity.
  - intros H. vm_compute in H. discriminate H.
  - reflexivity.
  - reflexivity.
  - simpl. lia.
Defined.

(** ** C1 *)




(** ** C7 *)



(** ** C10 *)

Lemma select_product_reprice g pid t :
  select_product pid (reprice_tables g t) =
  option_map (reprice_row g) (select_product pid t).
Proof.
  unfold select_product. simpl.
  induction (products t) as [|p l IH]; [reflexivity|].
  simpl. destruct (Products.id p =? pid); [reflexivity|exact IH].
Qed.

Lemma createLowStockAlert_reprice g f now pid q r db :
  createLowStockAlert f now pid q r (reprice g db) =
  reprice g (createLowStockAlert f now pid q r db).
Proof.
  unfold createLowStockAlert.
  destruct (select_alert_err f); [reflexivity|].
  simpl alerts.
  destruct (find _ _); [reflexivity|].
  destruct (select_product_err f); [reflexivity|].
  simpl store. rewrite select_product_reprice.
  destruct (select_product pid (store db)); [|reflexivity].
  simpl. destruct (insert_alert_err f); reflexivity.
Qed.

Lemma rollback_begin_reprice g db :
  run_rollback (run_begin (reprice g db)) =
  reprice g (run_rollback (run_begin db)).
Proof. destruct db as [t [s|]]; reflexivity. Qed.

Lemma txn_begin_reprice g db :
  txn (run_begin (reprice g db)) =
  option_map (reprice_tables g) (txn (run_begin db)).
Proof. destruct db as [t [s|]]; reflexivity. Qed.

(** C10. The sale handler never looks at the catalogue's sell price:
    changing the sell prices in any way changes neither the response nor
    anything the handler writes (the result is the same database, with
    the changed prices).  The Sale row of every accepted request carries
    the unit price of the request and the total computed from it.  So the
    request for 2 mugs at a unit price of -12.95, on the shop with 2 mugs
    in stock and no sale yet, is answered with 201: the transaction is
    committed, the stock is 0, and the sales table holds exactly the new
    row, with the id of the answer, that unit price and the total
    -25.90. *)
Theorem sale_ignores_sell_price :
  (forall g f now u body db,
      post_sales f now u body (reprice g db) =
      (reprice g (fst (post_sales f now u body db)),
       snd (post_sales f now u body db)))
  /\ (forall f now u body db db' sid nq flag,
         post_sales f now u body db = (db', SaleCreated sid nq flag) ->
         exists qs price s,
           body_quantity_sold body = Some qs
           /\ body_unit_price body = Some price
           /\ sales (store db') = (sales (store db) ++ [s])%list
           /\ Sales.id s = sid
           /\ Sales.quantity_sold s = qs
           /\ Sales.unit_price s = price
           /\ Sales.total_amount s = toFixed2 (js_multiply qs price))
  /\ (let price := nearest_double (- (1295 # 100)) in
      let db := Scenario.shop 2 10 in
      let db' :=
        fst (post_sales no_faults 50 Scenario.sarah (Scenario.sell 2 price)
                        db) in
      (price < 0)%Q
      /\ sales (store db) = []
      /\ snd (post_sales no_faults 50 Scenario.sarah (Scenario.sell 2 price)
                         db)
         = SaleCreated 1 0 true
      /\ txn db' = None
      /\ map Inventory.quantity (inventory (store db')) = [0]
      /\ exists s total,
           sales (store db') = [s]
           /\ Sales.id s = 1
           /\ Sales.product_id s = 2
           /\ Sales.quantity_sold s = 2
           /\ Sales.unit_price s = price
           /\ Sales.total_amount s = binary64 (- (2590 # 100))
           /\ number_value (Sales.total_amount s) = Some total
           /\ (total < 0)%Q).
Proof.
  split; [|split].
  - intros g f now u body db. unfold post_sales, insert_sale.
    destruct (_ || _); [reflexivity|].
    destruct (body_product_id body) as [pid|]; [|reflexivity].
    destruct (body_quantity_sold body) as [qs|]; [|reflexivity].
    destruct (body_unit_price body) as [price|]; [|reflexivity].
    cbv zeta. rewrite !store_begin. simpl store.
    unfold select_inventory at 1. simpl inventory.
    fold (select_inventory pid (store db)).
    destruct (if select_inventory_err f then None else _) as [row|];
      [|simpl; now rewrite rollback_begin_reprice].
    destruct (_ <? _); [simpl; now rewrite rollback_begin_reprice|].
    destruct (insert_sale_err f); [simpl; now rewrite rollback_begin_reprice|].
    destruct (update_inventory_err f).
    + simpl. f_equal. unfold run_rollback, with_store. simpl txn.
      rewrite txn_begin_reprice. destruct (txn (run_begin db)); reflexivity.
    + destruct (insert_movement_err f);
        destruct (_ <=? Inventory.reorder_level row); simpl;
        try rewrite <- createLowStockAlert_reprice; reflexivity.
  - intros f now u body db db' sid nq flag H.
    pose proof (post_sales_created _ _ _ _ _ _ _ _ _ H)
      as (pid & qs & price & row & Hp & Hq & Hu & _ & Hrow & _ & _ & _
          & Hsid & _).
    pose proof (post_sales_created_frame _ _ _ _ _ _ _ _ _ H)
      as (pid' & qs' & price' & row' & Hp' & Hq' & Hu' & Hrow' & _ & _ & _
          & Hs & _).
    assert (pid' = pid) by congruence. subst pid'.
    assert (qs' = qs) by congruence. subst qs'.
    assert (price' = price) by congruence. subst price'.
    assert (row' = row) by congruence. subst row'.
    rewrite committed_sale_sales in Hs.
    eexists qs, price, _.
    split; [exact Hq|]. split; [exact Hu|]. split; [exact Hs|].
    cbn [Sales.id Sales.quantity_sold Sales.unit_price Sales.total_amount].
    split; [symmetry; exact Hsid|]. repeat split.
  - cbv zeta. split; [reflexivity|]. split; [reflexivity|].
    split; [vm_compute; reflexivity|]. split; [reflexivity|].
    split; [reflexivity|].
    eexists. eexists. split; [vm_compute; reflexivity|].
    split; [reflexivity|]. split; [reflexivity|]. split; [reflexivity|].
    split; [vm_compute; reflexivity|]. split; [vm_compute; reflexivity|].
    split; [vm_compute; reflexivity|]. reflexivity.
Qed.

Lemma sale_ignores_sell_price_witness :
  exists s,
    sales (store (fst (post_sales no_faults 50 Scenario.sarah
                         (Scenario.sell 3 (nearest_double (1295 # 100)))
                         (reprice (fun _ => 1 # 100)
                                  (Scenario.shop 5 15)))))
    = [s]
    /\ Sales.unit_price s = nearest_double (1295 # 100)
    /\ Sales.total_amount s = binary64 (3885 # 100).
Proof.
  destruct (proj1 (proj2 sale_ignores_sell_price) no_faults 50 Scenario.sarah
              (Scenario.sell 3 (nearest_double (1295 # 100)))
              (reprice (fun _ => 1 # 100) (Scenario.shop 5 15)) _ 1 2 true
              eq_refl)
    as (qs & price & s & Hq & Hu & Hs & _ & _ & Hup & Ht).
  exists s. split; [exact Hs|].
  injection Hq as <-. injection Hu as <-.
  split; [exact Hup|]. rewrite Ht. vm_compute. reflexivity.
Defined.

(** ** Outcomes of [PUT /api/products/:id] *)

Lemma update_product_frame f now id b t t' n :
  update_product f now id b t = Some (t', n) ->
  inventory t' = inventory t
  /\ sales t' = sales t
  /\ alerts t' = alerts t
  /\ stock_movements t' = stock_movements t
  /\ sequences t' = sequences t.
Proof.
  unfold update_product.
  destruct (update_product_err f); [discriminate|].
  destruct (select_product id t).
  - destruct (body_name b); [|discriminate].
    destruct (body_category b); [|discriminate].
    destruct (body_sell_price b); [|discriminate].
    destruct (existsb _ _); [discriminate|].
    intros H. injection H as <- _. simpl. tauto.
  - intros H. injection H as <- _. tauto.
Qed.

Lemma put_product_ok f now u id b db db' msg :
  put_product f now u id b db = (db', Ok msg) ->
  exists t1 n t2,
    update_product f now id b (store db) = Some (t1, n)
    /\ update_inventory f now id b t1 = Some t2
    /\ db' = {| store := log_adjustment f now u id b
                           (previous_quantity_of id (store db)) t2;
                txn := None |}.
Proof.
  unfold put_product. cbv zeta. rewrite store_begin.
  destruct (update_product f now id b (store db)) as [[t1 n]|] eqn:Hup;
    [|intros H; discriminate H].
  destruct (n =? 0); [intros H; discriminate H|].
  destruct (select_inventory_err f); [intros H; discriminate H|].
  simpl store.
  destruct (update_inventory f now id b t1) as [t2|] eqn:Hinv;
    [|intros H; discriminate H].
  intros H. injection H as <- _.
  exists t1, n, t2. split; [reflexivity|]. split; [assumption|].
  apply update_product_frame in Hup. destruct Hup as (Hi & _).
  unfold previous_quantity_of, select_inventory. rewrite <- Hi.
  fold (select_inventory id t1).
  unfold log_adjustment, run_commit, with_store. simpl.
  destruct (strict_neq _ _); [|reflexivity].
  destruct (body_quantity b); [|reflexivity].
  destruct (insert_movement_err f); [reflexivity|].
  destruct (0 <? _); reflexivity.
Qed.

Lemma put_product_not_ok f now u id b db db' r :
  put_product f now u id b db = (db', r) ->
  is_ok r = false ->
  db' = run_rollback (run_begin db).
Proof.
  unfold put_product. cbv zeta.
  destruct (update_product f now id b (store (run_begin db)))
    as [[t1 n]|]; [|returns ltac:(reflexivity)].
  destruct (n =? 0); [returns ltac:(apply rollback_with_store)|].
  destruct (select_inventory_err f);
    [returns ltac:(apply rollback_with_store)|].
  destruct (update_inventory _ _ _ _ _);
    [|returns ltac:(apply rollback_with_store)].
  intros H; injection H as _ <-. intros H; discriminate H.
Qed.

Lemma log_adjustment_inventory f now u id b prev t :
  inventory (log_adjustment f now u id b prev t) = inventory t.
Proof.
  unfold log_adjustment.
  destruct (strict_neq _ _); [|reflexivity].
  destruct (body_quantity b); [|reflexivity].
  destruct (insert_movement_err f); reflexivity.
Qed.

Lemma update_inventory_rows f now id b t t' :
  update_inventory f now id b t = Some t' ->
  inventory t' = inventory t
  \/ exists quantity reorder_level,
       body_quantity b = Some quantity
       /\ body_reorder_level b = Some reorder_level
       /\ inventory t' =
          map (fun r =>
                 if Inventory.product_id r =? id
                 then {| Inventory.id := Inventory.id r;
                         Inventory.product_id := Inventory.product_id r;
                         Inventory.quantity := quantity;
                         Inventory.reorder_level := reorder_level;
                         Inventory.max_stock_level := body_max_stock_level b;
                         Inventory.location := body_location b;
                         Inventory.updated_at := now |}
                 else r)
              (inventory t).
Proof.
  unfold update_inventory.
  destruct (update_inventory_err f); [discriminate|].
  destruct (select_inventory id t).
  - destruct (body_quantity b) as [q|]; [|discriminate].
    destruct (body_reorder_level b) as [rl|]; [|discriminate].
    intros H. injection H as <-. right. exists q, rl. auto.
  - intros H. injection H as <-. now left.
Qed.

(** ** C2 *)

Lemma nonneg_rollback_begin db :
  nonneg_db db -> nonneg_db (run_rollback (run_begin db)).
Proof.
  destruct db as [t [s|]]; unfold nonneg_db; simpl; tauto.
Qed.

Lemma post_sales_nonneg f now u body db :
  nonneg_db db -> nonneg_db (fst (post_sales f now u body db)).
Proof.
  intros Hinv.
  destruct (post_sales f now u body db) as [db' r] eqn:E. simpl.
  destruct (is_created r) eqn:Hr.
  - destruct r; try discriminate Hr.
    pose proof (post_sales_created_frame _ _ _ _ _ _ _ _ _ E)
      as (pid' & qs' & price' & row' & Hp' & Hq' & Hu' & Hrow' & Ht & _ & Hi
          & _).
    pose proof (post_sales_created _ _ _ _ _ _ _ _ _ E)
      as (pid2 & qs2 & price2 & row2 & Hp2 & Hq2 & _ & _ & Hrow2 & Hle2 & _).
    assert (pid2 = pid') by congruence. subst pid2.
    assert (qs2 = qs') by congruence. subst qs2.
    assert (row2 = row') by congruence. subst row2.
    unfold nonneg_db. rewrite Ht. split; [|exact I].
    unfold nonneg_tables. rewrite Hi, committed_sale_inventory.
    destruct Hinv as [Hst _]. unfold nonneg_tables in Hst.
    apply Forall_map. eapply Forall_impl; [|exact Hst].
    intros r Hr0. cbv beta.
    destruct (Inventory.product_id r =? pid'); [|exact Hr0].
    unfold set_quantity. cbn [Inventory.quantity]. lia.
  - destruct (post_sales_not_created_gen _ _ _ _ _ _ _ E Hr) as [->| ->];
      [assumption|now apply nonneg_rollback_begin].
Qed.

Lemma put_product_nonneg f now u id b db :
  nonneg_request (PutProduct id b) = true ->
  nonneg_db db -> nonneg_db (fst (put_product f now u id b db)).
Proof.
  intros Hreq Hinv.
  destruct (put_product f now u id b db) as [db' r] eqn:E. simpl.
  destruct (is_ok r) eqn:Hr.
  - destruct r; try discriminate Hr.
    apply put_product_ok in E.
    destruct E as (t1 & n & t2 & Hup & Hinvt & ->).
    apply update_product_frame in Hup. destruct Hup as (Hi & _).
    unfold nonneg_db. simpl. split; [|exact I].
    unfold nonneg_tables. rewrite log_adjustment_inventory.
    destruct Hinv as [Hst _]. unfold nonneg_tables in Hst.
    destruct (update_inventory_rows _ _ _ _ _ _ Hinvt)
      as [->|(q & rl & Hq & _ & ->)].
    + rewrite Hi. exact Hst.
    + rewrite Hi. apply Forall_map. eapply Forall_impl; [|exact Hst].
      intros r Hr0. simpl in Hreq. rewrite Hq in Hreq.
      apply Z.leb_le in Hreq. cbv beta in Hr0 |- *.
      destruct (Inventory.product_id r =? id); [|exact Hr0].
      cbn [Inventory.quantity]. exact Hreq.
  - rewrite (put_product_not_ok _ _ _ _ _ _ _ _ E Hr).
    now apply nonneg_rollback_begin.
Qed.

Lemma resolve_alert_nonneg f now u id db :
  nonneg_db db -> nonneg_db (fst (resolve_alert f now u id db)).
Proof.
  unfold resolve_alert.
  destruct (update_alert_err f); [tauto|].
  destruct (_ =? _)%nat; simpl; unfold nonneg_db; simpl; tauto.
Qed.

(** C2 (as the code has it). No sale writes a negative quantity: the new
    quantity of a created sale is at least 0.  Starting from a database
    without negative quantities, any sequence of sale requests, alert
    resolutions and product updates keeps every inventory quantity at 0
    or more, provided each product update carries a non-negative
    quantity: the update handler writes the quantity of the request as it
    is. *)
Theorem inventory_never_negative :
  (forall f now u body db db' sid nq flag,
      post_sales f now u body db = (db', SaleCreated sid nq flag) ->
      0 <= nq)
  /\ (forall calls db,
         nonneg_db db ->
         Forall (fun c => nonneg_request (call_request c) = true) calls ->
         nonneg_db (run calls db)).
Proof.
  split.
  - intros f now u body db db' sid nq flag H.
    apply post_sales_created in H.
    destruct H as (pid & qs & price & row & _ & _ & _ & _ & _ & Hle & _ & _
                   & _ & -> & _).
    lia.
  - induction calls as [|c rest IH]; intros db Hinv Hall; [exact Hinv|].
    inversion Hall as [|? ? Hc Hrest]; subst.
    simpl. apply IH; [|assumption].
    unfold handle. destruct (call_request c) as [body|id b|id].
    + now apply post_sales_nonneg.
    + now apply put_product_nonneg.
    + now apply resolve_alert_nonneg.
Qed.

Lemma inventory_never_negative_witness :
  (exists db',
      post_sales no_faults 50 Scenario.sarah (Scenario.sell 5 (1295 # 100))
                 (Scenario.shop 5 15) = (db', SaleCreated 1 0 true)
      /\ 0 <= 0)
  /\ nonneg_db
       (run [ {| call_faults := no_faults; call_time := 50;
                 call_user := Scenario.sarah;
                 call_request := PostSale (Scenario.sell 3 (1295 # 100)) |};
              {| call_faults := no_faults; call_time := 60;
                 call_user := Scenario.mike;
                 call_request := PutProduct 2 (Scenario.edit_mug 40) |};
              {| call_faults := no_faults; call_time := 70;
                 call_user := Scenario.sarah;
                 call_request :=
                   PostSale (Scenario.sell 50 (1295 # 100)) |} ]
            (Scenario.shop 5 15)).
Proof.
  split.
  - eexists. split; [vm_compute; reflexivity|].
    eapply (proj1 inventory_never_negative no_faults 50 Scenario.sarah
              (Scenario.sell 5 (1295 # 100)) (Scenario.shop 5 15)).
    vm_compute. reflexivity.
  - apply (proj2 inventory_never_negative).
    + unfold nonneg_db, nonneg_tables. simpl. split; [|exact I].
      repeat constructor. simpl. lia.
    + repeat constructor.
Defined.

(** The update handler writes a negative quantity when it is sent one. *)
Lemma update_writes_negative_quantity :
  nonneg_db (Scenario.shop 5 15)
  /\ nonneg_request (PutProduct 2 (Scenario.edit_mug (-5))) = false
  /\ snd (put_product no_faults 60 Scenario.mike 2 (Scenario.edit_mug (-5))
                      (Scenario.shop 5 15))
     = Ok "Product updated successfully"
  /\ map Inventory.quantity
       (inventory (store (fst (put_product no_faults 60 Scenario.mike 2
                                 (Scenario.edit_mug (-5))
                                 (Scenario.shop 5 15)))))
     = [-5]
  /\ ~ nonneg_db (fst (put_product no_faults 60 Scenario.mike 2
                         (Scenario.edit_mug (-5)) (Scenario.shop 5 15))).
Proof.
  split.
  { unfold nonneg_db, nonneg_tables. simpl. split; [|exact I].
    repeat constructor. simpl. lia. }
  split; [reflexivity|]. split; [reflexivity|]. split; [reflexivity|].
  intros [H _]. unfold nonneg_tables in H. vm_compute in H.
  inversion H as [|? ? Hneg _]. apply Hneg. reflexivity.
Qed.

(** ** C4 *)






Lemma handle_idle c db : idle db -> idle (fst (handle c db)).
Proof.
  intros Hidle. unfold handle.
  destruct (call_request c) as [body|id b|id].
  - destruct (post_sales _ _ _ body db) as [db' r0] eqn:E. simpl.
    destruct (is_created r0) eqn:Hr.
    + destruct r0; try discriminate Hr.
      apply post_sales_created_frame in E.
      destruct E as (? & ? & ? & ? & _ & _ & _ & _ & Ht & _). exact Ht.
    + now rewrite (post_sales_not_created _ _ _ _ _ _ _ Hidle E Hr).
  - destruct (put_product _ _ _ id b db) as [db' r0] eqn:E. simpl.
    destruct (is_ok r0) eqn:Hr.
    + destruct r0; try discriminate Hr.
      apply put_product_ok in E. destruct E as (? & ? & ? & _ & _ & ->).
      reflexivity.
    + rewrite (put_product_not_ok _ _ _ _ _ _ _ _ E Hr).
      now rewrite rollback_begin_idle.
  - unfold resolve_alert.
    destruct (update_alert_err _); [exact Hidle|].
    destruct (_ =? _)%nat; exact Hidle.
Qed.




(** ** Strings inside strings *)

Lemma string_app_assoc (a b c : string) : (a ++ b) ++ c = a ++ b ++ c.
Proof. induction a as [|x a IH]; simpl; [reflexivity|now rewrite IH]. Qed.

Lemma prefix_app (s rest : string) : String.prefix s (s ++ rest) = true.
Proof.
  induction s as [|x s IH]; simpl; [now destruct rest|].
  destruct (ascii_dec x x) as [_|Hn]; [exact IH|now elim Hn].
Qed.

Lemma embedsb_complete (s m : string) : embeds s m -> embedsb s m = true.
Proof.
  intros (before & after & ->).
  induction before as [|x before IH].
  - simpl append. pose proof (prefix_app s after) as H.
    destruct (s ++ after); unfold embedsb; fold embedsb; now rewrite H.
  - simpl. rewrite IH. apply orb_true_r.
Qed.

Lemma embeds_head (s rest : string) : embeds s (s ++ rest).
Proof. exists "", rest. reflexivity. Qed.

Lemma embeds_app_r (s a m : string) : embeds s m -> embeds s (a ++ m).
Proof.
  intros (before & after & ->). exists (a ++ before), after.
  now rewrite string_app_assoc.
Qed.

(** ** C8 *)

(** C8 (as the code has it). When the helper inserts an alert, the alert
    is active and for the product asked; with a current quantity of 0 it
    has type out_of_stock, priority critical and the message
    "<name> is out of stock", which carries the product name only;
    otherwise it has type low_stock, priority high and a message that
    carries the product name, the current quantity and the reorder
    level. *)
Theorem alert_classification f now pid q r db product :
  select_alert_err f = false ->
  find (is_active_low_stock pid) (alerts (store db)) = None ->
  select_product_err f = false ->
  select_product pid (store db) = Some product ->
  insert_alert_err f = false ->
  exists a,
    alerts (store (createLowStockAlert f now pid q r db))
    = (alerts (store db) ++ [a])%list
    /\ Alerts.product_id a = pid
    /\ Alerts.status a = active
    /\ embeds (Products.name product) (Alerts.message a)
    /\ (q = 0 ->
        Alerts.alert_type a = out_of_stock
        /\ Alerts.priority a = critical
        /\ Alerts.message a = Products.name product ++ " is out of stock")
    /\ (q <> 0 ->
        Alerts.alert_type a = low_stock
        /\ Alerts.priority a = high
        /\ embeds (string_of_Z q) (Alerts.message a)
        /\ embeds (string_of_Z r) (Alerts.message a)).
Proof.
  intros Ha Hfind Hp Hprod Hi.
  unfold createLowStockAlert. rewrite Ha, Hfind, Hp, Hprod, Hi.
  eexists. split; [reflexivity|].
  cbn [Alerts.product_id Alerts.status Alerts.message Alerts.alert_type
       Alerts.priority].
  split; [reflexivity|]. split; [reflexivity|].
  unfold alert_message.
  split; [destruct (q =? 0); apply embeds_head|].
  split.
  - intros ->. simpl. repeat split.
  - intros Hq. apply Z.eqb_neq in Hq. rewrite Hq.
    split; [reflexivity|]. split; [reflexivity|]. split.
    + apply embeds_app_r, embeds_app_r, embeds_head.
    + do 4 apply embeds_app_r. apply embeds_head.
Qed.

Lemma alert_classification_witness :
  exists a,
    alerts (store (createLowStockAlert no_faults 90 2 3 15
                                       (Scenario.shop 3 15))) = [a]
    /\ Alerts.alert_type a = low_stock
    /\ Alerts.message a
       = "Harvard Mug is running low (3 remaining, reorder at 15)".
Proof.
  destruct (alert_classification no_faults 90 2 3 15 (Scenario.shop 3 15)
              Scenario.mug eq_refl eq_refl eq_refl eq_refl eq_refl)
    as (a & Hal & _ & _ & _ & _ & Hlow).
  exists a. split; [exact Hal|].
  destruct Hlow as (Hty & _); [lia|]. split; [exact Hty|].
  vm_compute in Hal. injection Hal as <-. reflexivity.
Defined.

(** The out-of-stock message carries neither the quantity nor the reorder
    level. *)
Lemma out_of_stock_message_omits_numbers :
  exists a,
    alerts (store (createLowStockAlert no_faults 90 2 0 15
                                       (Scenario.shop 0 15))) = [a]
    /\ Alerts.alert_type a = out_of_stock
    /\ Alerts.priority a = critical
    /\ Alerts.message a = "Harvard Mug is out of stock"
    /\ ~ embeds (string_of_Z 0) (Alerts.message a)
    /\ ~ embeds (string_of_Z 15) (Alerts.message a).
Proof.
  eexists. split; [vm_compute; reflexivity|].
  cbn [Alerts.alert_type Alerts.priority Alerts.message].
  do 3 (split; [reflexivity|]).
  split; intros H; apply embedsb_complete in H; vm_compute in H;
    discriminate H.
Qed.

(** ** C5 *)

Lemma active_low_stock_alert_blocks f now pid q r db a :
  find (is_active_low_stock pid) (alerts (store db)) = Some a ->
  createLowStockAlert f now pid q r db = db.
Proof.
  intros H. unfold createLowStockAlert. rewrite H.
  destruct (select_alert_err f); reflexivity.
Qed.

(** C5 (the code at the failing input). The helper looks for an active
    alert of type low_stock only.  For a product that is out of stock and
    has no alert yet, the first call inserts an active out_of_stock
    alert, and a second call, made while that alert is still active,
    inserts a second one.  The same happens through the API: a sale that
    empties the stock, a restock by product update, and a second sale
    that empties it again leave two active out_of_stock alerts. *)
Theorem duplicate_out_of_stock_alert :
  let db1 :=
    createLowStockAlert no_faults 100 2 0 15 (Scenario.shop 0 15) in
  let db2 := createLowStockAlert no_faults 200 2 0 15 db1 in
  let db3 :=
    run [ {| call_faults := no_faults; call_time := 50;
             call_user := Scenario.sarah;
             call_request := PostSale (Scenario.sell 2 (1295 # 100)) |};
          {| call_faults := no_faults; call_time := 60;
             call_user := Scenario.mike;
             call_request := PutProduct 2 (Scenario.edit_mug 1) |};
          {| call_faults := no_faults; call_time := 70;
             call_user := Scenario.sarah;
             call_request := PostSale (Scenario.sell 1 (1295 # 100)) |} ]
        (Scenario.shop 2 15) in
  map alert_key (alerts (store db1)) = [(2, out_of_stock, active)]
  /\ map alert_key (alerts (store db2))
     = [(2, out_of_stock, active); (2, out_of_stock, active)]
  /\ map alert_key (alerts (store db3))
     = [(2, out_of_stock, active); (2, out_of_stock, active)].
Proof. vm_compute. repeat split. Qed.

(** ** C6 *)

Lemma map_resolve_other now who id (l : list Alerts.row) :
  (forall a, In a l -> Alerts.id a <> id) ->
  map (fun a => if Alerts.id a =? id then resolve_row now who a else a) l = l.
Proof.
  induction l as [|a l IH]; intros H; [reflexivity|].
  simpl. rewrite IH by (intros x Hx; apply H; now right).
  assert (Hne : (Alerts.id a =? id) = false)
    by (apply Z.eqb_neq, H; now left).
  now rewrite Hne.
Qed.

Lemma filter_nil_iff {A} (p : A -> bool) (l : list A) :
  filter p l = [] <-> forall a, In a l -> p a = false.
Proof.
  induction l as [|x l IH]; simpl; [tauto|].
  destruct (p x) eqn:E; split.
  - discriminate.
  - intros H. specialize (H x (or_introl eq_refl)). congruence.
  - intros H a [<-|Ha]; [assumption|]. now apply IH.
  - intros H. apply IH. intros a Ha. apply H. now right.
Qed.

(** C6 (as the code has it). The UPDATE of the resolve handler selects by
    id alone.  When no alert has the id, the answer is 404 and nothing
    changes.  When an alert has the id, whatever its status (active,
    resolved or dismissed), the answer is 200 and the alert ends up
    resolved, stamped with the caller's name and the time of the request,
    its other columns kept; alerts with another id are kept as they are;
    no other table and no open transaction is touched. *)
Theorem resolve_alert_any_status f now u id db db' r :
  update_alert_err f = false ->
  resolve_alert f now u id db = (db', r) ->
  ((forall a, In a (alerts (store db)) -> Alerts.id a <> id) ->
   r = NotFound "Alert not found" /\ db' = db)
  /\ (forall a, In a (alerts (store db)) -> Alerts.id a = id ->
      r = Ok "Alert resolved successfully"
      /\ exists a',
           In a' (alerts (store db'))
           /\ Alerts.id a' = id
           /\ Alerts.status a' = resolved
           /\ Alerts.resolved_by a' = Some (username u)
           /\ Alerts.resolved_at a' = Some now
           /\ Alerts.product_id a' = Alerts.product_id a
           /\ Alerts.alert_type a' = Alerts.alert_type a
           /\ Alerts.message a' = Alerts.message a
           /\ Alerts.priority a' = Alerts.priority a
           /\ Alerts.created_at a' = Alerts.created_at a)
  /\ (forall a, In a (alerts (store db)) -> Alerts.id a <> id ->
      In a (alerts (store db')))
  /\ txn db' = txn db
  /\ products (store db') = products (store db)
  /\ inventory (store db') = inventory (store db)
  /\ sales (store db') = sales (store db)
  /\ stock_movements (store db') = stock_movements (store db).
Proof.
  intros Hf. unfold resolve_alert. rewrite Hf.
  set (hit := fun a : Alerts.row => Alerts.id a =? id).
  set (upd := fun a : Alerts.row =>
                if Alerts.id a =? id then resolve_row now (username u) a
                else a).
  intros H.
  assert (Hdb : db' = with_store (with_alerts (map upd (alerts (store db)))
                                              (store db)) db)
    by (destruct (_ =? _)%nat; now injection H as <- _).
  assert (Hr : r = if (List.length (filter hit (alerts (store db))) =? 0)%nat
                   then NotFound "Alert not found"
                   else Ok "Alert resolved successfully")
    by (destruct (_ =? _)%nat; now injection H as _ <-).
  clear H. split; [|split; [|split]].
  - intros Hnone. split.
    + rewrite Hr.
      assert (Hnil : filter hit (alerts (store db)) = []).
      { apply filter_nil_iff. intros a Ha. apply Z.eqb_neq. now apply Hnone. }
      now rewrite Hnil.
    + rewrite Hdb. unfold upd. rewrite map_resolve_other by assumption.
      destruct db as [[? ? ? ? ? ?] ?]. reflexivity.
  - intros a Ha Hid. split.
    + rewrite Hr.
      destruct (filter hit (alerts (store db))) eqn:Hfil; [|reflexivity].
      exfalso. pose proof (proj1 (filter_nil_iff _ _) Hfil a Ha) as Hn.
      unfold hit in Hn. apply Z.eqb_neq in Hn. contradiction.
    + exists (resolve_row now (username u) a). rewrite Hdb. simpl.
      split; [|repeat split; assumption].
      apply in_map_iff. exists a. split; [|assumption].
      unfold upd. apply Z.eqb_eq in Hid. now rewrite Hid.
  - intros a Ha Hid. rewrite Hdb. simpl.
    apply in_map_iff. exists a. split; [|assumption].
    unfold upd. apply Z.eqb_neq in Hid. now rewrite Hid.
  - rewrite Hdb. simpl. repeat split.
Qed.

Lemma resolve_alert_any_status_witness :
  resolve_alert no_faults 200 Scenario.mike 7
                (AlertScenario.shop_with (AlertScenario.stale active None None))
  = (AlertScenario.shop_with (AlertScenario.stale active None None),
     NotFound "Alert not found").
Proof.
  destruct (resolve_alert no_faults 200 Scenario.mike 7
              (AlertScenario.shop_with
                 (AlertScenario.stale active None None)))
    as [db' r] eqn:E.
  destruct (resolve_alert_any_status no_faults 200 Scenario.mike 7
              (AlertScenario.shop_with (AlertScenario.stale active None None))
              db' r eq_refl E) as (Hnone & _).
  destruct Hnone as [-> ->]; [|reflexivity].
  intros a [<-|[]]. simpl. lia.
Defined.

(** Resolving an alert that is already resolved, or dismissed, is
    answered with 200 and rewrites the alert. *)
Lemma resolve_rewrites_closed_alert :
  let again :=
    resolve_alert no_faults 200 Scenario.mike 1
      (AlertScenario.shop_with
         (AlertScenario.stale resolved (Some 100) (Some "sarah"))) in
  let dismissed_one :=
    resolve_alert no_faults 200 Scenario.mike 1
      (AlertScenario.shop_with (AlertScenario.stale dismissed None None)) in
  snd again = Ok "Alert resolved successfully"
  /\ alerts (store (fst again))
     = [AlertScenario.stale resolved (Some 200) (Some "mike")]
  /\ fst again
     <> AlertScenario.shop_with
          (AlertScenario.stale resolved (Some 100) (Some "sarah"))
  /\ snd dismissed_one = Ok "Alert resolved successfully"
  /\ alerts (store (fst dismissed_one))
     = [AlertScenario.stale resolved (Some 200) (Some "mike")].
Proof.
  cbv zeta. split; [reflexivity|]. split; [reflexivity|].
  split; [|split; reflexivity].
  intros H. vm_compute in H. discriminate H.
Qed.

(** * Further properties of the handlers *)

(** ** [POST /api/products] *)

Lemma post_products_created e now u b db db' id :
  post_products e now u b db = (db', ProductCreated id) ->
  exists name category sell_price,
    body_name b = Some name /\ name <> ""
    /\ body_category b = Some category /\ category <> ""
    /\ body_sell_price b = Some sell_price /\ ~ (sell_price == 0)%Q
    /\ id = product_rowid e
    /\ txn db' = None
    /\ products (store db') =
       (products (store db) ++
        [ {| Products.id := id; Products.name := name;
             Products.category := category;
             Products.supplier := body_supplier b;
             Products.cost_price := body_cost_price b;
             Products.sell_price := sell_price;
             Products.description := body_description b;
             Products.sku := body_sku b;
             Products.updated_at := now |} ])%list
    /\ inventory (store db') =
       (inventory (store db) ++
        [ {| Inventory.id := inventory_rowid e;
             Inventory.product_id := id;
             Inventory.quantity := or_default 0 (body_quantity b);
             Inventory.reorder_level :=
               or_default 10 (body_reorder_level b);
             Inventory.max_stock_level :=
               Some (or_default 100 (body_max_stock_level b));
             Inventory.location :=
               Some (or_default "Main Store" (body_location b));
             Inventory.updated_at := now |} ])%list
    /\ sales (store db') = sales (store db)
    /\ alerts (store db') = alerts (store db)
    /\ stock_movements (store db') =
       if (0 <? or_default 0 (body_quantity b))
          && negb (insert_restock_err e)
       then
         (stock_movements (store db) ++
          [ {| StockMovements.id :=
                 seq_stock_movements (sequences (store db)) + 1;
               StockMovements.product_id := id;
               StockMovements.movement_type := restock;
               StockMovements.quantity_change :=
                 or_default 0 (body_quantity b);
               StockMovements.previous_quantity := 0;
               StockMovements.new_quantity :=
                 or_default 0 (body_quantity b);
               StockMovements.reason := "Initial stock";
               StockMovements.user_id := userId u;
               StockMovements.created_at := now |} ])%list
       else stock_movements (store db).
Proof.
  unfold post_products. cbv zeta.
  destruct (body_name b) as [name|] eqn:Hn;
    [|simpl; intros H; discriminate H].
  destruct (body_category b) as [category|] eqn:Hc;
    [|simpl; rewrite orb_true_r; intros H; discriminate H].
  destruct (body_sell_price b) as [sell_price|] eqn:Hs;
    [|simpl; rewrite !orb_true_r; intros H; discriminate H].
  simpl falsy_string. simpl falsy_Q.
  destruct (_ || _) eqn:Hv; [intros H; discriminate H|].
  apply orb_false_elim in Hv as [Hv Hq].
  apply orb_false_elim in Hv as [Hv1 Hv2].
  rewrite store_begin. unfold insert_product.
  destruct (insert_product_err e); [intros H; discriminate H|].
  destruct (existsb _ _); [intros H; discriminate H|].
  destruct (insert_inventory_err e); [intros H; discriminate H|].
  intros H. injection H as <- <-.
  exists name, category, sell_price.
  split; [reflexivity|]. split; [now apply String.eqb_neq|].
  split; [reflexivity|]. split; [now apply String.eqb_neq|].
  split; [reflexivity|].
  split; [intros Hz; apply Qeq_bool_iff in Hz; congruence|].
  split; [reflexivity|].
  destruct (0 <? or_default 0 (body_quantity b));
    destruct (insert_restock_err e); simpl; repeat split.
Qed.

Lemma post_products_refused_gen e now u b db db' r :
  post_products e now u b db = (db', Refused r) ->
  db' = db \/ db' = run_rollback (run_begin db).
Proof.
  unfold post_products. cbv zeta.
  destruct (_ || _); [returns ltac:(now left)|].
  destruct (body_name b); [|returns ltac:(now left)].
  destruct (body_category b); [|returns ltac:(now left)].
  destruct (body_sell_price b); [|returns ltac:(now left)].
  destruct (insert_product _ _ _ _ _ _ _) as [[|]|[t id]];
    [returns ltac:(now right)|returns ltac:(now right)|].
  destruct (insert_inventory_err e);
    [returns ltac:(right; apply rollback_with_store)|].
  intros H. discriminate H.
Qed.

(** X1. Product creation is all or nothing: on an idle connection a
    request that is not answered with 201 leaves the database exactly as
    it was, also when the product row was already inserted and only the
    inventory insert failed. *)
Theorem product_creation_is_atomic e now u b db db' r :
  idle db ->
  post_products e now u b db = (db', Refused r) ->
  db' = db.
Proof.
  intros Hidle H.
  destruct (post_products_refused_gen _ _ _ _ _ _ _ H) as [->| ->];
    [reflexivity|now apply rollback_begin_idle].
Qed.

Lemma product_creation_is_atomic_witness :
  fst (post_products CreateScenario.inventory_insert_fails 40 Scenario.mike
         (CreateScenario.scarf (Some "HRV-SCF-001") (Some 20))
         (Scenario.shop 5 15))
  = Scenario.shop 5 15.
Proof.
  apply (product_creation_is_atomic CreateScenario.inventory_insert_fails 40
           Scenario.mike
           (CreateScenario.scarf (Some "HRV-SCF-001") (Some 20))
           (Scenario.shop 5 15) _
           (ServerError "Failed to create inventory record")).
  - reflexivity.
  - vm_compute. reflexivity.
Defined.

(** X2. A created product gets exactly one product row and exactly one
    inventory row, both carrying the id of the answer; fields absent from
    the request take the defaults of the handler: quantity 0, reorder
    level 10, maximum stock level 100, location "Main Store".  Sales and
    alerts are not touched and no transaction is left open. *)
Theorem product_creation_result e now u b db db' id :
  post_products e now u b db = (db', ProductCreated id) ->
  exists p i,
    products (store db') = (products (store db) ++ [p])%list
    /\ inventory (store db') = (inventory (store db) ++ [i])%list
    /\ Products.id p = id
    /\ Some (Products.name p) = body_name b
    /\ Some (Products.category p) = body_category b
    /\ Some (Products.sell_price p) = body_sell_price b
    /\ Products.sku p = body_sku b
    /\ Inventory.product_id i = id
    /\ Inventory.quantity i = or_default 0 (body_quantity b)
    /\ Inventory.reorder_level i = or_default 10 (body_reorder_level b)
    /\ Inventory.max_stock_level i =
       Some (or_default 100 (body_max_stock_level b))
    /\ Inventory.location i =
       Some (or_default "Main Store" (body_location b))
    /\ sales (store db') = sales (store db)
    /\ alerts (store db') = alerts (store db)
    /\ txn db' = None.
Proof.
  intros H. apply post_products_created in H.
  destruct H as (name & category & sell_price & Hn & _ & Hc & _ & Hs & _ & _
                 & Ht & Hp & Hi & Hsa & Hal & _).
  eexists. eexists. split; [exact Hp|]. split; [exact Hi|]. simpl.
  rewrite Hn, Hc, Hs. repeat split; assumption.
Qed.

Lemma product_creation_result_witness :
  exists db' p i,
    post_products CreateScenario.engine 40 Scenario.mike
      (CreateScenario.scarf (Some "HRV-SCF-001") None) (Scenario.shop 5 15)
    = (db', ProductCreated 11)
    /\ products (store db') = [Scenario.mug; p]
    /\ inventory (store db') = [Scenario.mug_stock 5 15; i]
    /\ Inventory.quantity i = 0 /\ Inventory.reorder_level i = 10.
Proof.
  eexists.
  destruct (product_creation_result CreateScenario.engine 40 Scenario.mike
              (CreateScenario.scarf (Some "HRV-SCF-001") None)
              (Scenario.shop 5 15) _ 11 eq_refl)
    as (p & i & Hp & Hi & _ & _ & _ & _ & _ & _ & Hq & Hr & _).
  exists p, i. split; [reflexivity|].
  split; [exact Hp|]. split; [exact Hi|]. split; [exact Hq|exact Hr].
Defined.

(** X3. The initial stock of a created product is logged exactly when it
    is positive: with a quantity above 0 (and a movement insert that does
    not fail) one 'restock' row from 0 to the quantity is appended for the
    new product, on behalf of the caller; with a quantity of 0 or below,
    a negative one included, the audit trail is left as it was. *)
Theorem initial_stock_logged_when_positive e now u b db db' id :
  post_products e now u b db = (db', ProductCreated id) ->
  insert_restock_err e = false ->
  (0 < or_default 0 (body_quantity b) ->
   exists m,
     stock_movements (store db') = (stock_movements (store db) ++ [m])%list
     /\ StockMovements.product_id m = id
     /\ StockMovements.movement_type m = restock
     /\ StockMovements.previous_quantity m = 0
     /\ StockMovements.new_quantity m = or_default 0 (body_quantity b)
     /\ StockMovements.new_quantity m =
        StockMovements.previous_quantity m + StockMovements.quantity_change m
     /\ StockMovements.user_id m = userId u)
  /\ (or_default 0 (body_quantity b) <= 0 ->
      stock_movements (store db') = stock_movements (store db)).
Proof.
  intros H Hf. apply post_products_created in H.
  destruct H as (name & category & sell_price & _ & _ & _ & _ & _ & _ & _
                 & _ & _ & _ & _ & _ & Hm).
  rewrite Hf in Hm. simpl negb in Hm. rewrite andb_true_r in Hm.
  split; intros Hq.
  - apply Z.ltb_lt in Hq. rewrite Hq in Hm.
    eexists. split; [exact Hm|]. simpl. repeat split.
  - apply Z.ltb_ge in Hq. rewrite Hq in Hm. exact Hm.
Qed.

Lemma initial_stock_logged_when_positive_witness :
  (exists m,
      stock_movements
        (store (fst (post_products CreateScenario.engine 40 Scenario.mike
                       (CreateScenario.scarf None (Some 20))
                       (Scenario.shop 5 15)))) = [m]
      /\ StockMovements.new_quantity m = 20)
  /\ stock_movements
       (store (fst (post_products CreateScenario.engine 40 Scenario.mike
                      (CreateScenario.scarf None (Some (-3)))
                      (Scenario.shop 5 15)))) = [].
Proof.
  split.
  - destruct (initial_stock_logged_when_positive CreateScenario.engine 40
                Scenario.mike (CreateScenario.scarf None (Some 20))
                (Scenario.shop 5 15) _ 11 eq_refl eq_refl) as [Hpos _].
    destruct Hpos as (m & Hm & _ & _ & _ & Hn & _); [simpl; lia|].
    exists m. split; [exact Hm|exact Hn].
  - destruct (initial_stock_logged_when_positive CreateScenario.engine 40
                Scenario.mike (CreateScenario.scarf None (Some (-3)))
                (Scenario.shop 5 15) _ 11 eq_refl eq_refl) as [_ Hneg].
    apply Hneg. simpl. lia.
Defined.

(** X4. Creation keeps the catalogue well-keyed: when the rowid the engine
    assigns to the product is new to the products and to the inventory,
    product ids stay pairwise distinct and every product still has at
    most one inventory row. *)
Theorem product_creation_keeps_keys e now u b db db' id :
  post_products e now u b db = (db', ProductCreated id) ->
  NoDup (map Products.id (products (store db))) ->
  one_row_per_product (store db) ->
  (forall p, In p (products (store db)) -> Products.id p <> product_rowid e) ->
  (forall i, In i (inventory (store db)) ->
             Inventory.product_id i <> product_rowid e) ->
  NoDup (map Products.id (products (store db')))
  /\ one_row_per_product (store db').
Proof.
  intros H Hnp Hni Hfp Hfi. apply post_products_created in H.
  destruct H as (name & category & sell_price & _ & _ & _ & _ & _ & _ & ->
                 & _ & Hp & Hi & _).
  unfold one_row_per_product in *. rewrite Hp, Hi, !map_app. simpl.
  split.
  - apply NoDup_app; [assumption|repeat constructor; intros []|].
    intros x Hx [<-|[]]. apply in_map_iff in Hx.
    destruct Hx as (p & Hid & Hin). exact (Hfp p Hin Hid).
  - apply NoDup_app; [assumption|repeat constructor; intros []|].
    intros x Hx [<-|[]]. apply in_map_iff in Hx.
    destruct Hx as (i & Hid & Hin). exact (Hfi i Hin Hid).
Qed.

Lemma product_creation_keeps_keys_witness :
  one_row_per_product
    (store (fst (post_products CreateScenario.engine 40 Scenario.mike
                   (CreateScenario.scarf None (Some 20))
                   (Scenario.shop 5 15)))).
Proof.
  apply (product_creation_keeps_keys CreateScenario.engine 40 Scenario.mike
           (CreateScenario.scarf None (Some 20)) (Scenario.shop 5 15) _ 11).
  - reflexivity.
  - simpl. repeat constructor. intros [].
  - unfold one_row_per_product. simpl. repeat constructor. intros [].
  - intros p [<-|[]]. simpl. lia.
  - intros i [<-|[]]. simpl. lia.
Defined.

(** X5. A request whose sku is already carried by a product is refused
    with "SKU already exists" and changes nothing; a request without sku
    is never refused for that reason, however many products lack one. *)
Theorem duplicate_sku_refused e now u b db :
  idle db ->
  falsy_string (body_name b) = false ->
  falsy_string (body_category b) = false ->
  falsy_Q (body_sell_price b) = false ->
  insert_product_err e = false ->
  ((exists s p, body_sku b = Some s /\ In p (products (store db))
                /\ Products.sku p = Some s) ->
   post_products e now u b db
   = (db, Refused (BadRequest "SKU already exists")))
  /\ (body_sku b = None ->
      snd (post_products e now u b db)
      <> Refused (BadRequest "SKU already exists")).
Proof.
  intros Hidle Hn Hc Hs He.
  unfold post_products. cbv zeta. rewrite Hn, Hc, Hs. simpl orb.
  destruct (body_name b) as [name|]; [|discriminate Hn].
  destruct (body_category b) as [category|]; [|discriminate Hc].
  destruct (body_sell_price b) as [sell_price|]; [|discriminate Hs].
  rewrite store_begin. unfold insert_product. rewrite He.
  split.
  - intros (s & p & Hsku & Hin & Hps).
    assert (Hex : existsb (fun p0 => option_string_eqb (Products.sku p0)
                                                       (body_sku b))
                          (products (store db)) = true).
    { apply existsb_exists. exists p. split; [assumption|].
      rewrite Hps, Hsku. simpl. apply String.eqb_refl. }
    rewrite Hex. now rewrite rollback_begin_idle.
  - intros Hsku. rewrite Hsku.
    assert (Hex : existsb (fun p0 => option_string_eqb (Products.sku p0) None)
                          (products (store db)) = false).
    { induction (products (store db)) as [|p l IH]; [reflexivity|].
      simpl. rewrite IH. destruct (Products.sku p); reflexivity. }
    rewrite Hex.
    destruct (insert_inventory_err e); simpl; intros H; discriminate H.
Qed.

Lemma duplicate_sku_refused_witness :
  post_products CreateScenario.engine 40 Scenario.mike
    (CreateScenario.scarf (Some "HRV-MUG-001") (Some 20))
    (Scenario.shop 5 15)
  = (Scenario.shop 5 15, Refused (BadRequest "SKU already exists")).
Proof.
  apply (proj1 (duplicate_sku_refused CreateScenario.engine 40 Scenario.mike
                  (CreateScenario.scarf (Some "HRV-MUG-001") (Some 20))
                  (Scenario.shop 5 15) eq_refl eq_refl eq_refl eq_refl
                  eq_refl)).
  exists "HRV-MUG-001", Scenario.mug.
  split; [reflexivity|]. split; [left; reflexivity|reflexivity].
Defined.

(** ** [PUT /api/products/:id], further *)

(** X6. A product update is all or nothing across the two tables it
    writes: on an idle connection a request that is not answered with 200
    leaves the database exactly as it was.  That is the outcome, in
    particular, of every request without [quantity] for a product that
    has an inventory row: the product columns it carries are not kept. *)
Theorem product_update_is_atomic f now u id b db db' r :
  idle db ->
  put_product f now u id b db = (db', r) ->
  (is_ok r = false -> db' = db)
  /\ (body_quantity b = None ->
      select_inventory id (store db) <> None ->
      is_ok r = false).
Proof.
  intros Hidle H. split.
  - intros Hr. rewrite (put_product_not_ok _ _ _ _ _ _ _ _ H Hr).
    now apply rollback_begin_idle.
  - intros Hq Hrow. destruct r; try reflexivity.
    apply put_product_ok in H.
    destruct H as (t1 & n & t2 & Hup & Hinv & _).
    apply update_product_frame in Hup. destruct Hup as (Hi & _).
    unfold update_inventory in Hinv.
    destruct (update_inventory_err f); [discriminate Hinv|].
    unfold select_inventory in Hinv, Hrow. rewrite Hi in Hinv.
    destruct (find _ (inventory (store db))); [|contradiction Hrow; reflexivity].
    rewrite Hq in Hinv. discriminate Hinv.
Qed.

Lemma product_update_is_atomic_witness :
  put_product no_faults 60 Scenario.mike 2 CreateScenario.rename_only (Scenario.shop 5 15)
  = (Scenario.shop 5 15, ServerError "Failed to update inventory").
Proof.
  destruct (put_product no_faults 60 Scenario.mike 2 CreateScenario.rename_only
                        (Scenario.shop 5 15)) as [db' r] eqn:E.
  destruct (product_update_is_atomic no_faults 60 Scenario.mike 2 CreateScenario.rename_only
              (Scenario.shop 5 15) db' r eq_refl E) as [Hsame Hfail].
  rewrite (Hsame (Hfail eq_refl ltac:(discriminate))).
  vm_compute in E. injection E as _ <-. reflexivity.
Defined.

(** X7. Updating a product id that the catalogue does not hold is
    answered with 404 and changes nothing, whatever the request
    carries. *)
Theorem unknown_product_update f now u id b db :
  idle db ->
  update_product_err f = false ->
  select_product id (store db) = None ->
  put_product f now u id b db = (db, NotFound "Product not found").
Proof.
  intros Hidle Hf Hnone. unfold put_product. cbv zeta.
  rewrite store_begin. unfold update_product. rewrite Hf, Hnone.
  simpl. rewrite rollback_with_store, rollback_begin_idle by assumption.
  reflexivity.
Qed.

Lemma unknown_product_update_witness :
  put_product no_faults 60 Scenario.mike 9 (Scenario.edit_mug 40)
              (Scenario.shop 5 15)
  = (Scenario.shop 5 15, NotFound "Product not found").
Proof.
  apply unknown_product_update; reflexivity.
Defined.

(** X8. For a product without inventory row the handler takes the previous
    quantity to be 0: an accepted update with a quantity other than 0
    changes no inventory row, yet appends an 'adjustment' row from 0 to
    that quantity to the audit trail. *)
Theorem adjustment_logged_without_inventory_row f now u id b db db' msg q :
  put_product f now u id b db = (db', Ok msg) ->
  select_inventory id (store db) = None ->
  insert_movement_err f = false ->
  body_quantity b = Some q -> q <> 0 ->
  inventory (store db') = inventory (store db)
  /\ exists m,
       stock_movements (store db') = (stock_movements (store db) ++ [m])%list
       /\ StockMovements.product_id m = id
       /\ StockMovements.movement_type m = adjustment
       /\ StockMovements.previous_quantity m = 0
       /\ StockMovements.new_quantity m = q
       /\ StockMovements.quantity_change m = q.
Proof.
  intros H Hnone Hf Hq Hq0. apply put_product_ok in H.
  destruct H as (t1 & n & t2 & Hup & Hinv & ->).
  apply update_product_frame in Hup.
  destruct Hup as (Hi & _ & _ & Hmv & _).
  assert (Ht2 : t2 = t1).
  { unfold update_inventory in Hinv.
    destruct (update_inventory_err f); [discriminate Hinv|].
    unfold select_inventory in Hinv, Hnone. rewrite Hi, Hnone in Hinv.
    now injection Hinv as <-. }
  subst t2. simpl store.
  rewrite log_adjustment_inventory. split; [exact Hi|].
  unfold log_adjustment, previous_quantity_of. rewrite Hnone, Hq, Hf.
  simpl strict_neq. apply Z.eqb_neq in Hq0. rewrite Hq0. simpl negb.
  cbv iota. eexists. simpl. rewrite Hmv. split; [reflexivity|].
  simpl. repeat split; try reflexivity; lia.
Qed.

Lemma adjustment_logged_without_inventory_row_witness :
  let db' :=
    fst (put_product no_faults 60 Scenario.mike 2 (Scenario.edit_mug 40)
                     CreateScenario.shop_without_stock) in
  inventory (store db') = []
  /\ exists m, stock_movements (store db') = [m]
               /\ StockMovements.new_quantity m = 40.
Proof.
  cbv zeta.
  destruct (adjustment_logged_without_inventory_row no_faults 60
              Scenario.mike 2 (Scenario.edit_mug 40)
              CreateScenario.shop_without_stock _
              "Product updated successfully" 40
              eq_refl eq_refl eq_refl eq_refl ltac:(lia))
    as (Hi & m & Hm & _ & _ & _ & Hn & _).
  split; [exact Hi|]. exists m. split; [exact Hm|exact Hn].
Defined.

(** ** Sales conserve stock *)

Lemma find_map_set_quantity now nq pid' pid (l : list Inventory.row) :
  find (fun r => Inventory.product_id r =? pid)
       (map (fun r => if Inventory.product_id r =? pid'
                      then set_quantity now nq r else r) l)
  = option_map (fun r => if Inventory.product_id r =? pid'
                         then set_quantity now nq r else r)
               (find (fun r => Inventory.product_id r =? pid) l).
Proof.
  induction l as [|r l IH]; [reflexivity|]. simpl.
  assert (Hid : Inventory.product_id
                  (if Inventory.product_id r =? pid'
                   then set_quantity now nq r else r)
                = Inventory.product_id r)
    by (destruct (Inventory.product_id r =? pid'); reflexivity).
  rewrite Hid. destruct (Inventory.product_id r =? pid); [reflexivity|].
  exact IH.
Qed.

Lemma units_sold_snoc pid (l : list Sales.row) s :
  fold_right (fun s acc =>
                if Sales.product_id s =? pid
                then Sales.quantity_sold s + acc else acc) 0 (l ++ [s])
  = fold_right (fun s acc =>
                  if Sales.product_id s =? pid
                  then Sales.quantity_sold s + acc else acc) 0 l
    + (if Sales.product_id s =? pid then Sales.quantity_sold s else 0).
Proof.
  induction l as [|x l IH]; simpl.
  - destruct (Sales.product_id s =? pid); lia.
  - rewrite IH. destruct (Sales.product_id x =? pid); lia.
Qed.

Lemma post_sales_conserves f now u body db pid :
  idle db ->
  quantity_on_hand pid (store (fst (post_sales f now u body db)))
  + units_sold pid (store (fst (post_sales f now u body db)))
  = quantity_on_hand pid (store db) + units_sold pid (store db).
Proof.
  intros Hidle.
  destruct (post_sales f now u body db) as [db' r0] eqn:E. simpl fst.
  destruct (is_created r0) eqn:Hr.
  - destruct r0; try discriminate Hr.
    pose proof (post_sales_created_frame _ _ _ _ _ _ _ _ _ E)
      as (pid' & qs & price & row & _ & _ & _ & Hrow & _ & _ & Hi & Hs & _).
    rewrite committed_sale_inventory in Hi.
    rewrite committed_sale_sales in Hs.
    unfold quantity_on_hand, previous_quantity_of, select_inventory,
      units_sold.
    rewrite Hi, Hs, find_map_set_quantity, (units_sold_snoc pid).
    cbn [Sales.product_id Sales.quantity_sold].
    unfold select_inventory in Hrow.
    destruct (pid' =? pid) eqn:Hpid.
    + apply Z.eqb_eq in Hpid. subst pid'. rewrite Hrow. simpl.
      apply find_some in Hrow. destruct Hrow as [_ Hid]. rewrite Hid.
      simpl. lia.
    + destruct (find (fun r => Inventory.product_id r =? pid)
                     (inventory (store db))) as [r|] eqn:Hf; simpl; [|lia].
      apply find_some in Hf. destruct Hf as [_ Hid].
      apply Z.eqb_eq in Hid. rewrite Hid.
      rewrite Z.eqb_sym, Hpid. lia.
  - now rewrite (post_sales_not_created _ _ _ _ _ _ _ Hidle E Hr).
Qed.

(** X9. Sales conserve stock.  Over any sequence of sale requests and
    alert resolutions, accepted or refused, failing where they may, the
    quantity on hand of a product plus the units of it recorded in the
    sales table stays what it was: every unit that leaves the inventory
    is in a Sale row, and the other way round. *)
Theorem stock_is_conserved_by_sales calls db pid :
  idle db ->
  Forall (fun c => is_put_product (call_request c) = false) calls ->
  quantity_on_hand pid (store (run calls db))
  + units_sold pid (store (run calls db))
  = quantity_on_hand pid (store db) + units_sold pid (store db).
Proof.
  revert db. induction calls as [|c rest IH]; intros db Hidle Hall;
    [reflexivity|].
  inversion Hall as [|? ? Hc Hrest]; subst. simpl run.
  rewrite IH; [|now apply handle_idle|assumption].
  unfold handle in *. destruct (call_request c) as [body|id b|id].
  - now apply post_sales_conserves.
  - discriminate Hc.
  - unfold resolve_alert. destruct (update_alert_err _); [reflexivity|].
    destruct (_ =? _)%nat; reflexivity.
Qed.

Lemma stock_is_conserved_by_sales_witness :
  let calls :=
    [ {| call_faults := no_faults; call_time := 50;
         call_user := Scenario.sarah;
         call_request := PostSale (Scenario.sell 3 (1295 # 100)) |};
      {| call_faults := Scenario.movement_log_fails; call_time := 51;
         call_user := Scenario.sarah;
         call_request := PostSale (Scenario.sell 1 (1295 # 100)) |};
      {| call_faults := no_faults; call_time := 52;
         call_user := Scenario.sarah;
         call_request := PostSale (Scenario.sell 9 (1295 # 100)) |} ] in
  quantity_on_hand 2 (store (run calls (Scenario.shop 5 15))) = 1
  /\ units_sold 2 (store (run calls (Scenario.shop 5 15))) = 4.
Proof.
  cbv zeta. split; [reflexivity|].
  pose proof (stock_is_conserved_by_sales
                [ {| call_faults := no_faults; call_time := 50;
                     call_user := Scenario.sarah;
                     call_request := PostSale (Scenario.sell 3 (1295 # 100)) |};
                  {| call_faults := Scenario.movement_log_fails;
                     call_time := 51; call_user := Scenario.sarah;
                     call_request := PostSale (Scenario.sell 1 (1295 # 100)) |};
                  {| call_faults := no_faults; call_time := 52;
                     call_user := Scenario.sarah;
                     call_request := PostSale (Scenario.sell 9 (1295 # 100)) |} ]
                (Scenario.shop 5 15) 2 eq_refl
                ltac:(repeat constructor)) as H.
  change (quantity_on_hand 2 (store (Scenario.shop 5 15))) with 5 in H.
  change (units_sold 2 (store (Scenario.shop 5 15))) with 0 in H.
  assert (Hq : quantity_on_hand 2
                 (store (run
                   [ {| call_faults := no_faults; call_time := 50;
                        call_user := Scenario.sarah;
                        call_request :=
                          PostSale (Scenario.sell 3 (1295 # 100)) |};
                     {| call_faults := Scenario.movement_log_fails;
                        call_time := 51; call_user := Scenario.sarah;
                        call_request :=
                          PostSale (Scenario.sell 1 (1295 # 100)) |};
                     {| call_faults := no_faults; call_time := 52;
                        call_user := Scenario.sarah;
                        call_request :=
                          PostSale (Scenario.sell 9 (1295 # 100)) |} ]
                   (Scenario.shop 5 15))) = 1) by reflexivity.
  rewrite Hq in H. lia.
Defined.

(** ** The alert helper and the daily stock check *)

Lemma createLowStockAlert_faulty f now pid q r db :
  alert_faulty f = true -> createLowStockAlert f now pid q r db = db.
Proof.
  unfold alert_faulty, createLowStockAlert.
  destruct (select_alert_err f); [reflexivity|].
  destruct (find _ _); [reflexivity|].
  destruct (select_product_err f); [reflexivity|].
  destruct (select_product _ _); [|reflexivity].
  destruct (insert_alert_err f); [reflexivity|]. discriminate.
Qed.

(** What one call of the helper can add. *)
Lemma createLowStockAlert_adds f now pid q r db :
  exists added,
    alerts (store (createLowStockAlert f now pid q r db))
    = (alerts (store db) ++ added)%list
    /\ (List.length added <= 1)%nat
    /\ Forall (fun a => Alerts.product_id a = pid
                        /\ Alerts.status a = active
                        /\ Alerts.created_at a = now
                        /\ is_stock_alert a = true
                        /\ (Alerts.alert_type a = out_of_stock <-> q = 0))
              added.
Proof.
  unfold createLowStockAlert.
  destruct (select_alert_err f);
    [exists []; rewrite app_nil_r; repeat split; auto|].
  destruct (find _ _);
    [exists []; rewrite app_nil_r; repeat split; auto|].
  destruct (select_product_err f);
    [exists []; rewrite app_nil_r; repeat split; auto|].
  destruct (select_product _ _);
    [|exists []; rewrite app_nil_r; repeat split; auto].
  destruct (insert_alert_err f);
    [exists []; rewrite app_nil_r; repeat split; auto|].
  eexists [_]. split; [reflexivity|]. split; [simpl; lia|].
  constructor; [|constructor]. simpl.
  destruct (q =? 0) eqn:E; repeat split; auto; try discriminate.
  - intros _. now apply Z.eqb_eq.
  - intros H. apply Z.eqb_neq in E. contradiction.
Qed.

Lemma find_app_some {A} (p : A -> bool) (l l' : list A) :
  find p l <> None -> find p (l ++ l') <> None.
Proof.
  induction l as [|x l IH]; simpl; [intros H; now elim H|].
  destruct (p x); [discriminate|exact IH].
Qed.

(** After a call that no engine error disturbs, a product of the
    catalogue that is low but not at 0 has an active low_stock alert. *)
Lemma createLowStockAlert_ensures f now pid q r db :
  alert_faulty f = false ->
  select_product pid (store db) <> None ->
  q <> 0 ->
  find (is_active_low_stock pid)
       (alerts (store (createLowStockAlert f now pid q r db))) <> None.
Proof.
  unfold alert_faulty. intros Hf Hp Hq.
  apply orb_false_elim in Hf as [Hf Hi].
  apply orb_false_elim in Hf as [Ha Hs].
  unfold createLowStockAlert. rewrite Ha.
  destruct (find (is_active_low_stock pid) (alerts (store db))) eqn:Hfind;
    [rewrite Hfind; discriminate|].
  rewrite Hs. destruct (select_product pid (store db)); [|now elim Hp].
  rewrite Hi. simpl. apply Z.eqb_neq in Hq. rewrite Hq.
  induction (alerts (store db)) as [|a l IH]; simpl.
  - unfold is_active_low_stock. simpl. rewrite Z.eqb_refl. discriminate.
  - simpl in Hfind. destruct (is_active_low_stock pid a);
      [discriminate Hfind|]. now apply IH.
Qed.

Lemma createLowStockAlert_covers f now pid q r db :
  alert_faulty f = false ->
  select_product pid (store db) <> None ->
  exists a, In a (alerts (store (createLowStockAlert f now pid q r db)))
            /\ Alerts.product_id a = pid
            /\ Alerts.status a = active
            /\ is_stock_alert a = true.
Proof.
  unfold alert_faulty. intros Hf Hp.
  apply orb_false_elim in Hf as [Hf Hi].
  apply orb_false_elim in Hf as [Ha Hs].
  unfold createLowStockAlert. rewrite Ha.
  destruct (find _ _) as [a|] eqn:Hfind.
  - apply find_some in Hfind. destruct Hfind as [Hin Hact].
    exists a. split; [assumption|]. unfold is_active_low_stock in Hact.
    apply andb_prop in Hact as [Hact Hst].
    apply andb_prop in Hact as [Hid Hty].
    apply Z.eqb_eq in Hid. unfold is_stock_alert.
    destruct (Alerts.alert_type a); try discriminate Hty.
    destruct (Alerts.status a); try discriminate Hst. auto.
  - rewrite Hs. destruct (select_product pid (store db)); [|now elim Hp].
    rewrite Hi. eexists. split; [simpl; apply in_or_app; right; left;
                                 reflexivity|].
    simpl. destruct (q =? 0); auto.
Qed.

Lemma check_all_frame f now rows db :
  txn (check_all f now rows db) = txn db
  /\ products (store (check_all f now rows db)) = products (store db)
  /\ inventory (store (check_all f now rows db)) = inventory (store db)
  /\ sales (store (check_all f now rows db)) = sales (store db)
  /\ stock_movements (store (check_all f now rows db))
     = stock_movements (store db).
Proof.
  revert db. induction rows as [|x rows IH]; intros db; [simpl; tauto|].
  simpl. specialize (IH (createLowStockAlert f now (checked_id x)
                           (checked_quantity x) (checked_reorder_level x) db)).
  pose proof (createLowStockAlert_frame f now (checked_id x)
                (checked_quantity x) (checked_reorder_level x) db) as Hf.
  cbv zeta in Hf. unfold check_all in *.
  destruct IH as (-> & -> & -> & -> & ->). exact Hf.
Qed.

Lemma check_all_adds f now rows db :
  exists added,
    alerts (store (check_all f now rows db))
    = (alerts (store db) ++ added)%list
    /\ (List.length added <= List.length rows)%nat
    /\ Forall (fun a => Alerts.status a = active
                        /\ Alerts.created_at a = now
                        /\ is_stock_alert a = true
                        /\ exists x, In x rows
                                     /\ checked_id x = Alerts.product_id a)
              added.
Proof.
  revert db. induction rows as [|x rows IH]; intros db.
  - exists []. simpl. rewrite app_nil_r. repeat split; auto.
  - simpl.
    destruct (createLowStockAlert_adds f now (checked_id x)
                (checked_quantity x) (checked_reorder_level x) db)
      as (l1 & H1 & Hlen1 & Hall1).
    destruct (IH (createLowStockAlert f now (checked_id x)
                    (checked_quantity x) (checked_reorder_level x) db))
      as (l2 & H2 & Hlen2 & Hall2).
    exists (l1 ++ l2)%list. unfold check_all in *.
    rewrite H2, H1, app_assoc. split; [reflexivity|].
    split; [rewrite length_app; simpl; lia|].
    apply Forall_app. split.
    + eapply Forall_impl; [|exact Hall1].
      intros a (Hid & Hst & Hcr & Hty & _).
      repeat split; auto. exists x. split; [now left|now rewrite Hid].
    + eapply Forall_impl; [|exact Hall2].
      intros a (Hst & Hcr & Hty & y & Hy & Hid).
      repeat split; auto. exists y. split; [now right|exact Hid].
Qed.

Lemma in_stock_check_rows (t : tables) (x : stock_check_row) :
  In x (stock_check_rows t) <->
  exists p i,
    In p (products t) /\ In i (inventory t)
    /\ Inventory.product_id i = Products.id p
    /\ Inventory.quantity i <= Inventory.reorder_level i
    /\ x = {| checked_id := Products.id p;
              checked_name := Products.name p;
              checked_quantity := Inventory.quantity i;
              checked_reorder_level := Inventory.reorder_level i |}.
Proof.
  unfold stock_check_rows. rewrite in_flat_map. split.
  - intros (p & Hp & Hx). apply in_map_iff in Hx.
    destruct Hx as (i & <- & Hi). apply filter_In in Hi.
    destruct Hi as [Hi Hc]. apply andb_prop in Hc as [Hid Hle].
    exists p, i. apply Z.eqb_eq in Hid. apply Z.leb_le in Hle. auto.
  - intros (p & i & Hp & Hi & Hid & Hle & ->).
    exists p. split; [assumption|]. apply in_map_iff. exists i.
    split; [reflexivity|]. apply filter_In. split; [assumption|].
    apply andb_true_intro. split; [now apply Z.eqb_eq|now apply Z.leb_le].
Qed.

Lemma select_product_in (t : tables) (p : Products.row) :
  In p (products t) -> select_product (Products.id p) t <> None.
Proof.
  intros Hin Hnone. unfold select_product in Hnone.
  pose proof (find_none _ _ Hnone p Hin) as H. simpl in H.
  rewrite Z.eqb_refl in H. discriminate H.
Qed.

Lemma check_all_select_product f now rows db pid :
  select_product pid (store (check_all f now rows db))
  = select_product pid (store db).
Proof.
  unfold select_product.
  destruct (check_all_frame f now rows db) as (_ & -> & _). reflexivity.
Qed.

Lemma check_all_cons f now x rows db :
  check_all f now (x :: rows) db
  = check_all f now rows
      (createLowStockAlert f now (checked_id x) (checked_quantity x)
                           (checked_reorder_level x) db).
Proof. reflexivity. Qed.

Lemma createLowStockAlert_select_product f now pid q r db pid' :
  select_product pid' (store (createLowStockAlert f now pid q r db))
  = select_product pid' (store db).
Proof.
  unfold select_product.
  pose proof (createLowStockAlert_frame f now pid q r db) as H.
  cbv zeta in H. destruct H as (_ & -> & _). reflexivity.
Qed.

Lemma check_all_covers f now rows db x :
  alert_faulty f = false ->
  In x rows ->
  select_product (checked_id x) (store db) <> None ->
  exists a, In a (alerts (store (check_all f now rows db)))
            /\ Alerts.product_id a = checked_id x
            /\ Alerts.status a = active
            /\ is_stock_alert a = true.
Proof.
  intros Hf. revert db. induction rows as [|y rows IH]; intros db Hin Hp;
    [destruct Hin|].
  rewrite check_all_cons. destruct Hin as [->|Hin].
  - destruct (createLowStockAlert_covers f now (checked_id x)
                (checked_quantity x) (checked_reorder_level x) db Hf Hp)
      as (a & Ha & Hrest).
    exists a. split; [|exact Hrest].
    destruct (check_all_adds f now rows
                (createLowStockAlert f now (checked_id x)
                   (checked_quantity x) (checked_reorder_level x) db))
      as (added & -> & _).
    apply in_or_app. now left.
  - apply IH; [assumption|].
    now rewrite createLowStockAlert_select_product.
Qed.

Lemma check_all_ensures f now rows db x :
  alert_faulty f = false ->
  In x rows ->
  select_product (checked_id x) (store db) <> None ->
  checked_quantity x <> 0 ->
  find (is_active_low_stock (checked_id x))
       (alerts (store (check_all f now rows db))) <> None.
Proof.
  intros Hf. revert db. induction rows as [|y rows IH]; intros db Hin Hp Hq;
    [destruct Hin|].
  rewrite check_all_cons. destruct Hin as [->|Hin].
  - destruct (check_all_adds f now rows
                (createLowStockAlert f now (checked_id x)
                   (checked_quantity x) (checked_reorder_level x) db))
      as (added & -> & _).
    apply find_app_some. now apply createLowStockAlert_ensures.
  - apply IH; [assumption| |assumption].
    now rewrite createLowStockAlert_select_product.
Qed.

Lemma check_all_noop f now rows db :
  (forall x, In x rows ->
             find (is_active_low_stock (checked_id x)) (alerts (store db))
             <> None) ->
  check_all f now rows db = db.
Proof.
  induction rows as [|y rows IH]; intros H; [reflexivity|].
  rewrite check_all_cons.
  assert (Hy : createLowStockAlert f now (checked_id y) (checked_quantity y)
                 (checked_reorder_level y) db = db).
  { specialize (H y (or_introl eq_refl)).
    destruct (find (is_active_low_stock (checked_id y)) (alerts (store db)))
      as [a|] eqn:E; [|now elim H].
    eapply active_low_stock_alert_blocks. exact E. }
  rewrite Hy. apply IH. intros x Hx. apply H. now right.
Qed.

Lemma stock_check_rows_ext (t t' : tables) :
  products t' = products t -> inventory t' = inventory t ->
  stock_check_rows t' = stock_check_rows t.
Proof. unfold stock_check_rows. now intros -> ->. Qed.

(** X10. The daily stock check only ever appends alerts.  It leaves
    products, inventory, sales, the audit trail and an open transaction
    alone, keeps every existing alert as it is (none is resolved or
    rewritten, also when the stock has been refilled), and each alert it
    adds is active, stamped with the time of the run, of type low_stock
    or out_of_stock, and for a product of the catalogue that has an
    inventory row at or below its reorder level; it adds at most one
    alert per such row. *)
Theorem stock_check_only_adds_alerts select_err f now db :
  let db' := daily_stock_check select_err f now db in
  txn db' = txn db
  /\ products (store db') = products (store db)
  /\ inventory (store db') = inventory (store db)
  /\ sales (store db') = sales (store db)
  /\ stock_movements (store db') = stock_movements (store db)
  /\ exists added,
       alerts (store db') = (alerts (store db) ++ added)%list
       /\ (List.length added
           <= List.length (stock_check_rows (store db)))%nat
       /\ Forall
            (fun a =>
               Alerts.status a = active
               /\ Alerts.created_at a = now
               /\ (Alerts.alert_type a = low_stock
                   \/ Alerts.alert_type a = out_of_stock)
               /\ exists p i,
                    In p (products (store db))
                    /\ In i (inventory (store db))
                    /\ Products.id p = Alerts.product_id a
                    /\ Inventory.product_id i = Alerts.product_id a
                    /\ Inventory.quantity i <= Inventory.reorder_level i)
            added.
Proof.
  cbv zeta. unfold daily_stock_check. destruct select_err.
  - repeat (split; [reflexivity|]). exists []. rewrite app_nil_r.
    repeat split; auto. simpl. lia.
  - fold (check_all f now (stock_check_rows (store db)) db).
    destruct (check_all_frame f now (stock_check_rows (store db)) db)
      as (H1 & H2 & H3 & H4 & H5).
    repeat (split; [assumption|]).
    destruct (check_all_adds f now (stock_check_rows (store db)) db)
      as (added & Hal & Hlen & Hall).
    exists added. repeat (split; [assumption|]).
    eapply Forall_impl; [|exact Hall].
    intros a (Hst & Hcr & Hty & x & Hx & Hid).
    repeat (split; [assumption|]). split.
    + unfold is_stock_alert in Hty.
      destruct (Alerts.alert_type a); try discriminate Hty; auto.
    + apply in_stock_check_rows in Hx.
      destruct Hx as (p & i & Hp & Hi & Hpi & Hle & ->).
      simpl in Hid. exists p, i. repeat split; auto; congruence.
Qed.

(** X11. After a run of the daily stock check that no engine error
    disturbs, every product of the catalogue with an inventory row at or
    below its reorder level has an active alert of type low_stock or
    out_of_stock. *)
Theorem stock_check_covers_low_stock f now db p i :
  alert_faulty f = false ->
  In p (products (store db)) ->
  In i (inventory (store db)) ->
  Inventory.product_id i = Products.id p ->
  Inventory.quantity i <= Inventory.reorder_level i ->
  exists a,
    In a (alerts (store (daily_stock_check false f now db)))
    /\ Alerts.product_id a = Products.id p
    /\ Alerts.status a = active
    /\ (Alerts.alert_type a = low_stock
        \/ Alerts.alert_type a = out_of_stock).
Proof.
  intros Hf Hp Hi Hid Hle. unfold daily_stock_check.
  fold (check_all f now (stock_check_rows (store db)) db).
  destruct (check_all_covers f now (stock_check_rows (store db)) db
              {| checked_id := Products.id p;
                 checked_name := Products.name p;
                 checked_quantity := Inventory.quantity i;
                 checked_reorder_level := Inventory.reorder_level i |} Hf)
    as (a & Ha & Hpid & Hst & Hty).
  - apply in_stock_check_rows. exists p, i. auto.
  - simpl. now apply select_product_in.
  - exists a. repeat (split; [assumption|]).
    unfold is_stock_alert in Hty.
    destruct (Alerts.alert_type a); try discriminate Hty; auto.
Qed.

Lemma stock_check_covers_low_stock_witness :
  exists a,
    In a (alerts (store (daily_stock_check false no_faults 900
                                           (Scenario.shop 5 15))))
    /\ Alerts.product_id a = 2 /\ Alerts.status a = active.
Proof.
  destruct (stock_check_covers_low_stock no_faults 900 (Scenario.shop 5 15)
              Scenario.mug (Scenario.mug_stock 5 15) eq_refl
              (or_introl eq_refl) (or_introl eq_refl) eq_refl
              ltac:(simpl; lia))
    as (a & Ha & Hid & Hst & _).
  exists a. auto.
Defined.

(** X12. Where nothing low on stock is at 0, the daily stock check is
    idempotent: once a run that no engine error disturbs has raised its
    alerts, a further run, at any time and whatever fails in it, changes
    nothing. *)
Theorem stock_check_idempotent_above_zero f now db select_err2 f2 now2 :
  alert_faulty f = false ->
  (forall i, In i (inventory (store db)) ->
             Inventory.quantity i <= Inventory.reorder_level i ->
             Inventory.quantity i <> 0) ->
  daily_stock_check select_err2 f2 now2 (daily_stock_check false f now db)
  = daily_stock_check false f now db.
Proof.
  intros Hf Hnz. unfold daily_stock_check at 1.
  destruct select_err2; [reflexivity|].
  fold (check_all f2 now2
          (stock_check_rows (store (daily_stock_check false f now db)))
          (daily_stock_check false f now db)).
  unfold daily_stock_check.
  fold (check_all f now (stock_check_rows (store db)) db).
  destruct (check_all_frame f now (stock_check_rows (store db)) db)
    as (_ & Hp & Hi & _).
  rewrite (stock_check_rows_ext _ _ Hp Hi).
  apply check_all_noop. intros x Hx.
  pose proof Hx as Hx'. apply in_stock_check_rows in Hx'.
  destruct Hx' as (p & i & Hpin & Hiin & Hid & Hle & Heq).
  apply check_all_ensures; [assumption|assumption| |].
  - subst x. simpl. now apply select_product_in.
  - subst x. simpl. now apply Hnz.
Qed.

Lemma stock_check_idempotent_above_zero_witness :
  daily_stock_check false no_faults 1800
    (daily_stock_check false no_faults 900 (Scenario.shop 5 15))
  = daily_stock_check false no_faults 900 (Scenario.shop 5 15).
Proof.
  apply stock_check_idempotent_above_zero.
  - reflexivity.
  - intros i [<-|[]] _. simpl. lia.
Defined.

(** X13. For a quantity other than 0 the alert helper is idempotent: a
    second call for the same product, with the same engine behaviour and
    whatever quantity, reorder level and time, changes nothing. *)
Theorem alert_helper_idempotent_above_zero f now pid q r db now2 q2 r2 :
  q <> 0 ->
  createLowStockAlert f now2 pid q2 r2
    (createLowStockAlert f now pid q r db)
  = createLowStockAlert f now pid q r db.
Proof.
  intros Hq.
  destruct (alert_faulty f) eqn:Hf;
    [now rewrite !createLowStockAlert_faulty|].
  destruct (select_product pid (store db)) as [p|] eqn:Hp.
  - pose proof (createLowStockAlert_ensures f now pid q r db Hf
                  ltac:(rewrite Hp; discriminate) Hq) as H.
    destruct (find _ _) as [a|] eqn:E; [|now elim H].
    eapply active_low_stock_alert_blocks. exact E.
  - assert (H1 : createLowStockAlert f now pid q r db = db).
    { unfold createLowStockAlert. rewrite Hp.
      destruct (select_alert_err f); [reflexivity|].
      destruct (find _ _); [reflexivity|].
      destruct (select_product_err f); reflexivity. }
    rewrite H1. unfold createLowStockAlert. rewrite Hp.
    destruct (select_alert_err f); [reflexivity|].
    destruct (find _ _); [reflexivity|].
    destruct (select_product_err f); reflexivity.
Qed.

Lemma alert_helper_idempotent_above_zero_witness :
  createLowStockAlert no_faults 200 2 1 15
    (createLowStockAlert no_faults 100 2 3 15 (Scenario.shop 3 15))
  = createLowStockAlert no_faults 100 2 3 15 (Scenario.shop 3 15).
Proof.
  apply alert_helper_idempotent_above_zero. lia.
Defined.

(** ** A sale and its alert *)

Lemma committed_sale_frame f now u body pid qs price row t :
  products (committed_sale f now u body pid qs price row t) = products t
  /\ alerts (committed_sale f now u body pid qs price row t) = alerts t.
Proof.
  unfold committed_sale. destruct (insert_movement_err f); split; reflexivity.
Qed.

(** X14. The low-stock flag of a sale and the alerts table go together.
    When a sale is answered with [lowStockAlert: false], the alerts are
    left as they were.  When it is answered with [lowStockAlert: true],
    the product is in the catalogue and no engine error disturbs the alert
    helper, the product has an active low_stock or out_of_stock alert
    afterwards (a new one, or one that was there). *)
Theorem low_stock_flag_has_alert f now u body db db' sid nq flag pid :
  post_sales f now u body db = (db', SaleCreated sid nq flag) ->
  body_product_id body = Some pid ->
  (flag = false -> alerts (store db') = alerts (store db))
  /\ (flag = true ->
      alert_faulty f = false ->
      select_product pid (store db) <> None ->
      exists a, In a (alerts (store db'))
                /\ Alerts.product_id a = pid
                /\ Alerts.status a = active
                /\ (Alerts.alert_type a = low_stock
                    \/ Alerts.alert_type a = out_of_stock)).
Proof.
  intros H Hpid. apply post_sales_created in H.
  destruct H as (pid' & qs & price & row & Hp & _ & _ & _ & _ & _ & _ & _ & _
                 & _ & _ & Hdb).
  assert (pid' = pid) by congruence. subst pid'. cbv zeta in Hdb.
  destruct (committed_sale_frame f now u body pid qs price row (store db))
    as [Hpr Hal].
  split; intros Hflag; subst flag.
  - subst db'. simpl. exact Hal.
  - intros Hf Hprod. subst db'.
    destruct (createLowStockAlert_covers f now pid nq
                (Inventory.reorder_level row)
                {| store := committed_sale f now u body pid qs price row
                              (store db); txn := None |} Hf)
      as (a & Ha & Hid & Hst & Hty).
    + unfold select_product in *. simpl. now rewrite Hpr.
    + exists a. repeat (split; [assumption|]).
      unfold is_stock_alert in Hty.
      destruct (Alerts.alert_type a); try discriminate Hty; auto.
Qed.

Lemma low_stock_flag_has_alert_witness :
  exists a,
    In a (alerts (store (fst (post_sales no_faults 50 Scenario.sarah
                                (Scenario.sell 3 (1295 # 100))
                                (Scenario.shop 5 15)))))
    /\ Alerts.product_id a = 2 /\ Alerts.status a = active.
Proof.
  destruct (low_stock_flag_has_alert no_faults 50 Scenario.sarah
              (Scenario.sell 3 (1295 # 100)) (Scenario.shop 5 15) _ 1 2 true
              2 eq_refl eq_refl) as [_ H].
  destruct (H eq_refl eq_refl ltac:(discriminate))
    as (a & Ha & Hid & Hst & _).
  exists a. auto.
Defined.

(** ** Stock status, dashboard and listing *)

Lemma filter_ext_length {A} (p q : A -> bool) (l : list A) :
  (forall x, In x l -> p x = q x) ->
  List.length (filter p l) = List.length (filter q l).
Proof.
  induction l as [|x l IH]; intros H; [reflexivity|]. simpl.
  rewrite (H x (or_introl eq_refl)).
  destruct (q x); simpl; rewrite IH; auto; intros y Hy; apply H; now right.
Qed.

Lemma filter_length_le {A} (p q : A -> bool) (l : list A) :
  (forall x, In x l -> p x = true -> q x = true) ->
  (List.length (filter p l) <= List.length (filter q l))%nat.
Proof.
  induction l as [|x l IH]; intros H; [simpl; lia|]. simpl.
  assert (IH' : (List.length (filter p l) <= List.length (filter q l))%nat)
    by (apply IH; intros y Hy; apply H; now right).
  destruct (p x) eqn:Ep.
  - rewrite (H x (or_introl eq_refl) Ep). simpl. lia.
  - destruct (q x); simpl; lia.
Qed.

(** X15. The dashboard counters and the [stock_status] column of the
    product listing agree as long as no quantity and no reorder level is
    negative: the out-of-stock counter is the number of inventory rows
    that the CASE of the listing classifies as 'out_of_stock', the
    low-stock counter is the number it classifies as 'out_of_stock' or
    'low_stock', and the first never exceeds the second. *)
Theorem dashboard_counts_match_listing (t : tables) :
  nonneg_tables t ->
  Forall (fun i => 0 <= Inventory.reorder_level i) (inventory t) ->
  outOfStockCount t
  = List.length (filter (fun i => is_out (stock_status_of (Some i)))
                        (inventory t))
  /\ lowStockCount t
     = List.length (filter (fun i => is_low_or_out (stock_status_of (Some i)))
                           (inventory t))
  /\ (outOfStockCount t <= lowStockCount t)%nat.
Proof.
  intros Hq Hr. unfold nonneg_tables in Hq.
  rewrite Forall_forall in Hq, Hr.
  unfold outOfStockCount, lowStockCount. split; [|split].
  - apply filter_ext_length. intros i Hi. specialize (Hq i Hi).
    unfold stock_status_of.
    destruct (Z.eqb_spec (Inventory.quantity i) 0) as [E|E].
    + rewrite E. reflexivity.
    + destruct (Z.leb_spec (Inventory.quantity i) 0); [lia|].
      destruct (_ <=? _); [reflexivity|].
      destruct (Inventory.max_stock_level i) as [m|]; [|reflexivity].
      destruct (m <=? _); reflexivity.
  - apply filter_ext_length. intros i Hi.
    specialize (Hq i Hi). specialize (Hr i Hi). unfold stock_status_of.
    destruct (Z.leb_spec (Inventory.quantity i) 0).
    + apply Z.leb_le. lia.
    + destruct (Inventory.quantity i <=? Inventory.reorder_level i);
        [reflexivity|].
      destruct (Inventory.max_stock_level i) as [m|]; [|reflexivity].
      destruct (m <=? _); reflexivity.
  - apply filter_length_le. intros i Hi E.
    specialize (Hr i Hi). apply Z.eqb_eq in E. apply Z.leb_le. lia.
Qed.

Lemma dashboard_counts_match_listing_witness :
  outOfStockCount (store (Scenario.shop 0 15)) = 1%nat
  /\ lowStockCount (store (Scenario.shop 0 15)) = 1%nat.
Proof.
  destruct (dashboard_counts_match_listing (store (Scenario.shop 0 15)))
    as (H1 & H2 & _).
  - unfold nonneg_tables. simpl. repeat constructor. simpl. lia.
  - simpl. repeat constructor. simpl. lia.
  - rewrite H1, H2. split; reflexivity.
Defined.

(** ** [GET /api/alerts] *)

Lemma listed_before_total (x y : alert_listing) :
  (listed_before x y = true -> listing_precedes x y)
  /\ (listed_before x y = false -> listing_precedes y x).
Proof.
  unfold listed_before, listing_precedes.
  destruct (Alerts.priority (listed x)), (Alerts.priority (listed y));
    cbn; split; intros H; try discriminate H; try (left; lia);
    right; (split; [reflexivity|]);
    [apply Z.leb_le in H | apply Z.leb_gt in H
    |apply Z.leb_le in H | apply Z.leb_gt in H
    |apply Z.leb_le in H | apply Z.leb_gt in H
    |apply Z.leb_le in H | apply Z.leb_gt in H]; lia.
Qed.

Lemma listing_precedes_trans (x y z : alert_listing) :
  listing_precedes x y -> listing_precedes y z -> listing_precedes x z.
Proof. unfold listing_precedes. intros [H1|[H1 H1']] [H2|[H2 H2']]; lia. Qed.

Lemma in_insert_listing (x z : alert_listing) (l : list alert_listing) :
  In z (insert_listing x l) <-> z = x \/ In z l.
Proof.
  induction l as [|y l IH]; simpl; [intuition congruence|].
  destruct (listed_before x y); simpl; [intuition congruence|].
  rewrite IH. intuition congruence.
Qed.

Lemma in_order_listing (z : alert_listing) (l : list alert_listing) :
  In z (order_listing l) <-> In z l.
Proof.
  induction l as [|x l IH]; simpl; [tauto|].
  rewrite in_insert_listing, IH. intuition congruence.
Qed.

Lemma insert_listing_sorted (x : alert_listing) (l : list alert_listing) :
  StronglySorted listing_precedes l ->
  StronglySorted listing_precedes (insert_listing x l).
Proof.
  induction l as [|y l IH]; intros Hs; simpl.
  - repeat constructor.
  - inversion Hs as [|? ? Hl Hy]; subst.
    destruct (listed_before x y) eqn:E.
    + apply (proj1 (listed_before_total x y)) in E.
      constructor; [exact Hs|]. constructor; [exact E|].
      eapply Forall_impl; [|exact Hy].
      intros z Hz. eapply listing_precedes_trans; eauto.
    + apply (proj2 (listed_before_total x y)) in E.
      constructor; [now apply IH|].
      apply Forall_forall. intros z Hz. apply in_insert_listing in Hz.
      destruct Hz as [->|Hz]; [exact E|].
      rewrite Forall_forall in Hy. now apply Hy.
Qed.

Lemma order_listing_sorted (l : list alert_listing) :
  StronglySorted listing_precedes (order_listing l).
Proof.
  induction l as [|x l IH]; simpl; [constructor|].
  now apply insert_listing_sorted.
Qed.

Lemma strongly_sorted_split {A} (R : A -> A -> Prop) l1 x l2 y l3 :
  StronglySorted R (l1 ++ x :: l2 ++ y :: l3) -> R x y.
Proof.
  induction l1 as [|z l1 IH]; simpl; intros H.
  - inversion H as [|? ? _ Hall]; subst.
    rewrite Forall_forall in Hall. apply Hall.
    apply in_or_app. right. now left.
  - inversion H; subst. now apply IH.
Qed.

(** X16. The alert listing is ordered by the text of the priority,
    backwards: 'medium' alerts first, then 'low', then 'high', and
    'critical' ones last; within one priority the newest comes first.  So
    a critical alert is never listed before an alert of another
    priority. *)
Theorem alert_listing_order select_err status type db l :
  get_alerts select_err status type db = Some l ->
  StronglySorted listing_precedes l
  /\ (forall l1 x l2 y l3,
         l = (l1 ++ x :: l2 ++ y :: l3)%list ->
         Alerts.priority (listed x) = critical ->
         Alerts.priority (listed y) = critical).
Proof.
  unfold get_alerts. destruct select_err; [discriminate|].
  intros H. injection H as <-.
  split; [apply order_listing_sorted|].
  intros l1 x l2 y l3 Heq Hx.
  pose proof (order_listing_sorted
                (filter (fun x0 =>
                   String.eqb (alert_status_text (Alerts.status (listed x0)))
                              (or_default "active" status)
                   && (if falsy_string type then true
                       else String.eqb
                              (alert_type_text
                                 (Alerts.alert_type (listed x0)))
                              (or_default "" type)))
                   (alert_join (store db)))) as Hs.
  rewrite Heq in Hs. apply strongly_sorted_split in Hs.
  unfold listing_precedes in Hs. rewrite Hx in Hs.
  destruct (Alerts.priority (listed y)); simpl in Hs; try lia. reflexivity.
Qed.

Lemma alert_listing_order_witness :
  exists l,
    get_alerts false None None ListingScenario.shop = Some l
    /\ map (fun x => Alerts.priority (listed x)) l
       = [medium; low; high; critical]
    /\ StronglySorted listing_precedes l.
Proof.
  eexists. split; [reflexivity|]. split; [reflexivity|].
  apply (proj1 (alert_listing_order false None None ListingScenario.shop _
                  eq_refl)).
Defined.

Lemma in_alert_join (t : tables) (x : alert_listing) :
  In x (alert_join t) ->
  In (listed x) (alerts t)
  /\ exists p, In p (products t)
               /\ Products.id p = Alerts.product_id (listed x)
               /\ product_name x = Products.name p.
Proof.
  unfold alert_join. rewrite in_flat_map.
  intros (a & Ha & Hx). apply in_flat_map in Hx.
  destruct Hx as (p & Hp & Hx). apply filter_In in Hp.
  destruct Hp as [Hp Hid]. apply Z.eqb_eq in Hid.
  destruct (filter _ (inventory t)) as [|i rest].
  - destruct Hx as [<-|[]]. simpl. split; [assumption|]. exists p. auto.
  - apply in_map_iff in Hx. destruct Hx as (j & <- & _). simpl.
    split; [assumption|]. exists p. auto.
Qed.

Lemma alert_join_complete (t : tables) (a : Alerts.row) (p : Products.row) :
  In a (alerts t) -> In p (products t) ->
  Products.id p = Alerts.product_id a ->
  exists x, In x (alert_join t) /\ listed x = a.
Proof.
  intros Ha Hp Hid. unfold alert_join.
  destruct (filter (fun i => Inventory.product_id i =? Alerts.product_id a)
                   (inventory t)) as [|i rest] eqn:E.
  - exists {| listed := a; product_name := Products.name p;
              listed_category := Products.category p;
              listed_sku := Products.sku p; current_quantity := None;
              listed_reorder_level := None |}.
    split; [|reflexivity].
    apply in_flat_map. exists a. split; [assumption|].
    apply in_flat_map. exists p. split.
    + apply filter_In. split; [assumption|now apply Z.eqb_eq].
    + rewrite E. left. reflexivity.
  - exists {| listed := a; product_name := Products.name p;
              listed_category := Products.category p;
              listed_sku := Products.sku p;
              current_quantity := Some (Inventory.quantity i);
              listed_reorder_level := Some (Inventory.reorder_level i) |}.
    split; [|reflexivity].
    apply in_flat_map. exists a. split; [assumption|].
    apply in_flat_map. exists p. split.
    + apply filter_In. split; [assumption|now apply Z.eqb_eq].
    + rewrite E. left. reflexivity.
Qed.

(** X17. What the alert listing shows.  Every listed row is an alert of
    the table with the status asked for ('active' when none is given),
    joined with a product of the catalogue that has its product id; so an
    alert whose product is no longer in the catalogue is never listed.
    Without a type filter, every alert with that status whose product is
    in the catalogue is listed. *)
Theorem alert_listing_members select_err status type db l :
  get_alerts select_err status type db = Some l ->
  (forall x, In x l ->
     In (listed x) (alerts (store db))
     /\ alert_status_text (Alerts.status (listed x))
        = or_default "active" status
     /\ exists p, In p (products (store db))
                  /\ Products.id p = Alerts.product_id (listed x)
                  /\ product_name x = Products.name p)
  /\ (falsy_string type = true ->
      forall a p,
        In a (alerts (store db)) ->
        alert_status_text (Alerts.status a) = or_default "active" status ->
        In p (products (store db)) ->
        Products.id p = Alerts.product_id a ->
        exists x, In x l /\ listed x = a).
Proof.
  unfold get_alerts. destruct select_err; [discriminate|].
  intros H. injection H as <-. split.
  - intros x Hx. apply (proj1 (in_order_listing _ _)) in Hx.
    apply filter_In in Hx.
    destruct Hx as [Hx Hc]. apply andb_prop in Hc as [Hst _].
    apply String.eqb_eq in Hst.
    destruct (in_alert_join _ _ Hx) as [Ha Hp]. auto.
  - intros Hty a p Ha Hst Hp Hid.
    destruct (alert_join_complete _ _ _ Ha Hp Hid) as (x & Hx & Hlx).
    exists x. split; [|assumption].
    apply (proj2 (in_order_listing _ _)). apply filter_In.
    split; [assumption|].
    rewrite Hty, Hlx, Hst, String.eqb_refl. reflexivity.
Qed.

Lemma alert_listing_members_witness :
  exists l x,
    get_alerts false None None ListingScenario.shop = Some l
    /\ In x l /\ listed x = ListingScenario.alert 1 critical 10.
Proof.
  eexists.
  destruct (alert_listing_members false None None ListingScenario.shop _
              eq_refl) as [_ H].
  destruct (H eq_refl (ListingScenario.alert 1 critical 10) Scenario.mug
              (or_introl eq_refl) eq_refl (or_introl eq_refl) eq_refl)
    as (x & Hx & Hl).
  exists x. split; [reflexivity|]. split; assumption.
Defined.

(** ** The seeding script *)

Lemma alert_type_eqb_eq (a b : alert_type) :
  alert_type_eqb a b = true <-> a = b.
Proof. destruct a, b; simpl; split; intros H; congruence. Qed.

Lemma checkAlertExists_keys pid ty (t : tables) :
  checkAlertExists pid ty t = true <-> In (pid, ty) (active_keys t).
Proof.
  unfold checkAlertExists, active_keys. rewrite existsb_exists, in_map_iff.
  split.
  - intros (a & Ha & Hc). apply andb_prop in Hc as [Hc Hst].
    apply andb_prop in Hc as [Hid Hty].
    apply Z.eqb_eq in Hid. apply alert_type_eqb_eq in Hty.
    exists a. split; [unfold seed_key; congruence|].
    apply filter_In. split; [assumption|]. exact Hst.
  - intros (a & Hk & Ha). apply filter_In in Ha. destruct Ha as [Ha Hst].
    unfold seed_key in Hk. injection Hk as Hid Hty.
    exists a. split; [assumption|].
    apply andb_true_intro. split; [apply andb_true_intro; split|exact Hst].
    + now apply Z.eqb_eq.
    + now apply alert_type_eqb_eq.
Qed.

Lemma active_keys_insert now pid ty msg prio (t : tables) :
  active_keys (insert_alert now pid ty msg prio t)
  = (active_keys t ++ [(pid, ty)])%list.
Proof.
  unfold active_keys, insert_alert. simpl.
  now rewrite filter_app, map_app.
Qed.

Lemma createSampleAlerts_keys now items (t : tables) :
  exists added,
    active_keys (fst (createSampleAlerts now items t))
    = (active_keys t ++ added)%list.
Proof.
  revert t. induction items as [|[s e] items IH]; intros t; simpl.
  - exists []. now rewrite app_nil_r.
  - destruct (check_alert_err e); [apply IH|].
    destruct (checkAlertExists _ _ t); [apply IH|].
    destruct (seed_insert_alert_err e); [apply IH|].
    destruct (IH (insert_alert now (seed_productId s) (seed_alertType s)
                    (seed_message s) (seed_priority s) t)) as (added & H).
    destruct (createSampleAlerts now items _) as [t' n]. simpl in *.
    rewrite H, active_keys_insert, <- app_assoc. eexists. reflexivity.
Qed.

Lemma createSampleAlerts_seeded now seeds (t : tables) s :
  In s seeds ->
  In (seed_productId s, seed_alertType s)
     (active_keys
        (fst (createSampleAlerts now
                (map (fun s => (s, no_alert_seed_errors)) seeds) t))).
Proof.
  revert t. induction seeds as [|x seeds IH]; intros t Hin; [destruct Hin|].
  simpl.
  destruct (checkAlertExists (seed_productId x) (seed_alertType x) t) eqn:E.
  - destruct Hin as [->|Hin]; [|now apply IH].
    apply checkAlertExists_keys in E.
    destruct (createSampleAlerts_keys now
                (map (fun s => (s, no_alert_seed_errors)) seeds) t)
      as (added & ->).
    apply in_or_app. now left.
  - pose proof (createSampleAlerts_keys now
                  (map (fun s => (s, no_alert_seed_errors)) seeds)
                  (insert_alert now (seed_productId x) (seed_alertType x)
                     (seed_message x) (seed_priority x) t)) as (added & Hk).
    pose proof (IH (insert_alert now (seed_productId x) (seed_alertType x)
                      (seed_message x) (seed_priority x) t)) as IH'.
    destruct (createSampleAlerts now _ _) as [t' n]. simpl in *.
    destruct Hin as [->|Hin]; [|now apply IH'].
    rewrite Hk, active_keys_insert. apply in_or_app. left.
    apply in_or_app. right. now left.
Qed.

Lemma createSampleAlerts_noop now items (t : tables) :
  (forall s e, In (s, e) items ->
        In (seed_productId s, seed_alertType s) (active_keys t)) ->
  createSampleAlerts now items t = (t, 0%nat).
Proof.
  induction items as [|[s e] items IH]; intros H; [reflexivity|]. simpl.
  assert (IH' : createSampleAlerts now items t = (t, 0%nat))
    by (apply IH; intros s' e' Hin; eapply H; right; exact Hin).
  destruct (check_alert_err e); [exact IH'|].
  assert (E : checkAlertExists (seed_productId s) (seed_alertType s) t = true)
    by (apply checkAlertExists_keys; eapply H; left; reflexivity).
  now rewrite E.
Qed.

(** X18. Seeding the sample alerts is idempotent: after a run in which no
    statement failed, a further run over the same alerts, at any time and
    whatever fails in it, creates nothing and leaves the tables as they
    are. *)
Theorem seed_alerts_idempotent now now2 seeds items2 (t : tables) :
  map fst items2 = seeds ->
  createSampleAlerts now2 items2
    (fst (createSampleAlerts now
            (map (fun s => (s, no_alert_seed_errors)) seeds) t))
  = (fst (createSampleAlerts now
            (map (fun s => (s, no_alert_seed_errors)) seeds) t), 0%nat).
Proof.
  intros Hseeds. apply createSampleAlerts_noop. intros s e Hin.
  apply createSampleAlerts_seeded. rewrite <- Hseeds.
  apply in_map_iff. exists (s, e). auto.
Qed.

Lemma seed_alerts_idempotent_witness :
  let once :=
    fst (createSampleAlerts 5
           (map (fun s => (s, no_alert_seed_errors))
                SeedScenario.sampleAlerts)
           (store (Scenario.shop 5 15))) in
  List.length (alerts once) = 2%nat
  /\ createSampleAlerts 6
       (map (fun s => (s, no_alert_seed_errors)) SeedScenario.sampleAlerts)
       once = (once, 0%nat).
Proof.
  cbv zeta. split; [reflexivity|].
  apply seed_alerts_idempotent. reflexivity.
Defined.

(** X19. The seeder never doubles an active alert: if no product has two
    active alerts of one type before [createSampleAlerts] runs, none has
    afterwards, whatever the list of alerts to seed and whatever fails. *)
Theorem seed_alerts_no_duplicates now items (t : tables) :
  NoDup (active_keys t) ->
  NoDup (active_keys (fst (createSampleAlerts now items t))).
Proof.
  revert t. induction items as [|[s e] items IH]; intros t Hnd; [exact Hnd|].
  simpl. destruct (check_alert_err e); [now apply IH|].
  destruct (checkAlertExists _ _ t) eqn:E; [now apply IH|].
  destruct (seed_insert_alert_err e); [now apply IH|].
  specialize (IH (insert_alert now (seed_productId s) (seed_alertType s)
                    (seed_message s) (seed_priority s) t)).
  destruct (createSampleAlerts now items _) as [t' n]. simpl in *.
  apply IH. rewrite active_keys_insert.
  apply NoDup_app; [assumption|repeat constructor; intros []|].
  intros k Hk [<-|[]]. apply checkAlertExists_keys in Hk. congruence.
Qed.

Lemma seed_alerts_no_duplicates_witness :
  NoDup (active_keys
           (fst (createSampleAlerts 5
                   (map (fun s => (s, no_alert_seed_errors))
                        (SeedScenario.sampleAlerts
                         ++ SeedScenario.sampleAlerts))
                   (store (Scenario.shop 5 15))))).
Proof.
  apply seed_alerts_no_duplicates. constructor.
Defined.

Lemma update_inventory_quantity_nonneg now q pid (t : tables) :
  0 <= q -> nonneg_tables t ->
  nonneg_tables (update_inventory_quantity now q pid t).
Proof.
  unfold nonneg_tables, update_inventory_quantity. simpl. intros Hq Ht.
  apply Forall_map. eapply Forall_impl; [|exact Ht].
  intros r Hr. cbv beta in Hr |- *.
  destruct (Inventory.product_id r =? pid); [exact Hq|exact Hr].
Qed.

Lemma seed_movements_spec now adminId items (t : tables) :
  (nonneg_tables t ->
   nonneg_tables (fst (seed_movements now adminId items t)))
  /\ exists added,
       stock_movements (fst (seed_movements now adminId items t))
       = (stock_movements t ++ added)%list
       /\ Forall clamped added
       /\ (snd (seed_movements now adminId items t) <= List.length added
           <= List.length items)%nat
       /\ (Forall (fun it => update_quantity_err (snd it) = false) items ->
           List.length added = snd (seed_movements now adminId items t)).
Proof.
  revert t. induction items as [|[m e] items IH]; intros t.
  - simpl. split; [auto|]. exists []. rewrite app_nil_r.
    repeat split; auto.
  - simpl.
    assert (Hskip :
      (nonneg_tables t ->
       nonneg_tables (fst (seed_movements now adminId items t)))
      /\ exists added,
           stock_movements (fst (seed_movements now adminId items t))
           = (stock_movements t ++ added)%list
           /\ Forall clamped added
           /\ (snd (seed_movements now adminId items t) <= List.length added
               <= S (List.length items))%nat
           /\ (Forall (fun it => update_quantity_err (snd it) = false)
                      ((m, e) :: items) ->
               List.length added = snd (seed_movements now adminId items t))).
    { destruct (IH t) as (Hn & added & Ha & Hc & Hlen & Heq).
      split; [exact Hn|]. exists added. repeat split; auto; try lia.
      intros Hall. inversion Hall; subst. now apply Heq. }
    destruct (get_inventory_err e); [exact Hskip|].
    destruct (select_inventory (seed_product m) t) as [row|]; [|exact Hskip].
    destruct (seed_insert_movement_err e); [exact Hskip|].
    clear Hskip.
    set (newQuantity := Z.max 0 (Inventory.quantity row + seed_change m)).
    set (t1 := insert_stock_movement now (seed_product m) (seed_type m)
                 (seed_change m) (Inventory.quantity row) newQuantity
                 (seed_reason m) adminId t).
    destruct (update_quantity_err e) eqn:Hu.
    + destruct (IH t1) as (Hn & added & Ha & Hc & Hlen & _).
      split; [intros Ht; apply Hn; exact Ht|].
      eexists (_ :: added). rewrite Ha. unfold t1 at 1. simpl.
      rewrite <- app_assoc. split; [reflexivity|].
      split; [constructor; [reflexivity|exact Hc]|].
      split; [simpl; lia|].
      intros Hall. inversion Hall as [|? ? Hx _]; subst. simpl in Hx.
      congruence.
    + destruct (IH (update_inventory_quantity now newQuantity
                      (seed_product m) t1))
        as (Hn & added & Ha & Hc & Hlen & Heq).
      destruct (seed_movements now adminId items
                  (update_inventory_quantity now newQuantity (seed_product m)
                     t1)) as [t' n].
      simpl in *. split.
      * intros Ht. apply Hn. apply update_inventory_quantity_nonneg;
          [unfold newQuantity; lia|exact Ht].
      * eexists (_ :: added). rewrite Ha. simpl. rewrite <- app_assoc.
        split; [reflexivity|].
        split; [constructor; [reflexivity|exact Hc]|].
        split; [simpl; lia|].
        intros Hall. inversion Hall; subst. simpl. f_equal. now apply Heq.
Qed.

(** X20. The seeder clamps at zero.  [createSampleStockMovements] never
    makes a quantity negative: from tables without negative quantity it
    leaves tables without one.  Every movement row it appends has
    [new_quantity = max(0, previous_quantity + quantity_change)], so such
    a row satisfies [new = previous + change] exactly when the change
    does not take the stock below zero. *)
Theorem seeded_movements_clamp now adminUser items (t : tables) :
  (nonneg_tables t ->
   nonneg_tables (fst (createSampleStockMovements now adminUser items t)))
  /\ exists added,
       stock_movements (fst (createSampleStockMovements now adminUser items t))
       = (stock_movements t ++ added)%list
       /\ Forall
            (fun m =>
               0 <= StockMovements.new_quantity m
               /\ StockMovements.new_quantity m
                  = Z.max 0 (StockMovements.previous_quantity m
                             + StockMovements.quantity_change m)
               /\ (StockMovements.new_quantity m
                   = StockMovements.previous_quantity m
                     + StockMovements.quantity_change m
                   <-> 0 <= StockMovements.previous_quantity m
                            + StockMovements.quantity_change m))
            added.
Proof.
  unfold createSampleStockMovements. destruct adminUser as [adminId|].
  - destruct (seed_movements_spec now adminId items t)
      as (Hn & added & Ha & Hc & _).
    split; [exact Hn|]. exists added. split; [exact Ha|].
    eapply Forall_impl; [|exact Hc].
    intros m Hm. unfold clamped in Hm. rewrite Hm. lia.
  - simpl. split; [auto|]. exists []. now rewrite app_nil_r.
Qed.

Lemma seeded_movements_clamp_witness :
  nonneg_tables
    (fst (createSampleStockMovements 7 (Some 1)
            [ ({| seed_product := 2; seed_type := sale; seed_change := -25;
                  seed_reason := "Sales transactions" |},
               no_movement_seed_errors) ]
            (store (Scenario.shop 5 15))))
  /\ map Inventory.quantity
       (inventory
          (fst (createSampleStockMovements 7 (Some 1)
                  [ ({| seed_product := 2; seed_type := sale;
                        seed_change := -25;
                        seed_reason := "Sales transactions" |},
                     no_movement_seed_errors) ]
                  (store (Scenario.shop 5 15)))))
     = [0].
Proof.
  split; [|reflexivity].
  apply (proj1 (seeded_movements_clamp 7 (Some 1) _
                  (store (Scenario.shop 5 15)))).
  unfold nonneg_tables. simpl. repeat constructor. simpl. lia.
Defined.

(** X21. The seeder's count and its rows.  [createdCount] never exceeds
    the number of movement rows the run appended, which never exceeds the
    number of movements to seed; the two are equal when no inventory
    update failed.  A pass whose inventory update fails is not counted
    but leaves its movement row behind, with the quantity untouched: the
    seeder writes the movement before the quantity and undoes nothing. *)
Theorem seeded_movements_count now adminUser items (t : tables) :
  (exists added,
      stock_movements (fst (createSampleStockMovements now adminUser items t))
      = (stock_movements t ++ added)%list
      /\ (snd (createSampleStockMovements now adminUser items t)
          <= List.length added <= List.length items)%nat
      /\ (Forall (fun it => update_quantity_err (snd it) = false) items ->
          List.length added
          = snd (createSampleStockMovements now adminUser items t)))
  /\ (forall adminId m e row,
         adminUser = Some adminId ->
         items = [(m, e)] ->
         get_inventory_err e = false ->
         seed_insert_movement_err e = false ->
         update_quantity_err e = true ->
         select_inventory (seed_product m) t = Some row ->
         snd (createSampleStockMovements now adminUser items t) = 0%nat
         /\ inventory (fst (createSampleStockMovements now adminUser items t))
            = inventory t
         /\ exists r,
              stock_movements
                (fst (createSampleStockMovements now adminUser items t))
              = (stock_movements t ++ [r])%list
              /\ StockMovements.product_id r = seed_product m
              /\ StockMovements.previous_quantity r = Inventory.quantity row).
Proof.
  split.
  - unfold createSampleStockMovements. destruct adminUser as [adminId|].
    + destruct (seed_movements_spec now adminId items t)
        as (_ & added & Ha & _ & Hlen & Heq).
      exists added. auto.
    + exists []. simpl. rewrite app_nil_r. repeat split; auto; lia.
  - intros adminId m e row -> -> Hg Hi Hu Hrow. simpl.
    rewrite Hg, Hrow, Hi, Hu. simpl.
    split; [reflexivity|]. split; [reflexivity|].
    eexists. split; [reflexivity|]. split; reflexivity.
Qed.

Lemma seeded_movements_count_witness :
  (let items :=
     map (fun m => (m, no_movement_seed_errors))
         SeedScenario.sampleMovements in
   snd (createSampleStockMovements 7 (Some 1) items
          (store (Scenario.shop 5 15))) = 2%nat
   /\ List.length
        (stock_movements
           (fst (createSampleStockMovements 7 (Some 1) items
                   (store (Scenario.shop 5 15))))) = 2%nat)
  /\ (let items :=
        [ ({| seed_product := 2; seed_type := restock; seed_change := 30;
              seed_reason := "Weekly restock" |},
           SeedScenario.update_fails) ] in
      snd (createSampleStockMovements 7 (Some 1) items
             (store (Scenario.shop 5 15))) = 0%nat
      /\ inventory (fst (createSampleStockMovements 7 (Some 1) items
                           (store (Scenario.shop 5 15))))
         = [Scenario.mug_stock 5 15]).
Proof.
  cbv zeta. split.
  - split; [reflexivity|].
    destruct (proj1 (seeded_movements_count 7 (Some 1)
                       (map (fun m => (m, no_movement_seed_errors))
                            SeedScenario.sampleMovements)
                       (store (Scenario.shop 5 15))))
      as (added & Ha & _ & Heq).
    rewrite Ha. simpl. rewrite Heq; [reflexivity|].
    repeat constructor.
  - destruct (proj2 (seeded_movements_count 7 (Some 1)
                       [ ({| seed_product := 2; seed_type := restock;
                             seed_change := 30;
                             seed_reason := "Weekly restock" |},
                          SeedScenario.update_fails) ]
                       (store (Scenario.shop 5 15)))
                1 _ _ (Scenario.mug_stock 5 15) eq_refl eq_refl eq_refl
                eq_refl eq_refl eq_refl) as (Hn & Hi & _).
    split; [exact Hn|exact Hi].
Defined.

(** ** [POST /api/sales], further *)

(** X22. The validation of a sale request.  The request is refused with
    the validation error exactly when the product id is absent or 0, the
    quantity is absent, 0 or negative, or the unit price is absent or 0 (a
    negative price passes); the refusal comes before BEGIN, so the
    connection is returned as it was even inside an open transaction. *)
Theorem sale_validation f now u body db db' r :
  post_sales f now u body db = (db', r) ->
  (r = validation_error <->
   (body_product_id body = None \/ body_product_id body = Some 0)
   \/ (body_quantity_sold body = None
       \/ exists q, body_quantity_sold body = Some q /\ q <= 0)
   \/ (body_unit_price body = None
       \/ exists p, body_unit_price body = Some p /\ (p == 0)%Q))
  /\ (r = validation_error -> db' = db).
Proof.
  unfold post_sales, insert_sale, validation_error.
  destruct (body_product_id body) as [pid|];
    [|simpl; intros H; injection H as <- <-; split; [split|]; auto].
  destruct (body_quantity_sold body) as [qs|];
    [|simpl; rewrite orb_true_r; intros H; injection H as <- <-;
      split; [split|]; auto].
  destruct (body_unit_price body) as [price|];
    [|simpl; rewrite !orb_true_r; intros H; injection H as <- <-;
      split; [split|]; auto].
  simpl falsy_Z. simpl falsy_Q.
  destruct (Z.eqb_spec pid 0) as [Hp|Hp];
    [simpl; intros H; injection H as <- <-; subst pid;
     split; [split|]; auto|].
  destruct (Z.eqb_spec qs 0) as [Hq|Hq];
    [simpl; intros H; injection H as <- <-; subst qs;
     split; [split|]; auto; intros _; right; left; right; exists 0;
     split; [reflexivity|lia]|].
  destruct (Qeq_bool price 0) eqn:Hu;
    [simpl; intros H; injection H as <- <-;
     split; [split|]; auto; intros _; right; right; right; exists price;
     split; [reflexivity|now apply Qeq_bool_iff]|].
  destruct (Z.leb_spec qs 0) as [Hle|Hle];
    [simpl; intros H; injection H as <- <-;
     split; [split|]; auto; intros _; right; left; right; exists qs;
     split; [reflexivity|lia]|].
  simpl orb. cbv iota.
  assert (Hvalid : ~ ((Some pid = None \/ Some pid = Some 0)
                      \/ (Some qs = None
                          \/ exists q, Some qs = Some q /\ q <= 0)
                      \/ (Some price = None
                          \/ exists p, Some price = Some p /\ (p == 0)%Q))).
  { intros [[H|H]|[[H|(q & H & Hq0)]|[H|(p & H & Hp0)]]];
      try discriminate H.
    - injection H as ->. contradiction.
    - injection H as <-. lia.
    - injection H as <-. apply Qeq_bool_iff in Hp0. congruence. }
  destruct (if select_inventory_err f then None else _);
    [|intros H; injection H as <- <-; split; [split|]; intros H;
      [discriminate H|contradiction|discriminate H]].
  destruct (_ <? _);
    [intros H; injection H as <- <-; split; [split|]; intros H;
     [discriminate H|contradiction|discriminate H]|].
  destruct (insert_sale_err f);
    [intros H; injection H as <- <-; split; [split|]; intros H;
     [discriminate H|contradiction|discriminate H]|].
  cbv beta iota zeta.
  destruct (update_inventory_err f);
    intros H; injection H as <- <-; (split; [split|]); intros H;
    try discriminate H; contradiction.
Qed.

Lemma sale_validation_witness :
  post_sales no_faults 50 Scenario.sarah (Scenario.sell 3 0)
             (Scenario.shop 5 15)
  = (Scenario.shop 5 15, validation_error).
Proof.
  destruct (post_sales no_faults 50 Scenario.sarah (Scenario.sell 3 0)
                       (Scenario.shop 5 15)) as [db' r] eqn:E.
  destruct (sale_validation no_faults 50 Scenario.sarah (Scenario.sell 3 0)
              (Scenario.shop 5 15) db' r E) as [Hiff Hsame].
  assert (Hr : r = validation_error).
  { apply Hiff. right. right. right. exists 0%Q. split; reflexivity. }
  rewrite (Hsame Hr), Hr. reflexivity.
Defined.

(** X23. A sale for a product without inventory row is refused with
    "Product not found in inventory", and so is a sale whose inventory
    lookup fails; on an idle connection nothing is changed. *)
Theorem sale_unknown_product f now u body db pid qs price :
  idle db ->
  body_product_id body = Some pid -> pid <> 0 ->
  body_quantity_sold body = Some qs -> 0 < qs ->
  body_unit_price body = Some price -> ~ (price == 0)%Q ->
  select_inventory_err f = true \/ select_inventory pid (store db) = None ->
  post_sales f now u body db
  = (db, BadRequest "Product not found in inventory").
Proof.
  intros Hidle Hp Hp0 Hq Hq0 Hu Hu0 Hnone.
  unfold post_sales. rewrite Hp, Hq, Hu. simpl.
  apply Z.eqb_neq in Hp0. rewrite Hp0.
  assert (Hq1 : (qs =? 0) = false) by (apply Z.eqb_neq; lia).
  rewrite Hq1.
  assert (Hu1 : Qeq_bool price 0 = false).
  { destruct (Qeq_bool price 0) eqn:E; [|reflexivity].
    apply Qeq_bool_iff in E. contradiction. }
  rewrite Hu1.
  assert (Hq2 : (qs <=? 0) = false) by (apply Z.leb_gt; lia).
  rewrite Hq2. simpl. rewrite store_begin.
  assert (Hsel : (if select_inventory_err f then None
                  else select_inventory pid (store db)) = None).
  { destruct Hnone as [->| ->]; [reflexivity|].
    destruct (select_inventory_err f); reflexivity. }
  rewrite Hsel. now rewrite rollback_begin_idle.
Qed.

Lemma sale_unknown_product_witness :
  post_sales no_faults 50 Scenario.sarah (Scenario.sell 1 (1295 # 100))
             CreateScenario.shop_without_stock
  = (CreateScenario.shop_without_stock,
     BadRequest "Product not found in inventory").
Proof.
  apply (sale_unknown_product no_faults 50 Scenario.sarah
           (Scenario.sell 1 (1295 # 100)) CreateScenario.shop_without_stock
           2 1 (1295 # 100)).
  - reflexivity.
  - reflexivity.
  - lia.
  - reflexivity.
  - lia.
  - reflexivity.
  - intros H. vm_compute in H. discriminate H.
  - right. reflexivity.
Defined.

(** X24. The movement row of a sale points back at the sale: when its
    insert does not fail, the one row appended to the audit trail has the
    kind 'sale', the product and minus the quantity of the request, the
    user id of the caller, and the reason "Sale #" followed by the id the
    response carries. *)
Theorem sale_movement_references_sale f now u body db db' sid nq flag :
  post_sales f now u body db = (db', SaleCreated sid nq flag) ->
  insert_movement_err f = false ->
  exists m,
    stock_movements (store db') = (stock_movements (store db) ++ [m])%list
    /\ StockMovements.movement_type m = sale
    /\ Some (StockMovements.product_id m) = body_product_id body
    /\ Some (- StockMovements.quantity_change m) = body_quantity_sold body
    /\ StockMovements.user_id m = userId u
    /\ StockMovements.reason m = "Sale #" ++ string_of_Z sid
    /\ StockMovements.created_at m = now.
Proof.
  intros H Hm.
  pose proof (post_sales_created _ _ _ _ _ _ _ _ _ H)
    as (pid & qs & price & row & Hp & Hq & _ & _ & Hrow & _ & _ & _ & Hsid
        & _).
  pose proof (post_sales_created_frame _ _ _ _ _ _ _ _ _ H)
    as (pid' & qs' & price' & row' & Hp' & Hq' & _ & Hrow' & _ & _ & _ & _
        & Hmv).
  assert (pid' = pid) by congruence. subst pid'.
  assert (qs' = qs) by congruence. subst qs'.
  rewrite committed_sale_movements, Hm in Hmv.
  eexists. split; [exact Hmv|].
  cbn [StockMovements.movement_type StockMovements.product_id
       StockMovements.quantity_change StockMovements.user_id
       StockMovements.reason StockMovements.created_at].
  rewrite Hp, Hq, Hsid, Z.opp_involutive. repeat split.
Qed.

Lemma sale_movement_references_sale_witness :
  exists m,
    stock_movements
      (store (fst (post_sales no_faults 50 Scenario.sarah
                     (Scenario.sell 3 (1295 # 100)) (Scenario.shop 5 15))))
    = [m]
    /\ StockMovements.reason m = "Sale #1".
Proof.
  destruct (sale_movement_references_sale no_faults 50 Scenario.sarah
              (Scenario.sell 3 (1295 # 100)) (Scenario.shop 5 15) _ 1 2 true
              eq_refl eq_refl)
    as (m & Hm & _ & _ & _ & _ & Hr & _).
  exists m. split; [exact Hm|exact Hr].
Defined.

(** ** What an accepted product update writes *)

Lemma update_product_rows f now id b t t' n :
  update_product f now id b t = Some (t', n) ->
  n <> 0 ->
  exists name category sell_price,
    body_name b = Some name /\ body_category b = Some category
    /\ body_sell_price b = Some sell_price
    /\ products t' =
       map (fun p =>
              if Products.id p =? id
              then {| Products.id := Products.id p; Products.name := name;
                      Products.category := category;
                      Products.supplier := body_supplier b;
                      Products.cost_price := body_cost_price b;
                      Products.sell_price := sell_price;
                      Products.description := body_description b;
                      Products.sku := body_sku b;
                      Products.updated_at := now |}
              else p)
           (products t).
Proof.
  unfold update_product.
  destruct (update_product_err f); [discriminate|].
  destruct (select_product id t).
  - destruct (body_name b) as [name|]; [|discriminate].
    destruct (body_category b) as [category|]; [|discriminate].
    destruct (body_sell_price b) as [price|]; [|discriminate].
    destruct (existsb _ _); [discriminate|].
    intros H _. injection H as <- _.
    exists name, category, price. auto.
  - intros H Hn. injection H as _ <-. now elim Hn.
Qed.

Lemma put_product_ok_changed f now u id b db db' msg :
  put_product f now u id b db = (db', Ok msg) ->
  exists t1 n,
    update_product f now id b (store db) = Some (t1, n) /\ n <> 0.
Proof.
  unfold put_product. cbv zeta. rewrite store_begin.
  destruct (update_product f now id b (store db)) as [[t1 n]|];
    [|intros H; discriminate H].
  destruct (Z.eqb_spec n 0); [intros H; discriminate H|].
  intros _. exists t1, n. auto.
Qed.

Lemma update_inventory_cases f now id b t t' :
  update_inventory f now id b t = Some t' ->
  (select_inventory id t = None /\ t' = t)
  \/ exists quantity reorder_level,
       body_quantity b = Some quantity
       /\ body_reorder_level b = Some reorder_level
       /\ inventory t' =
          map (fun r =>
                 if Inventory.product_id r =? id
                 then {| Inventory.id := Inventory.id r;
                         Inventory.product_id := Inventory.product_id r;
                         Inventory.quantity := quantity;
                         Inventory.reorder_level := reorder_level;
                         Inventory.max_stock_level := body_max_stock_level b;
                         Inventory.location := body_location b;
                         Inventory.updated_at := now |}
                 else r)
              (inventory t).
Proof.
  unfold update_inventory.
  destruct (update_inventory_err f); [discriminate|].
  destruct (select_inventory id t).
  - destruct (body_quantity b) as [q|]; [|discriminate].
    destruct (body_reorder_level b) as [rl|]; [|discriminate].
    intros H. injection H as <-. right. exists q, rl. auto.
  - intros H. injection H as <-. now left.
Qed.

Lemma update_inventory_products f now id b t t' :
  update_inventory f now id b t = Some t' -> products t' = products t.
Proof.
  unfold update_inventory.
  destruct (update_inventory_err f); [discriminate|].
  destruct (select_inventory id t).
  - destruct (body_quantity b); [|discriminate].
    destruct (body_reorder_level b); [|discriminate].
    intros H. now injection H as <-.
  - intros H. now injection H as <-.
Qed.

Lemma log_adjustment_products f now u id b prev t :
  products (log_adjustment f now u id b prev t) = products t.
Proof.
  unfold log_adjustment.
  destruct (strict_neq _ _); [|reflexivity].
  destruct (body_quantity b); [|reflexivity].
  destruct (insert_movement_err f); reflexivity.
Qed.

(** X25. An accepted product update overwrites, it does not merge.  After
    an answer of 200 the product row has exactly the columns of the
    request and every inventory row of the product has exactly the
    inventory fields of the request: an optional field that the request
    leaves out (supplier, cost price, description, sku, maximum stock
    level, location) is stored as NULL, whatever it was before. *)
Theorem update_overwrites_every_field f now u id b db db' msg :
  put_product f now u id b db = (db', Ok msg) ->
  (forall p, In p (products (store db')) -> Products.id p = id ->
     Some (Products.name p) = body_name b
     /\ Some (Products.category p) = body_category b
     /\ Some (Products.sell_price p) = body_sell_price b
     /\ Products.supplier p = body_supplier b
     /\ Products.cost_price p = body_cost_price b
     /\ Products.description p = body_description b
     /\ Products.sku p = body_sku b
     /\ Products.updated_at p = now)
  /\ (forall i, In i (inventory (store db')) -> Inventory.product_id i = id ->
        Some (Inventory.quantity i) = body_quantity b
        /\ Some (Inventory.reorder_level i) = body_reorder_level b
        /\ Inventory.max_stock_level i = body_max_stock_level b
        /\ Inventory.location i = body_location b
        /\ Inventory.updated_at i = now).
Proof.
  intros H.
  destruct (put_product_ok_changed _ _ _ _ _ _ _ _ H)
    as (t1' & n' & Hup' & Hn).
  apply put_product_ok in H.
  destruct H as (t1 & n & t2 & Hup & Hinv & ->).
  assert (t1' = t1 /\ n' = n) as [-> ->] by (split; congruence).
  clear Hup'. simpl store. split.
  - intros p Hp Hid.
    rewrite log_adjustment_products,
      (update_inventory_products _ _ _ _ _ _ Hinv) in Hp.
    destruct (update_product_rows _ _ _ _ _ _ _ Hup Hn)
      as (name & category & price & -> & -> & -> & Hmap).
    rewrite Hmap in Hp. apply in_map_iff in Hp.
    destruct Hp as (p0 & Hp0 & _).
    destruct (Z.eqb_spec (Products.id p0) id) as [E|E].
    + subst p. simpl. repeat split.
    + subst p. contradiction.
  - intros i Hi Hid. rewrite log_adjustment_inventory in Hi.
    destruct (update_inventory_cases _ _ _ _ _ _ Hinv)
      as [[Hsel ->]|(q & rl & Hq & Hrl & Hmap)].
    + exfalso. unfold select_inventory in Hsel.
      pose proof (find_none _ _ Hsel i Hi) as Hne. simpl in Hne.
      apply Z.eqb_neq in Hne. contradiction.
    + rewrite Hmap in Hi. apply in_map_iff in Hi.
      destruct Hi as (i0 & Hi0 & _).
      destruct (Z.eqb_spec (Inventory.product_id i0) id) as [E|E].
      * subst i. simpl. rewrite Hq, Hrl. repeat split.
      * subst i. contradiction.
Qed.

Lemma update_overwrites_every_field_witness :
  Forall (fun i => Inventory.location i = None
                   /\ Inventory.max_stock_level i = None)
    (inventory
       (store (fst (put_product no_faults 60 Scenario.mike 2
                      {| body_name := Some "Harvard Mug";
                         body_category := Some "Accessories";
                         body_supplier := None;
                         body_cost_price := None;
                         body_sell_price := Some (1295 # 100);
                         body_description := None;
                         body_sku := None;
                         body_quantity := Some 5;
                         body_reorder_level := Some 15;
                         body_max_stock_level := None;
                         body_location := None |}
                      (Scenario.shop 5 15))))).
Proof.
  apply Forall_forall. intros i Hi.
  destruct (update_overwrites_every_field no_faults 60 Scenario.mike 2
              {| body_name := Some "Harvard Mug";
                 body_category := Some "Accessories";
                 body_supplier := None; body_cost_price := None;
                 body_sell_price := Some (1295 # 100);
                 body_description := None; body_sku := None;
                 body_quantity := Some 5; body_reorder_level := Some 15;
                 body_max_stock_level := None; body_location := None |}
              (Scenario.shop 5 15) _ "Product updated successfully" eq_refl)
    as [_ H].
  destruct (H i Hi) as (_ & _ & Hmax & Hloc & _).
  - destruct Hi as [<-|[]]. reflexivity.
  - split; assumption.
Defined.

(** ** Creation, then lookup *)

Lemma find_snoc_fresh {A} (p : A -> bool) (l : list A) (x : A) :
  (forall y, In y l -> p y = false) -> p x = true ->
  find p (l ++ [x]) = Some x.
Proof.
  intros Hl Hx. induction l as [|y l IH]; simpl; [now rewrite Hx|].
  rewrite (Hl y (or_introl eq_refl)). apply IH.
  intros z Hz. apply Hl. now right.
Qed.

(** X26. A created product is found again.  When the rowid the engine
    assigns is new to the products and to the inventory, the lookups the
    other handlers use return, for the id of the answer, the product row
    and the inventory row just written: the product can be updated and
    sold, from a stock of the quantity of the request (0 when it carries
    none). *)
Theorem created_product_is_found e now u b db db' id :
  post_products e now u b db = (db', ProductCreated id) ->
  (forall p, In p (products (store db)) -> Products.id p <> product_rowid e) ->
  (forall i, In i (inventory (store db)) ->
             Inventory.product_id i <> product_rowid e) ->
  (exists p, select_product id (store db') = Some p
             /\ Some (Products.name p) = body_name b
             /\ Some (Products.sell_price p) = body_sell_price b)
  /\ (exists i, select_inventory id (store db') = Some i
                /\ Inventory.quantity i = or_default 0 (body_quantity b))
  /\ quantity_on_hand id (store db') = or_default 0 (body_quantity b).
Proof.
  intros H Hfp Hfi. apply post_products_created in H.
  destruct H as (name & category & sell_price & Hn & _ & _ & _ & Hs & _ & ->
                 & _ & Hp & Hi & _).
  assert (Hsp : select_product (product_rowid e) (store db')
                = Some {| Products.id := product_rowid e;
                          Products.name := name;
                          Products.category := category;
                          Products.supplier := body_supplier b;
                          Products.cost_price := body_cost_price b;
                          Products.sell_price := sell_price;
                          Products.description := body_description b;
                          Products.sku := body_sku b;
                          Products.updated_at := now |}).
  { unfold select_product. rewrite Hp. apply find_snoc_fresh.
    - intros y Hy. apply Z.eqb_neq. now apply Hfp.
    - simpl. apply Z.eqb_refl. }
  assert (Hsi : select_inventory (product_rowid e) (store db')
                = Some {| Inventory.id := inventory_rowid e;
                          Inventory.product_id := product_rowid e;
                          Inventory.quantity :=
                            or_default 0 (body_quantity b);
                          Inventory.reorder_level :=
                            or_default 10 (body_reorder_level b);
                          Inventory.max_stock_level :=
                            Some (or_default 100 (body_max_stock_level b));
                          Inventory.location :=
                            Some (or_default "Main Store" (body_location b));
                          Inventory.updated_at := now |}).
  { unfold select_inventory. rewrite Hi. apply find_snoc_fresh.
    - intros y Hy. apply Z.eqb_neq. now apply Hfi.
    - simpl. apply Z.eqb_refl. }
  split; [|split].
  - eexists. split; [exact Hsp|]. simpl. rewrite Hn, Hs. auto.
  - eexists. split; [exact Hsi|]. reflexivity.
  - unfold quantity_on_hand, previous_quantity_of. now rewrite Hsi.
Qed.

Lemma created_product_is_found_witness :
  quantity_on_hand 11
    (store (fst (post_products CreateScenario.engine 40 Scenario.mike
                   (CreateScenario.scarf None (Some 20))
                   (Scenario.shop 5 15)))) = 20.
Proof.
  destruct (created_product_is_found CreateScenario.engine 40 Scenario.mike
              (CreateScenario.scarf None (Some 20)) (Scenario.shop 5 15)
              _ 11 eq_refl) as (_ & _ & H).
  - intros p [<-|[]]. simpl. lia.
  - intros i [<-|[]]. simpl. lia.
  - exact H.
Defined.

(** ** Append-only ledgers *)

Lemma extends_ledgers_refl db : extends_ledgers db db.
Proof.
  unfold extends_ledgers. repeat split; exists []; now rewrite app_nil_r.
Qed.

Lemma extends_ledgers_trans db1 db2 db3 :
  extends_ledgers db1 db2 -> extends_ledgers db2 db3 ->
  extends_ledgers db1 db3.
Proof.
  unfold extends_ledgers.
  intros ((s1 & H1) & (m1 & H2) & (a1 & H3))
         ((s2 & H4) & (m2 & H5) & (a2 & H6)).
  repeat split.
  - exists (s1 ++ s2)%list. now rewrite H4, H1, app_assoc.
  - exists (m1 ++ m2)%list. now rewrite H5, H2, app_assoc.
  - exists (a1 ++ a2)%list. now rewrite H6, H3, app_assoc.
Qed.

Lemma createLowStockAlert_extends f now pid q r db :
  extends_ledgers db (createLowStockAlert f now pid q r db).
Proof.
  pose proof (createLowStockAlert_frame f now pid q r db) as Hf.
  cbv zeta in Hf. destruct Hf as (_ & _ & _ & Hs & Hm).
  destruct (createLowStockAlert_adds f now pid q r db) as (added & Ha & _).
  unfold extends_ledgers. repeat split.
  - exists []. now rewrite app_nil_r.
  - exists []. now rewrite app_nil_r.
  - exists (map Alerts.id added). now rewrite Ha, map_app.
Qed.

Lemma post_sales_extends f now u body db :
  idle db -> extends_ledgers db (fst (post_sales f now u body db)).
Proof.
  intros Hidle.
  destruct (post_sales f now u body db) as [db' r0] eqn:E. simpl.
  destruct (is_created r0) eqn:Hr.
  - destruct r0; try discriminate Hr. apply post_sales_created in E.
    destruct E as (pid & qs & price & row & _ & _ & _ & _ & _ & _ & _ & _ & _
                   & _ & _ & Hdb).
    cbv zeta in Hdb.
    assert (H3 : extends_ledgers db
                   {| store := committed_sale f now u body pid qs price row
                                 (store db); txn := None |}).
    { unfold extends_ledgers. simpl.
      rewrite committed_sale_sales, committed_sale_movements.
      destruct (committed_sale_frame f now u body pid qs price row (store db))
        as [_ ->].
      repeat split.
      - eexists. reflexivity.
      - destruct (insert_movement_err f);
          [exists []; now rewrite app_nil_r|eexists; reflexivity].
      - exists []. now rewrite app_nil_r. }
    subst db'. destruct lowStockAlert; [|exact H3].
    eapply extends_ledgers_trans; [exact H3|].
    apply createLowStockAlert_extends.
  - rewrite (post_sales_not_created _ _ _ _ _ _ _ Hidle E Hr).
    apply extends_ledgers_refl.
Qed.

Lemma update_inventory_frame f now id b t t' :
  update_inventory f now id b t = Some t' ->
  sales t' = sales t /\ alerts t' = alerts t
  /\ stock_movements t' = stock_movements t.
Proof.
  unfold update_inventory.
  destruct (update_inventory_err f); [discriminate|].
  destruct (select_inventory id t).
  - destruct (body_quantity b); [|discriminate].
    destruct (body_reorder_level b); [|discriminate].
    intros H. injection H as <-. simpl. tauto.
  - intros H. injection H as <-. tauto.
Qed.

Lemma put_product_extends f now u id b db :
  idle db -> extends_ledgers db (fst (put_product f now u id b db)).
Proof.
  intros Hidle.
  destruct (put_product f now u id b db) as [db' r0] eqn:E. simpl.
  destruct (is_ok r0) eqn:Hr.
  - destruct r0; try discriminate Hr. apply put_product_ok in E.
    destruct E as (t1 & n & t2 & Hup & Hinv & ->).
    apply update_product_frame in Hup.
    destruct Hup as (_ & Hs1 & Ha1 & Hm1 & _).
    apply update_inventory_frame in Hinv. destruct Hinv as (Hs2 & Ha2 & Hm2).
    unfold extends_ledgers, log_adjustment. simpl.
    destruct (strict_neq _ _);
      [destruct (body_quantity b);
       [destruct (insert_movement_err f)|]|]; simpl;
      rewrite ?Hs2, ?Hs1, ?Ha2, ?Ha1, ?Hm2, ?Hm1; repeat split;
      try (exists []; now rewrite app_nil_r); eexists; reflexivity.
  - rewrite (put_product_not_ok _ _ _ _ _ _ _ _ E Hr).
    rewrite rollback_begin_idle by assumption. apply extends_ledgers_refl.
Qed.

Lemma resolve_alert_extends f now u id db :
  extends_ledgers db (fst (resolve_alert f now u id db)).
Proof.
  unfold resolve_alert.
  destruct (update_alert_err f); [apply extends_ledgers_refl|].
  assert (H : map Alerts.id
                (map (fun a => if Alerts.id a =? id
                               then resolve_row now (username u) a else a)
                     (alerts (store db)))
              = map Alerts.id (alerts (store db))).
  { rewrite map_map. apply map_ext. intros a.
    destruct (Alerts.id a =? id); reflexivity. }
  destruct (_ =? _)%nat; unfold extends_ledgers; simpl; rewrite H;
    repeat split; exists []; now rewrite app_nil_r.
Qed.

Lemma post_products_extends e now u b db :
  idle db ->
  extends_ledgers db (fst (post_products e now u b db))
  /\ idle (fst (post_products e now u b db)).
Proof.
  intros Hidle.
  destruct (post_products e now u b db) as [db' r0] eqn:E. simpl.
  destruct r0 as [r|id].
  - destruct (post_products_refused_gen _ _ _ _ _ _ _ E) as [->| ->].
    + split; [apply extends_ledgers_refl|assumption].
    + rewrite rollback_begin_idle by assumption.
      split; [apply extends_ledgers_refl|assumption].
  - apply post_products_created in E.
    destruct E as (name & category & price & _ & _ & _ & _ & _ & _ & _ & Ht
                   & _ & _ & Hs & Ha & Hm).
    split; [|exact Ht]. unfold extends_ledgers. rewrite Hs, Ha, Hm.
    repeat split; try (exists []; now rewrite app_nil_r).
    destruct (_ && _); [eexists; reflexivity|exists []; now rewrite app_nil_r].
Qed.

Lemma daily_stock_check_extends select_err f now db :
  extends_ledgers db (daily_stock_check select_err f now db)
  /\ txn (daily_stock_check select_err f now db) = txn db.
Proof.
  unfold daily_stock_check. destruct select_err;
    [split; [apply extends_ledgers_refl|reflexivity]|].
  fold (check_all f now (stock_check_rows (store db)) db).
  destruct (check_all_frame f now (stock_check_rows (store db)) db)
    as (Ht & _ & _ & Hs & Hm).
  destruct (check_all_adds f now (stock_check_rows (store db)) db)
    as (added & Ha & _).
  split; [|exact Ht]. unfold extends_ledgers. rewrite Hs, Hm, Ha, map_app.
  repeat split; try (exists []; now rewrite app_nil_r).
  eexists. reflexivity.
Qed.

(** X27. The ledgers are append-only.  Over any sequence of sale
    requests, product updates, alert resolutions, product creations and
    daily stock checks, started on an idle connection and whatever fails
    on the way, the sales table and the audit trail only grow at the end:
    no Sale row and no StockMovement row is ever changed or removed.  No
    alert is ever removed either (alerts keep their ids and order; new
    ones come after), and the connection is idle again at the end. *)
Theorem ledgers_are_append_only ops db :
  idle db ->
  extends_ledgers db (perform_all ops db) /\ idle (perform_all ops db).
Proof.
  revert db. induction ops as [|o ops IH]; intros db Hidle.
  - split; [apply extends_ledgers_refl|assumption].
  - simpl.
    assert (Hstep : extends_ledgers db (perform o db) /\ idle (perform o db)).
    { destruct o as [c|e now u b|se f now]; simpl.
      - split; [|now apply handle_idle]. unfold handle.
        destruct (call_request c) as [body|id b|id].
        + now apply post_sales_extends.
        + now apply put_product_extends.
        + apply resolve_alert_extends.
      - now apply post_products_extends.
      - destruct (daily_stock_check_extends se f now db) as [He Ht].
        split; [exact He|]. unfold idle in *. congruence. }
    destruct Hstep as [He Hi]. destruct (IH _ Hi) as [He' Hi'].
    split; [|exact Hi']. eapply extends_ledgers_trans; eauto.
Qed.

Lemma ledgers_are_append_only_witness :
  let ops :=
    [ Request {| call_faults := Scenario.movement_log_fails;
                 call_time := 50; call_user := Scenario.sarah;
                 call_request := PostSale (Scenario.sell 3 (1295 # 100)) |};
      CreateProduct CreateScenario.engine 55 Scenario.mike
                    (CreateScenario.scarf None (Some 20));
      StockCheck false no_faults 900;
      Request {| call_faults := no_faults; call_time := 950;
                 call_user := Scenario.mike;
                 call_request := ResolveAlert 1 |} ] in
  extends_ledgers (Scenario.shop 5 15) (perform_all ops (Scenario.shop 5 15))
  /\ List.length (sales (store (perform_all ops (Scenario.shop 5 15))))
     = 1%nat.
Proof.
  cbv zeta. split; [|reflexivity].
  apply ledgers_are_append_only. reflexivity.
Defined.
